(** * Order lifecycle and real-time notification fan-out

    A shallow embedding of the order state machine ([apps/orders]), the
    channel-layer notifier ([apps/utils/websocket_helpers.py]) and the
    WebSocket consumers and notification records ([apps/websocket]).

    Conventions of the embedding:
    - [CharField]s are [string]s, nullable columns are [option]s,
      [DateTimeField]s are integer instants, primary keys are integers;
    - a foreign key is kept as the referenced primary key where the code
      only tests it for presence or compares it (Django compares model
      instances by primary key), and as the loaded row where the code
      reads its columns ([select_related]);
    - Python code that mutates an instance and the database runs in a
      state monad whose state survives a raised exception;
    - [timezone.now()] and [datetime.utcnow()] read the [clock] of the
      world. *)

From stdpp Require Import base gmap sets list strings pretty.
From Stdlib Require Import ZArith Lia.

Local Open Scope Z_scope.
Local Open Scope string_scope.

(** ** Python values and truthiness *)

(** Python's [==] and [!=] on values with decidable equality. *)
Notation "x == y" := (bool_decide (x = y)) (at level 70, no associativity).
Notation "x != y" := (negb (bool_decide (x = y))) (at level 70, no associativity).

(** Values decoded by [json.loads]; floats do not occur in the messages
    the consumers inspect. *)
Unset Elimination Schemes.
Inductive JSON : Type :=
| JNull
| JBool (b : bool)
| JInt (z : Z)
| JStr (s : string)
| JList (l : list JSON)
| JDict (d : list (string * JSON)).
Set Elimination Schemes.

(** [bool(v)] for a decoded value. *)
Definition truthy (v : JSON) : bool :=
  match v with
  | JNull => false
  | JBool b => b
  | JInt z => z != 0
  | JStr s => s != ""
  | JList l => match l with [] => false | _ => true end
  | JDict d => match d with [] => false | _ => true end
  end.

(** [d.get(key)] on a decoded object: the last binding of a repeated key
    wins in [json.loads], so the association list is kept with the live
    binding first; a missing key gives [None]. *)
Fixpoint dict_get (key : string) (d : list (string * JSON)) : JSON :=
  match d with
  | [] => JNull
  | (k, v) :: rest => if k == key then v else dict_get key rest
  end.

(** [key in d]. *)
Fixpoint dict_has (key : string) (d : list (string * JSON)) : bool :=
  match d with
  | [] => false
  | (k, _) :: rest => (k == key) || dict_has key rest
  end.

(** Truthiness of an optional integer ([None] and [0] are falsy). *)
Definition truthy_int (v : option Z) : bool :=
  match v with
  | Some z => z != 0
  | None => false
  end.

(** Truthiness of an optional string ([None] and [""] are falsy). *)
Definition truthy_str (v : option string) : bool :=
  match v with
  | Some s => s != ""
  | None => false
  end.

(** Truthiness of a nullable object reference or timestamp: model
    instances and [datetime] objects are always truthy. *)
Definition is_set {A : Type} (v : option A) : bool :=
  match v with
  | Some _ => true
  | None => false
  end.

(** ** Exceptions and the state monad *)

Inductive Exception : Type :=
| OrderNotFoundError
| InsufficientPermissionsError (detail : string)
| InvalidOrderStatusError
| PaymentProcessingError (detail : string)
| ValidationError (detail : string)
| DoesNotExist
| DatabaseError
| AttributeError
| TypeError
| ValueError.

Inductive Outcome (A : Type) : Type :=
| Return (a : A)
| Raise (e : Exception).
Arguments Return {A} a.
Arguments Raise {A} e.

(** A computation over a state [S]: the state after the call is returned
    in both outcomes, as a Python caller observes the mutations made
    before an exception was raised. *)
Definition M (S A : Type) : Type := S -> S * Outcome A.

Definition ret {S A : Type} (a : A) : M S A := fun s => (s, Return a).

Definition bind {S A B : Type} (m : M S A) (k : A -> M S B) : M S B :=
  fun s =>
    match m s with
    | (s', Return a) => k a s'
    | (s', Raise e) => (s', Raise e)
    end.

Definition raise {S A : Type} (e : Exception) : M S A := fun s => (s, Raise e).

Definition get {S : Type} : M S S := fun s => (s, Return s).

Definition put {S : Type} (s : S) : M S unit := fun _ => (s, Return tt).

(** [try: m except Exception as e: h e]. *)
Definition try_except {S A : Type} (m : M S A) (h : Exception -> M S A) : M S A :=
  fun s =>
    match m s with
    | (s', Return a) => (s', Return a)
    | (s', Raise e) => h e s'
    end.

Notation "x <- c1 ;; c2" := (bind c1 (fun x => c2))
  (at level 100, c1 at next level, right associativity).
Notation "c1 ;; c2" := (bind c1 (fun _ => c2))
  (at level 100, right associativity).

(** ** Users ([apps/users/models.py]) *)

Module User.

Module Role.
Definition CLIENT : string := "client".
Definition WORKER : string := "worker".
Definition ADMIN : string := "admin".
End Role.

Module Gender.
Definition MALE : string := "male".
Definition FEMALE : string := "female".
End Gender.

Record t : Type := mk {
  id : Z;
  username : string;
  role : string;
  gender : option string
}.

#[global] Instance eq_dec : EqDecision t.
Proof. solve_decision. Defined.

Definition is_client (self : t) : bool := role self == Role.CLIENT.
Definition is_worker (self : t) : bool := role self == Role.WORKER.
Definition is_admin (self : t) : bool := role self == Role.ADMIN.

End User.

(** ** Orders ([apps/orders/models.py]): the record and its pure part *)

Module Order.

Module Status.
Definition PENDING : string := "pending".
Definition PAID : string := "paid".
Definition IN_PROGRESS : string := "in_progress".
Definition COMPLETED : string := "completed".
Definition CANCELED : string := "canceled".

(** The members of the [TextChoices] enumeration. *)
Inductive member : Type := Pending | Paid | InProgress | Completed | Canceled.

Definition value (m : member) : string :=
  match m with
  | Pending => PENDING
  | Paid => PAID
  | InProgress => IN_PROGRESS
  | Completed => COMPLETED
  | Canceled => CANCELED
  end.

Definition members : list member :=
  [Pending; Paid; InProgress; Completed; Canceled].
End Status.

(** [worker] holds the column [worker_id]. *)
Record t : Type := mk {
  pk : option Z;
  service_name : string;
  description : string;
  price : Z;
  status : string;
  client : User.t;
  worker : option Z;
  created_at : option Z;
  updated_at : option Z;
  paid_at : option Z;
  completed_at : option Z
}.

#[global] Instance eq_dec : EqDecision t.
Proof. solve_decision. Defined.

Definition set_pk (v : option Z) (o : t) : t :=
  mk v (service_name o) (description o) (price o) (status o) (client o)
     (worker o) (created_at o) (updated_at o) (paid_at o) (completed_at o).
Definition set_service_name (v : string) (o : t) : t :=
  mk (pk o) v (description o) (price o) (status o) (client o)
     (worker o) (created_at o) (updated_at o) (paid_at o) (completed_at o).
Definition set_description (v : string) (o : t) : t :=
  mk (pk o) (service_name o) v (price o) (status o) (client o)
     (worker o) (created_at o) (updated_at o) (paid_at o) (completed_at o).
Definition set_price (v : Z) (o : t) : t :=
  mk (pk o) (service_name o) (description o) v (status o) (client o)
     (worker o) (created_at o) (updated_at o) (paid_at o) (completed_at o).
Definition set_status (v : string) (o : t) : t :=
  mk (pk o) (service_name o) (description o) (price o) v (client o)
     (worker o) (created_at o) (updated_at o) (paid_at o) (completed_at o).
Definition set_worker (v : option Z) (o : t) : t :=
  mk (pk o) (service_name o) (description o) (price o) (status o) (client o)
     v (created_at o) (updated_at o) (paid_at o) (completed_at o).
Definition set_created_at (v : option Z) (o : t) : t :=
  mk (pk o) (service_name o) (description o) (price o) (status o) (client o)
     (worker o) v (updated_at o) (paid_at o) (completed_at o).
Definition set_updated_at (v : option Z) (o : t) : t :=
  mk (pk o) (service_name o) (description o) (price o) (status o) (client o)
     (worker o) (created_at o) v (paid_at o) (completed_at o).
Definition set_paid_at (v : option Z) (o : t) : t :=
  mk (pk o) (service_name o) (description o) (price o) (status o) (client o)
     (worker o) (created_at o) (updated_at o) v (completed_at o).
Definition set_completed_at (v : option Z) (o : t) : t :=
  mk (pk o) (service_name o) (description o) (price o) (status o) (client o)
     (worker o) (created_at o) (updated_at o) (paid_at o) v.

(** The dictionary literal of [_is_valid_status_transition]. *)
Definition valid_transitions : list (string * list string) :=
  [ (Status.PENDING, [Status.PAID; Status.CANCELED]);
    (Status.PAID, [Status.IN_PROGRESS; Status.CANCELED]);
    (Status.IN_PROGRESS, [Status.COMPLETED; Status.CANCELED]);
    (Status.COMPLETED, []);
    (Status.CANCELED, []) ].

(** [table.get(key, [])]. *)
Fixpoint table_get (key : string) (table : list (string * list string))
  : list string :=
  match table with
  | [] => []
  | (k, v) :: rest => if k == key then v else table_get key rest
  end.

(** [x in xs] on a list of strings. *)
Definition contains (x : string) (xs : list string) : bool :=
  existsb (fun y => x == y) xs.

Definition _is_valid_status_transition (old_status new_status : string) : bool :=
  contains new_status (table_get old_status valid_transitions).

Definition is_pending (self : t) : bool := status self == Status.PENDING.
Definition is_paid (self : t) : bool := status self == Status.PAID.
Definition is_in_progress (self : t) : bool := status self == Status.IN_PROGRESS.
Definition is_completed (self : t) : bool := status self == Status.COMPLETED.
Definition is_canceled (self : t) : bool := status self == Status.CANCELED.

Definition can_be_paid (self : t) : bool := status self == Status.PENDING.
Definition can_be_assigned (self : t) : bool :=
  (status self == Status.PAID) && negb (is_set (worker self)).
Definition can_be_started (self : t) : bool :=
  (status self == Status.PAID) && is_set (worker self).
Definition can_be_completed (self : t) : bool :=
  (status self == Status.IN_PROGRESS) && is_set (worker self).
Definition can_be_canceled (self : t) : bool :=
  contains (status self) [Status.PENDING; Status.PAID; Status.IN_PROGRESS].

End Order.

(** ** Notification records ([apps/websocket/models.py]) *)

Module Notification.

Module Status.
Definition PENDING : string := "pending".
Definition SENT : string := "sent".
Definition READ : string := "read".
Definition FAILED : string := "failed".
End Status.

(** [recipient] and [sender] hold the columns [recipient_id] and
    [sender_id]. *)
Record t : Type := mk {
  id : option Z;
  type : string;
  title : string;
  message : string;
  recipient : Z;
  sender : option Z;
  content_type : option Z;
  object_id : option Z;
  status : string;
  priority : Z;
  created_at : option Z;
  sent_at : option Z;
  read_at : option Z;
  metadata : list (string * JSON)
}.

Definition set_status (v : string) (n : t) : t :=
  mk (id n) (type n) (title n) (message n) (recipient n) (sender n)
     (content_type n) (object_id n) v (priority n) (created_at n)
     (sent_at n) (read_at n) (metadata n).
Definition set_sent_at (v : option Z) (n : t) : t :=
  mk (id n) (type n) (title n) (message n) (recipient n) (sender n)
     (content_type n) (object_id n) (status n) (priority n) (created_at n)
     v (read_at n) (metadata n).
Definition set_read_at (v : option Z) (n : t) : t :=
  mk (id n) (type n) (title n) (message n) (recipient n) (sender n)
     (content_type n) (object_id n) (status n) (priority n) (created_at n)
     (sent_at n) v (metadata n).

Definition is_pending (self : t) : bool := status self == Status.PENDING.
Definition is_sent (self : t) : bool := status self == Status.SENT.
Definition is_read (self : t) : bool := status self == Status.READ.
Definition is_failed (self : t) : bool := status self == Status.FAILED.

End Notification.

(** ** The world: database tables, channel layer, sockets and clock *)

(** The envelope built by [WebSocketMessageBuilder.create_message] and by
    the consumers' replies. *)
Record Message : Type := mkMessage {
  msg_type : string;
  msg_payload : list (string * JSON);
  msg_timestamp : Z
}.

(** [groups] is the channel layer's registry (group name to channel
    names); [outbox] lists, oldest first, every frame written to a
    socket, with the channel it was written to. *)
Record World : Type := mkWorld {
  orders : gmap Z Order.t;
  next_order_id : Z;
  users : gmap Z User.t;
  notifications : gmap Z Notification.t;
  groups : gmap string (gset string);
  outbox : list (string * Message);
  clock : Z
}.

Definition set_orders (v : gmap Z Order.t) (w : World) : World :=
  mkWorld v (next_order_id w) (users w) (notifications w) (groups w) (outbox w) (clock w).
Definition set_next_order_id (v : Z) (w : World) : World :=
  mkWorld (orders w) v (users w) (notifications w) (groups w) (outbox w) (clock w).
Definition set_notifications (v : gmap Z Notification.t) (w : World) : World :=
  mkWorld (orders w) (next_order_id w) (users w) v (groups w) (outbox w) (clock w).
Definition set_groups (v : gmap string (gset string)) (w : World) : World :=
  mkWorld (orders w) (next_order_id w) (users w) (notifications w) v (outbox w) (clock w).
Definition set_outbox (v : list (string * Message)) (w : World) : World :=
  mkWorld (orders w) (next_order_id w) (users w) (notifications w) (groups w) v (clock w).

(** The state a method runs in: the world and the instance ([self], or
    the [order] argument of a service function) it mutates. *)
Record Ctx (I : Type) : Type := mkCtx {
  world : World;
  inst : I
}.
Arguments mkCtx {I} world inst.
Arguments world {I} c.
Arguments inst {I} c.

Section CtxOps.
Context {I : Type}.

(** Read the instance. *)
Definition self : M (Ctx I) I := fun c => (c, Return (inst c)).

(** Apply an attribute assignment to the instance. *)
Definition assign (f : I -> I) : M (Ctx I) unit :=
  fun c => (mkCtx (world c) (f (inst c)), Return tt).

(** Run a computation that only touches the world. *)
Definition lift {A : Type} (m : M World A) : M (Ctx I) A :=
  fun c => match m (world c) with (w, r) => (mkCtx w (inst c), r) end.

Definition timezone_now : M (Ctx I) Z :=
  fun c => (c, Return (clock (world c))).

(** [with transaction.atomic(): m]: an exception leaving the block
    rolls the tables back; the instance, the channel layer and the
    frames already written keep their changes. *)
Definition atomic {A : Type} (m : M (Ctx I) A) : M (Ctx I) A :=
  fun c =>
    match m c with
    | (c', Return a) => (c', Return a)
    | (c', Raise e) =>
        let w := world c in
        let w' := world c' in
        (mkCtx (mkWorld (orders w) (next_order_id w) (users w) (notifications w)
                        (groups w') (outbox w') (clock w'))
               (inst c'),
         Raise e)
    end.
End CtxOps.

(** Call a method on an instance held by a caller that only sees the
    world: the result comes with the instance as the call left it. *)
Definition with_instance {I A : Type} (i : I) (m : M (Ctx I) A) : M World (A * I) :=
  fun w =>
    match m (mkCtx w i) with
    | (c, Return a) => (world c, Return (a, inst c))
    | (c, Raise e) => (world c, Raise e)
    end.

(** [if b: raise e]. *)
Definition raise_if {S : Type} (b : bool) (e : Exception) : M S unit :=
  if b then raise e else ret tt.

(** [for x in xs: body x]. *)
Fixpoint for_each {S A : Type} (xs : list A) (body : A -> M S unit) : M S unit :=
  match xs with
  | [] => ret tt
  | x :: rest => body x ;; for_each rest body
  end.

(** ** The channel layer *)

Module channel_layer.

Definition members (group : string) (w : World) : gset string :=
  default ∅ (groups w !! group).

(** [valid_group_name] is the layer's own check of a group name
    (part of the channels library): [group_add] and [group_discard]
    raise [TypeError] on a name it rejects. *)
Definition group_add (valid_group_name : string -> bool) (group channel : string)
  : M World unit :=
  fun w =>
    if valid_group_name group then
      (set_groups (<[group := {[channel]} ∪ members group w]> (groups w)) w, Return tt)
    else (w, Raise TypeError).

(** Discarding from an unknown group, or a channel that is not a
    member, is not an error; a group left empty is forgotten. *)
Definition group_discard (valid_group_name : string -> bool) (group channel : string)
  : M World unit :=
  fun w =>
    if valid_group_name group then
      match groups w !! group with
      | None => (w, Return tt)
      | Some chans =>
          let rest := chans ∖ {[channel]} in
          if rest == ∅
          then (set_groups (delete group (groups w)) w, Return tt)
          else (set_groups (<[group := rest]> (groups w)) w, Return tt)
      end
    else (w, Raise TypeError).

(** [group_send(group, {"type": "notify", "message": message})]: the
    [notify] handler of every consumer whose channel is in the group
    writes the message to its socket. An envelope always carries the
    keys [type] and [payload] that the handler checks for, and the
    notifier only builds names of the form [user_<id>]. *)
Definition group_send (group : string) (message : Message) : M World unit :=
  fun w =>
    (set_outbox (outbox w ++ ((fun channel => (channel, message)) <$> elements (members group w))) w,
     Return tt).

End channel_layer.

(** ** The notifier ([apps/utils/websocket_helpers.py]) *)

Module WS_MESSAGE_TYPES.
Definition ORDER_CREATED : string := "order_created".
Definition NEW_ORDER : string := "new_order".
Definition ORDER_UPDATED : string := "order_updated".
Definition ORDER_CANCELED : string := "order_canceled".
Definition PAYMENT_SUCCESS : string := "payment_success".
Definition PAYMENT_FAILED : string := "payment_failed".
End WS_MESSAGE_TYPES.

Module WS_MESSAGE_STRUCTURE.
Definition TYPE : string := "type".
Definition PAYLOAD : string := "payload".
Definition TIMESTAMP : string := "timestamp".
Definition EVENT : string := "event".
Definition ORDER_ID : string := "order_id".
Definition STATUS : string := "status".
Definition CLIENT : string := "client".
End WS_MESSAGE_STRUCTURE.

(** A nullable integer as a JSON value. *)
Definition json_of_id (v : option Z) : JSON :=
  match v with
  | Some z => JInt z
  | None => JNull
  end.

Module WebSocketMessageBuilder.

Definition create_message (message_type : string) (payload : list (string * JSON))
  : M World Message :=
  fun w => (w, Return (mkMessage message_type payload (clock w))).

Definition create_order_message (event : string) (order_id : option Z)
    (kwargs : list (string * JSON)) : M World Message :=
  let payload :=
    (WS_MESSAGE_STRUCTURE.EVENT, JStr event)
      :: (WS_MESSAGE_STRUCTURE.ORDER_ID, json_of_id order_id)
      :: kwargs in
  create_message event payload.

End WebSocketMessageBuilder.

Module WebSocketNotifier.

Definition notify_user (user_id : Z) (message : Message) : M World unit :=
  let group_name := "user_" +:+ pretty user_id in
  channel_layer.group_send group_name message.

Definition notify_users (user_ids : list Z) (message : Message) : M World unit :=
  for_each user_ids (fun user_id => notify_user user_id message).

(** [User.objects.filter(role=WORKER, gender=gender).values_list("id")]. *)
Definition worker_ids_by_gender (gender : option string) (w : World) : list Z :=
  User.id <$>
    filter (fun u => User.role u = User.Role.WORKER ∧ User.gender u = gender)
           ((map_to_list (users w)).*2).

Definition notify_workers_by_gender (gender : option string) (message : Message)
  : M World unit :=
  w <- get ;;
  let worker_ids := worker_ids_by_gender gender w in
  match worker_ids with
  | [] => ret tt
  | _ => notify_users worker_ids message
  end.

Definition notify_order_created (order : Order.t) : M World unit :=
  client_message <-
    WebSocketMessageBuilder.create_order_message
      WS_MESSAGE_TYPES.ORDER_CREATED (Order.pk order)
      [("status", JStr (Order.status order))] ;;
  notify_user (User.id (Order.client order)) client_message ;;
  worker_message <-
    WebSocketMessageBuilder.create_order_message
      WS_MESSAGE_TYPES.NEW_ORDER (Order.pk order)
      [("client", JStr (User.username (Order.client order)))] ;;
  notify_workers_by_gender (User.gender (Order.client order)) worker_message.

Definition notify_order_updated (order : Order.t) (old_status : string)
  : M World unit :=
  if Order.status order != old_status then
    message <-
      WebSocketMessageBuilder.create_order_message
        WS_MESSAGE_TYPES.ORDER_UPDATED (Order.pk order)
        [("status", JStr (Order.status order)); ("old_status", JStr old_status)] ;;
    notify_user (User.id (Order.client order)) message ;;
    if Order.contains (Order.status order)
         [Order.Status.IN_PROGRESS; Order.Status.COMPLETED]
    then
      worker_message <-
        WebSocketMessageBuilder.create_order_message
          WS_MESSAGE_TYPES.ORDER_UPDATED (Order.pk order)
          [("status", JStr (Order.status order))] ;;
      notify_workers_by_gender (User.gender (Order.client order)) worker_message
    else ret tt
  else ret tt.

Definition notify_payment_processed (order : Order.t) (success : bool)
  : M World unit :=
  let event_type :=
    if success then WS_MESSAGE_TYPES.PAYMENT_SUCCESS
    else WS_MESSAGE_TYPES.PAYMENT_FAILED in
  message <-
    WebSocketMessageBuilder.create_order_message
      event_type (Order.pk order) [("status", JStr (Order.status order))] ;;
  notify_user (User.id (Order.client order)) message ;;
  worker_message <-
    WebSocketMessageBuilder.create_order_message
      event_type (Order.pk order) [("status", JStr (Order.status order))] ;;
  notify_workers_by_gender (User.gender (Order.client order)) worker_message.

End WebSocketNotifier.

(** ** Order methods that touch the database ([apps/orders/models.py]) *)

Module OrderOps.
Import Order.

(** [Order.objects.get(pk=pk)]. *)
Definition objects_get (key : option Z) : M (Ctx Order.t) Order.t :=
  fun c =>
    match key with
    | Some k =>
        match orders (world c) !! k with
        | Some row => (c, Return row)
        | None => (c, Raise DoesNotExist)
        end
    | None => (c, Raise DoesNotExist)
    end.

(** [super().save()]: [updated_at] is [auto_now], [created_at] is
    [auto_now_add]; an instance without primary key is inserted under
    the next key of the sequence, an instance with one replaces its row
    or is inserted under that key. *)
Definition Model_save : M (Ctx Order.t) unit :=
  fun c =>
    let w := world c in
    let o := set_updated_at (Some (clock w)) (inst c) in
    match pk o with
    | Some k =>
        let row :=
          match orders w !! k with
          | Some _ => o
          | None => set_created_at (Some (clock w)) o
          end in
        (mkCtx (set_orders (<[k := row]> (orders w)) w) row, Return tt)
    | None =>
        let k := next_order_id w in
        let row := set_pk (Some k) (set_created_at (Some (clock w)) o) in
        (mkCtx (set_next_order_id (k + 1) (set_orders (<[k := row]> (orders w)) w)) row,
         Return tt)
    end.

Definition save : M (Ctx Order.t) unit :=
  this <- self ;;
  (if truthy_int (pk this) then
     old_instance <- objects_get (pk this) ;;
     if status old_instance != status this then
       if (status this == Status.PAID) && negb (is_set (paid_at this)) then
         now <- timezone_now ;;
         assign (set_paid_at (Some now))
       else if (status this == Status.COMPLETED) && negb (is_set (completed_at this)) then
         now <- timezone_now ;;
         assign (set_completed_at (Some now))
       else ret tt
     else ret tt
   else ret tt) ;;
  Model_save.

Definition assign_worker (worker : User.t) : M (Ctx Order.t) bool :=
  this <- self ;;
  if negb (can_be_assigned this) then ret false
  else if User.role worker != User.Role.WORKER then ret false
  else
    assign (set_worker (Some (User.id worker))) ;;
    save ;;
    ret true.

Definition start_work : M (Ctx Order.t) bool :=
  this <- self ;;
  if negb (can_be_started this) then ret false
  else
    assign (set_status Status.IN_PROGRESS) ;;
    save ;;
    ret true.

Definition complete_order : M (Ctx Order.t) bool :=
  this <- self ;;
  if negb (can_be_completed this) then ret false
  else
    assign (set_status Status.COMPLETED) ;;
    save ;;
    ret true.

Definition cancel_order : M (Ctx Order.t) bool :=
  this <- self ;;
  if negb (can_be_canceled this) then ret false
  else
    assign (set_status Status.CANCELED) ;;
    save ;;
    ret true.

End OrderOps.

(** ** Services ([apps/orders/services.py]) *)

(** One keyword argument of [update_order_status]: an assignment to a
    column of the order, or a key for which [hasattr(order, key)] is
    false (such as [reason]) and which the loop skips. Keys naming the
    primary key, a relation object or a method are outside the model. *)
Inductive Kwarg : Type :=
| kw_service_name (v : string)
| kw_description (v : string)
| kw_price (v : Z)
| kw_status (v : string)
| kw_worker_id (v : option Z)
| kw_paid_at (v : option Z)
| kw_completed_at (v : option Z)
| kw_other (key : string).

Module OrderService.
Import Order.

(** [order.client == user]. *)
Definition client_is (user : User.t) (order : Order.t) : bool :=
  User.id (client order) == User.id user.

(** [order.worker == user]. *)
Definition worker_is (user : User.t) (order : Order.t) : bool :=
  worker order == Some (User.id user).

Definition _can_user_view_order (user : User.t) (order : Order.t) : bool :=
  if User.is_admin user then true
  else if User.is_client user && client_is user order then true
  else if User.is_worker user && (User.gender (client order) == User.gender user) then true
  else false.

Definition _can_user_update_order (user : User.t) (order : Order.t) : bool :=
  if User.is_admin user then true
  else if User.is_worker user && worker_is user order then true
  else false.

Definition _can_user_manage_order (user : User.t) (order : Order.t) : bool :=
  if User.is_admin user then true
  else if User.is_worker user && (User.gender (client order) == User.gender user) then true
  else false.

Definition _can_user_cancel_order (user : User.t) (order : Order.t) : bool :=
  if User.is_admin user then true
  else if User.is_client user && client_is user order && is_pending order then true
  else if User.is_worker user && worker_is user order && is_in_progress order then true
  else false.

(** [Order.objects.select_related(...).get(id=order_id)] followed by
    the permission check. *)
Definition get_order_by_id (order_id : Z) (user : User.t) : M World Order.t :=
  w <- get ;;
  match orders w !! order_id with
  | None => raise OrderNotFoundError
  | Some order =>
      raise_if (negb (_can_user_view_order user order))
               (InsufficientPermissionsError "Cannot view this order.") ;;
      ret order
  end.

(** [setattr(order, key, value)] under [hasattr(order, key)]. *)
Definition setattr (kw : Kwarg) (order : Order.t) : Order.t :=
  match kw with
  | kw_service_name v => set_service_name v order
  | kw_description v => set_description v order
  | kw_price v => set_price v order
  | kw_status v => set_status v order
  | kw_worker_id v => set_worker v order
  | kw_paid_at v => set_paid_at v order
  | kw_completed_at v => set_completed_at v order
  | kw_other _ => order
  end.

(** [new_status] is [None] when a view forwards a request that has no
    [status]: [None] is in no list of the transition table. *)
Definition update_order_status (new_status : option string) (user : User.t)
    (kwargs : list Kwarg) : M (Ctx Order.t) Order.t :=
  order <- self ;;
  raise_if (negb (_can_user_update_order user order))
           (InsufficientPermissionsError "Cannot update this order.") ;;
  let old_status := status order in
  match new_status with
  | None => raise InvalidOrderStatusError
  | Some new_status =>
      raise_if (negb (_is_valid_status_transition old_status new_status))
               InvalidOrderStatusError ;;
      try_except
        (atomic
           (for_each kwargs (fun kw => assign (setattr kw)) ;;
            assign (set_status new_status) ;;
            OrderOps.save ;;
            order <- self ;;
            lift (WebSocketNotifier.notify_order_updated order old_status) ;;
            self))
        (fun e => raise e)
  end.

Definition assign_worker_to_order (worker user : User.t) : M (Ctx Order.t) bool :=
  order <- self ;;
  raise_if (negb (_can_user_manage_order user order))
           (InsufficientPermissionsError "Cannot manage this order.") ;;
  raise_if (negb (User.is_worker worker))
           (InsufficientPermissionsError "Can only assign workers to orders.") ;;
  success <- OrderOps.assign_worker worker ;;
  (if success : bool then
     order <- self ;;
     lift (WebSocketNotifier.notify_order_updated order (status order))
   else ret tt) ;;
  ret success.

Definition start_order_work (user : User.t) : M (Ctx Order.t) bool :=
  order <- self ;;
  raise_if (negb (_can_user_manage_order user order))
           (InsufficientPermissionsError "Cannot manage this order.") ;;
  raise_if (negb (worker_is user order))
           (InsufficientPermissionsError "Only assigned worker can start work.") ;;
  success <- OrderOps.start_work ;;
  (if success : bool then
     order <- self ;;
     lift (WebSocketNotifier.notify_order_updated order (status order))
   else ret tt) ;;
  ret success.

Definition complete_order (user : User.t) : M (Ctx Order.t) bool :=
  order <- self ;;
  raise_if (negb (_can_user_manage_order user order))
           (InsufficientPermissionsError "Cannot manage this order.") ;;
  raise_if (negb (worker_is user order))
           (InsufficientPermissionsError "Only assigned worker can complete the order.") ;;
  success <- OrderOps.complete_order ;;
  (if success : bool then
     order <- self ;;
     lift (WebSocketNotifier.notify_order_updated order (status order))
   else ret tt) ;;
  ret success.

Definition cancel_order (user : User.t) (reason : string) : M (Ctx Order.t) bool :=
  order <- self ;;
  raise_if (negb (_can_user_cancel_order user order))
           (InsufficientPermissionsError "Cannot cancel this order.") ;;
  success <- OrderOps.cancel_order ;;
  (if success : bool then
     order <- self ;;
     lift (WebSocketNotifier.notify_order_updated order (status order))
   else ret tt) ;;
  ret success.

End OrderService.

Module PaymentService.
Import Order.

Definition process_payment (success : bool) : M (Ctx Order.t) Order.t :=
  order <- self ;;
  raise_if (negb (can_be_paid order))
           (PaymentProcessingError "Order cannot be paid at this time.") ;;
  try_except
    (atomic
       ((if success then
           assign (set_status Status.PAID) ;;
           now <- timezone_now ;;
           assign (set_paid_at (Some now))
         else
           assign (set_status Status.CANCELED)) ;;
        OrderOps.save ;;
        order <- self ;;
        lift (WebSocketNotifier.notify_payment_processed order success) ;;
        self))
    (fun _ => raise (PaymentProcessingError "Payment processing failed.")).

Definition refund_payment (user : User.t) (reason : string) : M (Ctx Order.t) bool :=
  order <- self ;;
  raise_if (negb (User.is_admin user) && negb (OrderService.client_is user order))
           (InsufficientPermissionsError "Cannot request refund for this order.") ;;
  raise_if (negb (is_paid order))
           (PaymentProcessingError "Order is not paid.") ;;
  try_except
    (atomic
       (assign (set_status Status.CANCELED) ;;
        OrderOps.save ;;
        order <- self ;;
        lift (WebSocketNotifier.notify_payment_processed order false) ;;
        ret true))
    (fun _ => raise (PaymentProcessingError "Refund processing failed.")).

End PaymentService.

(** ** Serializer and views ([apps/orders/serializers], [apps/orders/views]) *)

(** The validated fields of a status-update request. [worker_id] may be
    absent ([None]), present and null ([Some None]) or an integer. *)
Record Attrs : Type := mkAttrs {
  attr_status : option string;
  attr_worker_id : option (option Z);
  attr_reason : option string
}.

(** [attrs.get("worker_id")]. *)
Definition get_worker_id (attrs : Attrs) : option Z :=
  match attr_worker_id attrs with
  | Some v => v
  | None => None
  end.

(** [**serializer.validated_data]. *)
Definition validated_kwargs (attrs : Attrs) : list Kwarg :=
  match attr_status attrs with Some s => [kw_status s] | None => [] end
  ++ match attr_worker_id attrs with Some v => [kw_worker_id v] | None => [] end
  ++ match attr_reason attrs with Some _ => [kw_other "reason"] | None => [] end.

(** [User.objects.get(id=worker_id, role=User.Role.WORKER)]; [None]
    stands for [User.DoesNotExist]. *)
Definition get_worker (worker_id : option Z) (w : World) : option User.t :=
  match worker_id with
  | Some k =>
      match users w !! k with
      | Some u => if User.role u == User.Role.WORKER then Some u else None
      | None => None
      end
  | None => None
  end.

Module OrderStatusUpdateSerializer.

(** The gender check shared by the three branches of [validate]. *)
Definition check_worker (worker_id : option Z) (order : Order.t) : M World unit :=
  w <- get ;;
  match get_worker worker_id w with
  | Some worker =>
      raise_if (User.gender worker != User.gender (Order.client order))
               (ValidationError "Worker gender must match client gender.")
  | None => raise (ValidationError "Worker not found or not a valid worker.")
  end.

Definition validate (attrs : Attrs) (order : Order.t) : M World Attrs :=
  let new_status := attr_status attrs in
  let old_status := Order.status order in
  if negb (truthy_str new_status) then
    let worker_id := get_worker_id attrs in
    raise_if (negb (truthy_int worker_id))
             (ValidationError "Either status or worker_id must be provided.") ;;
    check_worker worker_id order ;;
    ret attrs
  else if new_status == Some old_status then
    let worker_id := get_worker_id attrs in
    (if truthy_int worker_id then check_worker worker_id order else ret tt) ;;
    ret attrs
  else
    raise_if (negb (match new_status with
                    | Some s => Order._is_valid_status_transition old_status s
                    | None => false
                    end))
             (ValidationError "Invalid status transition.") ;;
    let worker_id := get_worker_id attrs in
    (if truthy_int worker_id && (new_status == Some Order.Status.PAID)
     then check_worker worker_id order else ret tt) ;;
    ret attrs.

End OrderStatusUpdateSerializer.

Inductive Body : Type :=
| Detail (detail : string)
| OrderDetail (order : Order.t)
| NoBody.

Record Response : Type := mkResponse {
  status_code : Z;
  data : Body
}.

Definition HTTP_200_OK : Z := 200.
Definition HTTP_204_NO_CONTENT : Z := 204.
Definition HTTP_400_BAD_REQUEST : Z := 400.
Definition HTTP_403_FORBIDDEN : Z := 403.
Definition HTTP_404_NOT_FOUND : Z := 404.

Module OrderStatusUpdateView.

(** The [except] clauses of [update]; any other exception leaves the
    view. *)
Definition handler (e : Exception) : M World Response :=
  match e with
  | OrderNotFoundError => ret (mkResponse HTTP_404_NOT_FOUND (Detail "Order not found."))
  | InsufficientPermissionsError detail => ret (mkResponse HTTP_403_FORBIDDEN (Detail detail))
  | InvalidOrderStatusError =>
      ret (mkResponse HTTP_400_BAD_REQUEST (Detail "Invalid order status transition."))
  | _ => raise e
  end.

Definition update (user : User.t) (pk : Z) (request_data : Attrs) : M World Response :=
  try_except
    (order <- OrderService.get_order_by_id pk user ;;
     validated_data <- OrderStatusUpdateSerializer.validate request_data order ;;
     let new_status := attr_status validated_data in
     let worker_id := get_worker_id validated_data in
     if new_status == Some (Order.status order) then
       if truthy_int worker_id then
         w <- get ;;
         match get_worker worker_id w with
         | Some worker =>
             r <- with_instance order (OrderService.assign_worker_to_order worker user) ;;
             ret (mkResponse HTTP_200_OK (OrderDetail (snd r)))
         | None => ret (mkResponse HTTP_400_BAD_REQUEST (Detail "Worker not found."))
         end
       else ret (mkResponse HTTP_200_OK (OrderDetail order))
     else
       r <- with_instance order
              (OrderService.update_order_status new_status user
                 (validated_kwargs validated_data)) ;;
       let updated_order := snd r in
       if truthy_int worker_id && (Order.status updated_order == Order.Status.PAID) then
         w <- get ;;
         match get_worker worker_id w with
         | Some worker =>
             r' <- with_instance updated_order
                     (OrderService.assign_worker_to_order worker user) ;;
             ret (mkResponse HTTP_200_OK (OrderDetail (snd r')))
         | None => ret (mkResponse HTTP_400_BAD_REQUEST (Detail "Worker not found."))
         end
       else ret (mkResponse HTTP_200_OK (OrderDetail updated_order)))
    handler.

End OrderStatusUpdateView.

Module OrderDetailView.

Definition handler (e : Exception) : M World Response :=
  match e with
  | OrderNotFoundError => ret (mkResponse HTTP_404_NOT_FOUND (Detail "Order not found."))
  | InsufficientPermissionsError detail => ret (mkResponse HTTP_403_FORBIDDEN (Detail detail))
  | _ => raise e
  end.

(** [order.delete()]. *)
Definition delete (order : Order.t) : M World unit :=
  fun w =>
    match Order.pk order with
    | Some k => (set_orders (base.delete k (orders w)) w, Return tt)
    | None => (w, Raise ValueError)
    end.

Definition destroy (user : User.t) (pk : Z) : M World Response :=
  try_except
    (order <- OrderService.get_order_by_id pk user ;;
     if negb (Order.is_pending order) then
       ret (mkResponse HTTP_400_BAD_REQUEST (Detail "Only pending orders can be deleted."))
     else
       delete order ;;
       ret (mkResponse HTTP_204_NO_CONTENT NoBody))
    handler.

End OrderDetailView.

(** ** Notification methods and admin actions ([apps/websocket]) *)

Module NotificationOps.
Import Notification.

(** [self.save(update_fields=...)]: [columns this row] is the stored
    row with the listed columns taken from the instance. Django raises
    when the instance has no primary key or no row was updated. *)
Definition save_update_fields (columns : Notification.t -> Notification.t -> Notification.t)
  : M (Ctx Notification.t) unit :=
  fun c =>
    match id (inst c) with
    | None => (c, Raise ValueError)
    | Some k =>
        match notifications (world c) !! k with
        | None => (c, Raise DatabaseError)
        | Some row =>
            (mkCtx (set_notifications (<[k := columns (inst c) row]> (notifications (world c)))
                                      (world c))
                   (inst c),
             Return tt)
        end
    end.

Definition mark_as_sent : M (Ctx Notification.t) unit :=
  assign (set_status Status.SENT) ;;
  now <- timezone_now ;;
  assign (set_sent_at (Some now)) ;;
  save_update_fields (fun this row => set_sent_at (sent_at this) (set_status (status this) row)).

Definition mark_as_read : M (Ctx Notification.t) unit :=
  assign (set_status Status.READ) ;;
  now <- timezone_now ;;
  assign (set_read_at (Some now)) ;;
  save_update_fields (fun this row => set_read_at (read_at this) (set_status (status this) row)).

Definition mark_as_failed : M (Ctx Notification.t) unit :=
  assign (set_status Status.FAILED) ;;
  save_update_fields (fun this row => set_status (status this) row).

End NotificationOps.

Module NotificationAdmin.
Import Notification.

(** [queryset.filter(status=old).update(status=new)] on the selected
    primary keys; returns the number of rows updated. *)
Definition filter_update (queryset : gset Z) (old new : string) : M World nat :=
  fun w =>
    let hit (k : Z) (n : Notification.t) : bool :=
      bool_decide (k ∈ queryset) && (status n == old) in
    let table := notifications w in
    (set_notifications (map_imap (fun k n => Some (if hit k n then set_status new n else n)) table) w,
     Return (length (filter (fun kn => hit kn.1 kn.2 = true) (map_to_list table)))).

Definition mark_as_sent (queryset : gset Z) : M World nat :=
  filter_update queryset Status.PENDING Status.SENT.

Definition mark_as_read (queryset : gset Z) : M World nat :=
  filter_update queryset Status.SENT Status.READ.

Definition mark_as_failed (queryset : gset Z) : M World nat :=
  filter_update queryset Status.PENDING Status.FAILED.

Definition resend_notifications (queryset : gset Z) : M World nat :=
  filter_update queryset Status.FAILED Status.PENDING.

End NotificationAdmin.

(** ** WebSocket consumers ([apps/websocket/consumers.py]) *)

Module Consumer.

(** The attributes of a consumer instance; [valid_group_name] is
    [self.channel_layer.valid_group_name]. *)
Record t : Type := mk {
  user : option User.t;
  group_name : option string;
  authenticated : bool;
  channel_name : string;
  valid_group_name : string -> bool
}.

Definition set_user (v : option User.t) (c : t) : t :=
  mk v (group_name c) (authenticated c) (channel_name c) (valid_group_name c).
Definition set_group_name (v : option string) (c : t) : t :=
  mk (user c) v (authenticated c) (channel_name c) (valid_group_name c).
Definition set_authenticated (v : bool) (c : t) : t :=
  mk (user c) (group_name c) v (channel_name c) (valid_group_name c).

(** [__init__]. *)
Definition init (channel_name : string) (valid_group_name : string -> bool) : t :=
  mk None None false channel_name valid_group_name.

End Consumer.

Module BaseWebSocketConsumer.
Import Consumer.

Definition group_add (group : string) : M (Ctx Consumer.t) unit :=
  this <- self ;;
  lift (channel_layer.group_add (valid_group_name this) group (channel_name this)).

Definition group_discard (group : string) : M (Ctx Consumer.t) unit :=
  this <- self ;;
  lift (channel_layer.group_discard (valid_group_name this) group (channel_name this)).

Definition _get_current_timestamp : M (Ctx Consumer.t) Z := timezone_now.

(** [self.send(text_data=json.dumps(message))]. *)
Definition send (message : Message) : M (Ctx Consumer.t) unit :=
  fun c =>
    (mkCtx (set_outbox (outbox (world c) ++ [(channel_name (inst c), message)]) (world c))
           (inst c),
     Return tt).

(** [self.close(code=code)] and [self.accept()], kept as frames. *)
Definition close (code : Z) : M (Ctx Consumer.t) unit :=
  now <- _get_current_timestamp ;;
  send (mkMessage "websocket.close" [("code", JInt code)] now).

Definition accept : M (Ctx Consumer.t) unit :=
  now <- _get_current_timestamp ;;
  send (mkMessage "websocket.accept" [] now).

Definition send_connection_confirmation : M (Ctx Consumer.t) unit :=
  this <- self ;;
  match user this with
  | None => raise AttributeError
  | Some u =>
      now <- _get_current_timestamp ;;
      send (mkMessage "connection_confirmed"
              [("user_id", JInt (User.id u));
               ("username", JStr (User.username u));
               ("role", JStr (User.role u));
               ("message", JStr "WebSocket connection established")]
              now)
  end.

Definition send_error_message (error_message : string) : M (Ctx Consumer.t) unit :=
  now <- _get_current_timestamp ;;
  send (mkMessage "error" [("error", JStr error_message); ("timestamp", JInt now)] now).

(** [scope_user] is [self.scope.get("user")]: the middleware stores the
    authenticated user or [None]. *)
Definition connect (scope_user : option User.t) : M (Ctx Consumer.t) unit :=
  try_except
    (assign (set_user scope_user) ;;
     match scope_user with
     | None => close 4001
     | Some u =>
         let name := "user_" +:+ pretty (User.id u) in
         assign (set_group_name (Some name)) ;;
         assign (set_authenticated true) ;;
         group_add name ;;
         accept ;;
         send_connection_confirmation
     end)
    (fun _ => close 4000).

Definition disconnect (close_code : Z) : M (Ctx Consumer.t) unit :=
  this <- self ;;
  match group_name this with
  | Some name =>
      if authenticated this && (name != "") then group_discard name else ret tt
  | None => ret tt
  end.

(** [field in data] for the decoded message. *)
Definition json_contains (field : string) (data : JSON) : M (Ctx Consumer.t) bool :=
  match data with
  | JDict d => ret (dict_has field d)
  | JList l => ret (existsb (fun v => match v with JStr s => s == field | _ => false end) l)
  | JStr s => ret (is_set (String.index 0 field s))
  | _ => raise TypeError
  end.

(** [data.get(key)]. *)
Definition json_get (key : string) (data : JSON) : M (Ctx Consumer.t) JSON :=
  match data with
  | JDict d => ret (dict_get key d)
  | _ => raise AttributeError
  end.

Definition _validate_message (data : JSON) : M (Ctx Consumer.t) bool :=
  json_contains WS_MESSAGE_STRUCTURE.TYPE data.

Definition _handle_ping (data : JSON) : M (Ctx Consumer.t) unit :=
  now <- _get_current_timestamp ;;
  send (mkMessage "pong" [("timestamp", JInt now)] now).

(** [group_name and group_name.startswith("user_")]. *)
Definition names_user_group (group_name : JSON) : M (Ctx Consumer.t) bool :=
  if truthy group_name then
    match group_name with
    | JStr s => ret (String.prefix "user_" s)
    | _ => raise AttributeError
    end
  else ret false.

Definition _handle_subscribe (data : JSON) : M (Ctx Consumer.t) unit :=
  try_except
    (group_name <- json_get "group_name" data ;;
     ok <- names_user_group group_name ;;
     if ok : bool then
       match group_name with
       | JStr name =>
           group_add name ;;
           now <- _get_current_timestamp ;;
           send (mkMessage "subscribed"
                   [("group_name", group_name);
                    ("message", JStr "Successfully subscribed to group")]
                   now)
       | _ => raise AttributeError
       end
     else send_error_message "Invalid group name")
    (fun _ => send_error_message "Subscription failed").

Definition _handle_unsubscribe (data : JSON) : M (Ctx Consumer.t) unit :=
  try_except
    (group_name <- json_get "group_name" data ;;
     ok <- names_user_group group_name ;;
     if ok : bool then
       match group_name with
       | JStr name =>
           group_discard name ;;
           now <- _get_current_timestamp ;;
           send (mkMessage "unsubscribed"
                   [("group_name", group_name);
                    ("message", JStr "Successfully unsubscribed from group")]
                   now)
       | _ => raise AttributeError
       end
     else send_error_message "Invalid group name")
    (fun _ => send_error_message "Unsubscription failed").

(** The message type as it is printed in an error text (a list or an
    object is abbreviated). *)
Definition show (v : JSON) : string :=
  match v with
  | JStr s => s
  | JNull => "None"
  | JBool true => "True"
  | JBool false => "False"
  | JInt z => pretty z
  | JList _ => "[...]"
  | JDict _ => "{...}"
  end.

Definition _handle_message (data : JSON) : M (Ctx Consumer.t) unit :=
  message_type <- json_get WS_MESSAGE_STRUCTURE.TYPE data ;;
  match message_type with
  | JStr "ping" => _handle_ping data
  | JStr "subscribe" => _handle_subscribe data
  | JStr "unsubscribe" => _handle_unsubscribe data
  | _ => send_error_message ("Unknown message type: " +:+ show message_type)
  end.

(** [receive], with the method [_handle_message] of the consumer's
    class as [handle_message]; [text_data] is the result of
    [json.loads], [None] when it raises [JSONDecodeError]. *)
Definition receive_with (handle_message : JSON -> M (Ctx Consumer.t) unit)
    (text_data : option JSON) : M (Ctx Consumer.t) unit :=
  try_except
    (this <- self ;;
     if negb (authenticated this) then send_error_message "Not authenticated"
     else
       match text_data with
       | None => send_error_message "Invalid JSON format"
       | Some data =>
           valid <- _validate_message data ;;
           if negb valid then send_error_message "Invalid message structure"
           else handle_message data
       end)
    (fun _ => send_error_message "Internal server error").

Definition receive : option JSON -> M (Ctx Consumer.t) unit :=
  receive_with _handle_message.

End BaseWebSocketConsumer.

(** [OrderConsumer]: the groups joined at connect time. Its two request
    handlers only read orders and are not part of the embedding. *)
Module OrderConsumer.
Import Consumer.

Definition _join_order_groups : M (Ctx Consumer.t) unit :=
  try_except
    (this <- self ;;
     match user this with
     | None => raise AttributeError
     | Some u =>
         if User.is_client u then
           BaseWebSocketConsumer.group_add ("orders_client_" +:+ pretty (User.id u))
         else if User.is_worker u then
           match User.gender u with
           | Some g =>
               if g != "" then BaseWebSocketConsumer.group_add ("orders_worker_" +:+ g)
               else ret tt
           | None => ret tt
           end
         else if User.is_admin u then
           BaseWebSocketConsumer.group_add "orders_admin"
         else ret tt
     end)
    (fun _ => ret tt).

Definition connect (scope_user : option User.t) : M (Ctx Consumer.t) unit :=
  BaseWebSocketConsumer.connect scope_user ;;
  this <- self ;;
  if authenticated this then _join_order_groups else ret tt.

End OrderConsumer.

Module NotificationConsumer.
Import Consumer.

Definition _join_notification_groups : M (Ctx Consumer.t) unit :=
  try_except
    (this <- self ;;
     match user this with
     | None => raise AttributeError
     | Some u =>
         BaseWebSocketConsumer.group_add ("notifications_" +:+ pretty (User.id u)) ;;
         if User.is_admin u then BaseWebSocketConsumer.group_add "notifications_admin"
         else ret tt
     end)
    (fun _ => ret tt).

Definition connect (scope_user : option User.t) : M (Ctx Consumer.t) unit :=
  BaseWebSocketConsumer.connect scope_user ;;
  this <- self ;;
  if authenticated this then _join_notification_groups else ret tt.

(** [Notification.objects.get(id=notification_id, recipient=self.user)]
    followed by [mark_as_read]; every exception gives [False]. *)
Definition _mark_notification_read (notification_id : Z) : M (Ctx Consumer.t) bool :=
  try_except
    (c <- get ;;
     match notifications (world c) !! notification_id with
     | Some notification =>
         if Some (Notification.recipient notification) == (User.id <$> user (inst c)) then
           lift (with_instance notification NotificationOps.mark_as_read) ;;
           ret true
         else raise DoesNotExist
     | None => raise DoesNotExist
     end)
    (fun _ => ret false).

(** [int_of] is the conversion the query applies to the [id] lookup
    value, [None] when it raises; it is part of Django. *)
Definition _handle_mark_read (int_of : JSON -> option Z) (data : JSON)
  : M (Ctx Consumer.t) unit :=
  try_except
    (notification_id <- BaseWebSocketConsumer.json_get "notification_id" data ;;
     if negb (truthy notification_id) then
       BaseWebSocketConsumer.send_error_message "Notification ID is required"
     else
       success <- match int_of notification_id with
                  | Some k => _mark_notification_read k
                  | None => ret false
                  end ;;
       if success : bool then
         now <- BaseWebSocketConsumer._get_current_timestamp ;;
         BaseWebSocketConsumer.send
           (mkMessage "mark_read_response"
              [("notification_id", notification_id);
               ("status", JStr "read");
               ("message", JStr "Notification marked as read")]
              now)
       else
         BaseWebSocketConsumer.send_error_message "Failed to mark notification as read")
    (fun _ => BaseWebSocketConsumer.send_error_message "Failed to mark notification as read").

Definition _handle_notification_preferences (data : JSON) : M (Ctx Consumer.t) unit :=
  try_except
    (found <- BaseWebSocketConsumer.json_contains "preferences" data ;;
     preferences <- (if found : bool then BaseWebSocketConsumer.json_get "preferences" data
                     else ret (JDict [])) ;;
     now <- BaseWebSocketConsumer._get_current_timestamp ;;
     BaseWebSocketConsumer.send
       (mkMessage "preferences_updated"
          [("message", JStr "Notification preferences updated");
           ("preferences", preferences)]
          now))
    (fun _ => BaseWebSocketConsumer.send_error_message "Failed to update preferences").

Definition _handle_message (int_of : JSON -> option Z) (data : JSON)
  : M (Ctx Consumer.t) unit :=
  message_type <- BaseWebSocketConsumer.json_get WS_MESSAGE_STRUCTURE.TYPE data ;;
  match message_type with
  | JStr "mark_read" => _handle_mark_read int_of data
  | JStr "notification_preferences" => _handle_notification_preferences data
  | _ => BaseWebSocketConsumer._handle_message data
  end.

Definition receive (int_of : JSON -> option Z) : option JSON -> M (Ctx Consumer.t) unit :=
  BaseWebSocketConsumer.receive_with (_handle_message int_of).

End NotificationConsumer.


(** ** Vocabulary of the statements *)

(** The six edges of the order status graph. *)
Definition graph_edges : list (Order.Status.member * Order.Status.member) :=
  [ (Order.Status.Pending, Order.Status.Paid);
    (Order.Status.Pending, Order.Status.Canceled);
    (Order.Status.Paid, Order.Status.InProgress);
    (Order.Status.Paid, Order.Status.Canceled);
    (Order.Status.InProgress, Order.Status.Completed);
    (Order.Status.InProgress, Order.Status.Canceled) ].

(** An instance that was loaded from, or saved to, its row: the row
    under its (positive) primary key is the instance itself. *)
Definition persisted (w : World) (o : Order.t) : Prop :=
  exists k, Order.pk o = Some k /\ 0 < k /\ orders w !! k = Some o.

(** A response with a 4xx status. *)
Definition client_error (r : Response) : Prop :=
  400 <= status_code r < 500.

(** The timestamp derivation of [Order.save], as a function of the
    status found in the stored row. *)
Definition stamp (old_status : string) (now : Z) (this : Order.t) : Order.t :=
  if old_status != Order.status this then
    if (Order.status this == Order.Status.PAID) && negb (is_set (Order.paid_at this))
    then Order.set_paid_at (Some now) this
    else if (Order.status this == Order.Status.COMPLETED)
            && negb (is_set (Order.completed_at this))
    then Order.set_completed_at (Some now) this
    else this
  else this.


(** A computation on the world that always returns and whose only
    effect is to write frames to sockets. *)
Definition only_sends {A : Type} (m : M World A) : Prop :=
  forall w, exists frames a,
    m w = (set_outbox (outbox w ++ frames) w, Return a)
    /\ forall channel message,
         (channel, message) ∈ frames ->
         exists group, channel ∈ channel_layer.members group w.

(** The domain events the notifier is called with, and its entry point
    for each. *)
Inductive Event : Type :=
| OrderCreated (order : Order.t)
| OrderUpdated (order : Order.t) (old_status : string)
| PaymentProcessed (order : Order.t) (success : bool).

Definition dispatch (ev : Event) : M World unit :=
  match ev with
  | OrderCreated order => WebSocketNotifier.notify_order_created order
  | OrderUpdated order old_status => WebSocketNotifier.notify_order_updated order old_status
  | PaymentProcessed order success => WebSocketNotifier.notify_payment_processed order success
  end.

(** An event that is not a no-op for the specification: an update must
    change the status. *)
Definition effective (ev : Event) : Prop :=
  match ev with
  | OrderUpdated order old_status => Order.status order <> old_status
  | _ => True
  end.

(** The specification's durability property of the fan-out: every
    effective event that is dispatched leaves a new notification record,
    Pending or Sent, in the store. *)
Definition spec_dispatch_persists_record : Prop :=
  forall (ev : Event) (w : World),
    effective ev ->
    exists k n,
      notifications w !! k = None
      /\ notifications (dispatch ev w).1 !! k = Some n
      /\ (Notification.status n = Notification.Status.PENDING
          \/ Notification.status n = Notification.Status.SENT).


(** *** Operations on an order *)

(** The operations of the order model and of the two services, with
    their arguments. *)
Inductive Op : Type :=
| op_save
| op_assign_worker (worker : User.t)
| op_start_work
| op_complete
| op_cancel
| op_update_order_status (new_status : option string) (user : User.t) (kwargs : list Kwarg)
| op_assign_worker_to_order (worker user : User.t)
| op_start_order_work (user : User.t)
| op_complete_order (user : User.t)
| op_cancel_order (user : User.t) (reason : string)
| op_process_payment (success : bool)
| op_refund_payment (user : User.t) (reason : string).

(** Run a computation for its effect. *)
Definition discard {S A : Type} (m : M S A) : M S unit := m ;; ret tt.

Definition exec (op : Op) : M (Ctx Order.t) unit :=
  match op with
  | op_save => OrderOps.save
  | op_assign_worker worker => discard (OrderOps.assign_worker worker)
  | op_start_work => discard OrderOps.start_work
  | op_complete => discard OrderOps.complete_order
  | op_cancel => discard OrderOps.cancel_order
  | op_update_order_status new_status user kwargs =>
      discard (OrderService.update_order_status new_status user kwargs)
  | op_assign_worker_to_order worker user =>
      discard (OrderService.assign_worker_to_order worker user)
  | op_start_order_work user => discard (OrderService.start_order_work user)
  | op_complete_order user => discard (OrderService.complete_order user)
  | op_cancel_order user reason => discard (OrderService.cancel_order user reason)
  | op_process_payment success => discard (PaymentService.process_payment success)
  | op_refund_payment user reason => discard (PaymentService.refund_payment user reason)
  end.

(** A keyword argument that assigns one of the two derived timestamps. *)
Definition names_timestamp (kw : Kwarg) : bool :=
  match kw with
  | kw_paid_at _ | kw_completed_at _ => true
  | _ => false
  end.

(** An operation whose extra fields, if it has any, leave the derived
    timestamps alone. *)
Definition plain (op : Op) : Prop :=
  match op with
  | op_update_order_status _ _ kwargs => forallb (fun kw => negb (names_timestamp kw)) kwargs = true
  | _ => True
  end.

(** The instance as [Order.save] stores it, when the row holds [o] and
    the caller has changed the instance to [o1]. *)
Definition saved (w : World) (o o1 : Order.t) : Order.t :=
  Order.set_updated_at (Some (clock w)) (stamp (Order.status o) (clock w) o1).

(** The changes the operations make to an instance [o] before saving. *)
Inductive Mutation (w : World) (o : Order.t) : Op -> Order.t -> Prop :=
| mut_save : Mutation w o op_save o
| mut_assign_worker (worker : User.t) :
    Order.status o = Order.Status.PAID ->
    Mutation w o (op_assign_worker worker) (Order.set_worker (Some (User.id worker)) o)
| mut_start_work :
    Mutation w o op_start_work (Order.set_status Order.Status.IN_PROGRESS o)
| mut_complete :
    Mutation w o op_complete (Order.set_status Order.Status.COMPLETED o)
| mut_cancel :
    Mutation w o op_cancel (Order.set_status Order.Status.CANCELED o)
| mut_update_order_status (new_status : string) (user : User.t) (kwargs : list Kwarg) :
    Order._is_valid_status_transition (Order.status o) new_status = true ->
    Mutation w o (op_update_order_status (Some new_status) user kwargs)
             (Order.set_status new_status (foldl (fun acc kw => OrderService.setattr kw acc) o kwargs))
| mut_assign_worker_to_order (worker user : User.t) :
    Order.status o = Order.Status.PAID ->
    Mutation w o (op_assign_worker_to_order worker user)
             (Order.set_worker (Some (User.id worker)) o)
| mut_start_order_work (user : User.t) :
    Mutation w o (op_start_order_work user) (Order.set_status Order.Status.IN_PROGRESS o)
| mut_complete_order (user : User.t) :
    Mutation w o (op_complete_order user) (Order.set_status Order.Status.COMPLETED o)
| mut_cancel_order (user : User.t) (reason : string) :
    Mutation w o (op_cancel_order user reason) (Order.set_status Order.Status.CANCELED o)
| mut_process_payment_success :
    Order.status o = Order.Status.PENDING ->
    Mutation w o (op_process_payment true)
             (Order.set_paid_at (Some (clock w)) (Order.set_status Order.Status.PAID o))
| mut_process_payment_failure :
    Order.status o = Order.Status.PENDING ->
    Mutation w o (op_process_payment false) (Order.set_status Order.Status.CANCELED o)
| mut_refund_payment (user : User.t) (reason : string) :
    Mutation w o (op_refund_payment user reason) (Order.set_status Order.Status.CANCELED o).

(** The state after an operation that changed the instance [o] stored
    under [k] to [o1], saved it and wrote [frames]. *)
Definition after (w : World) (o : Order.t) (k : Z) (o1 : Order.t)
    (frames : list (string * Message)) : Ctx Order.t :=
  mkCtx (set_outbox (outbox w ++ frames)
           (set_orders (<[k := saved w o o1]> (orders w)) w))
        (saved w o o1).

(** What an operation can do to a persisted order: nothing, or one of
    its mutations followed by a save. *)
Definition shape (w : World) (o : Order.t) (k : Z) (op : Op)
    (c' : Ctx Order.t) (r : Outcome unit) : Prop :=
  c' = mkCtx w o
  \/ exists o1 frames,
       Mutation w o op o1 /\ Order.pk o1 = Some k /\ r = Return tt
       /\ c' = after w o k o1 frames.



(** *** Notification statuses and socket groups *)

(** The edges the admin actions follow: Pending to Sent or Failed, Sent
    to Read, and Failed back to Pending on resend. *)
Definition notification_edges : list (string * string) :=
  [ (Notification.Status.PENDING, Notification.Status.SENT);
    (Notification.Status.PENDING, Notification.Status.FAILED);
    (Notification.Status.SENT, Notification.Status.READ);
    (Notification.Status.FAILED, Notification.Status.PENDING) ].

(** The groups the consumers themselves join for an identity when it
    connects ([connect], [_join_order_groups],
    [_join_notification_groups]). *)
Definition entitled_groups (u : User.t) : list string :=
  [ "user_" +:+ pretty (User.id u); "notifications_" +:+ pretty (User.id u) ]
  ++ (if User.is_client u then [ "orders_client_" +:+ pretty (User.id u) ]
      else if User.is_worker u then
        match User.gender u with
        | Some g => [ "orders_worker_" +:+ g ]
        | None => []
        end
      else if User.is_admin u then [ "orders_admin" ]
      else [])
  ++ (if User.is_admin u then [ "notifications_admin" ] else []).




(** ** Sample data for the worked examples *)

Definition alice : User.t := User.mk 10 "alice" User.Role.CLIENT (Some User.Gender.FEMALE).
Definition wanda : User.t := User.mk 2 "wanda" User.Role.WORKER (Some User.Gender.FEMALE).
Definition wilma : User.t := User.mk 3 "wilma" User.Role.WORKER (Some User.Gender.FEMALE).
Definition carol : User.t := User.mk 11 "carol" User.Role.CLIENT (Some User.Gender.FEMALE).
Definition root : User.t := User.mk 1 "root" User.Role.ADMIN None.

Definition order_of (status : string) (worker paid_at : option Z) : Order.t :=
  Order.mk (Some 1) "Cleaning" "" 1000 status alice worker (Some 0) (Some 0) paid_at None.

Definition world_of (o : Order.t) : World :=
  mkWorld {[ 1 := o ]} 2
          (list_to_map [(1, root); (2, wanda); (3, wilma); (10, alice); (11, carol)])
          ∅ ∅ [] 7.


(** A world in which alice has one live socket. *)
Definition live_world (o : Order.t) : World :=
  mkWorld {[ 1 := o ]} 2
          (list_to_map [(1, root); (2, wanda); (3, wilma); (10, alice); (11, carol)])
          ∅ {[ "user_10" := {[ "chan-alice" ]} ]} [] 7.



(** The consumer of an authenticated connection, on a layer that
    accepts every group name. *)
Definition consumer_of (u : User.t) (channel_name : string) : Consumer.t :=
  Consumer.mk (Some u) (Some ("user_" +:+ pretty (User.id u))) true channel_name
              (fun _ => true).

(** * Further parts of the code *)

(** ** Vocabulary of the further statements *)

(** The statuses an order can leave and the statuses it can enter. *)
Definition source_statuses : list string :=
  [Order.Status.PENDING; Order.Status.PAID; Order.Status.IN_PROGRESS].

Definition target_statuses : list string :=
  [Order.Status.PAID; Order.Status.IN_PROGRESS; Order.Status.COMPLETED;
   Order.Status.CANCELED].

(** The statuses no operation leaves. *)
Definition terminal (status : string) : Prop :=
  status = Order.Status.COMPLETED \/ status = Order.Status.CANCELED.

(** The frames a [group_send] writes: the message, once for every live
    channel of the group. *)
Definition deliveries (group : string) (message : Message) (w : World)
  : list (string * Message) :=
  (fun channel => (channel, message)) <$> elements (channel_layer.members group w).

(** The personal group of a user. *)
Definition user_group (user_id : Z) : string := "user_" +:+ pretty user_id.

(** The frames written when [message] is sent to the workers of a
    gender. *)
Definition worker_deliveries (gender : option string) (message : Message) (w : World)
  : list (string * Message) :=
  concat ((fun user_id => deliveries (user_group user_id) message w)
            <$> WebSocketNotifier.worker_ids_by_gender gender w).

(** The envelope of an order event, as [create_order_message] builds it
    at instant [now]. *)
Definition order_message (event : string) (order : Order.t)
    (fields : list (string * JSON)) (now : Z) : Message :=
  mkMessage event (("event", JStr event) :: ("order_id", json_of_id (Order.pk order)) :: fields)
            now.

(** The users an order event is addressed to: the client of the order
    and the workers whose gender is the client's. *)
Definition addressee (order : Order.t) (w : World) (user_id : Z) : Prop :=
  user_id = User.id (Order.client order)
  \/ exists k u, users w !! k = Some u /\ User.id u = user_id
                 /\ User.role u = User.Role.WORKER
                 /\ User.gender u = User.gender (Order.client order).

(** The order an event is about. *)
Definition event_order (ev : Event) : Order.t :=
  match ev with
  | OrderCreated order => order
  | OrderUpdated order _ => order
  | PaymentProcessed order _ => order
  end.

(** ** Replies of a consumer *)

(** A step of a consumer that writes no frame: the instance, the
    outbox, the orders, the users and the clock are as before (the
    registry and the notification records may have changed). *)
Definition quiet_step (c c' : Ctx Consumer.t) : Prop :=
  inst c' = inst c
  /\ outbox (world c') = outbox (world c)
  /\ orders (world c') = orders (world c)
  /\ users (world c') = users (world c)
  /\ clock (world c') = clock (world c).

(** A step that writes exactly one frame, to the consumer's own
    channel. *)
Definition one_reply (c c' : Ctx Consumer.t) : Prop :=
  inst c' = inst c
  /\ (exists reply,
         outbox (world c')
         = (outbox (world c) ++ [(Consumer.channel_name (inst c), reply)])%list)
  /\ orders (world c') = orders (world c)
  /\ users (world c') = users (world c)
  /\ clock (world c') = clock (world c).

(** A computation that never writes a frame. *)
Definition quiet {A : Type} (m : M (Ctx Consumer.t) A) : Prop :=
  forall c, quiet_step c (m c).1.

(** A computation that always returns, having replied once. *)
Definition replying (m : M (Ctx Consumer.t) unit) : Prop :=
  forall c, one_reply c (m c).1 /\ (m c).2 = Return tt.

(** A computation that replies once when it returns and has written
    nothing when it raises. *)
Definition attempt (m : M (Ctx Consumer.t) unit) : Prop :=
  forall c,
    match (m c).2 with
    | Return _ => one_reply c (m c).1
    | Raise _ => quiet_step c (m c).1
    end.

(** The frame a consumer writes when it refuses a handshake. *)
Definition close_frame (code : Z) (c : Ctx Consumer.t) : string * Message :=
  (Consumer.channel_name (inst c),
   mkMessage "websocket.close" [("code", JInt code)] (clock (world c))).

(** A consumer after one more frame on its own channel. *)
Definition having_sent (frame : string * Message) (c : Ctx Consumer.t) : Ctx Consumer.t :=
  mkCtx (set_outbox (outbox (world c) ++ [frame]) (world c)) (inst c).

(** A subscribe or unsubscribe message for a group. *)
Definition names_group (kind name : string) (d : list (string * JSON)) : Prop :=
  dict_get "type" d = JStr kind /\ dict_get "group_name" d = JStr name.

(** The attributes of a consumer after a successful handshake of
    [user]. *)
Definition connected_as (user : User.t) (this : Consumer.t) : Consumer.t :=
  Consumer.set_authenticated true
    (Consumer.set_group_name (Some (user_group (User.id user)))
       (Consumer.set_user (Some user) this)).

(** ** Outcomes of the service operations *)

(** The world and instance after the instance [o1] has been written to
    the row [k]. *)
Definition stored (w : World) (k : Z) (o1 : Order.t) : Ctx Order.t :=
  mkCtx (set_orders (<[k := o1]> (orders w)) w) o1.

(** An instance touched at the current instant. *)
Definition touched (w : World) (o1 : Order.t) : Order.t :=
  Order.set_updated_at (Some (clock w)) o1.

(** A call that had no effect and did not return [true]. *)
Definition refused {A : Type} (c : Ctx Order.t) (out : Ctx Order.t * Outcome A)
    (yes : A) : Prop :=
  out.1 = c /\ out.2 <> Return yes.


(** The same state with [frames] appended to the outbox. *)
Definition announced (frames : list (string * Message)) (c : Ctx Order.t) : Ctx Order.t :=
  mkCtx (set_outbox (outbox (world c) ++ frames) (world c)) (inst c).

(** The frames of a payment event about [order]: the same envelope to
    the client and to the workers of the client's gender. *)
Definition payment_frames (success : bool) (order : Order.t) (w : World)
  : list (string * Message) :=
  let message :=
    order_message (if success then "payment_success" else "payment_failed") order
      [("status", JStr (Order.status order))] (clock w) in
  deliveries (user_group (User.id (Order.client order))) message w
  ++ worker_deliveries (User.gender (Order.client order)) message w.

(** * Further endpoints and actions *)

(** ** Role checks of the user model ([apps/users/models.py]) *)

(** The [can_*] methods; [is_authenticated] is true of every [User]
    instance. *)
Module UserChecks.

Definition can_view_orders (self : User.t) : bool :=
  Order.contains (User.role self) [User.Role.CLIENT; User.Role.WORKER; User.Role.ADMIN].


Definition can_manage_orders (self : User.t) : bool :=
  Order.contains (User.role self) [User.Role.WORKER; User.Role.ADMIN].

End UserChecks.

(** ** Creating and listing orders ([apps/orders/services.py]) *)

(** A queryset before it is evaluated: the rows it selects and the
    ordering it asks the database for. *)
Record QuerySet : Type := mkQuerySet {
  rows : gmap Z Order.t;
  ordering : list string
}.

Module OrderQueries.

(** [Order.objects.none()]. *)
Definition none : QuerySet := mkQuerySet ∅ [].

(** [Order.objects.select_related(...).only(...)]: every row. *)
Definition all (w : World) : QuerySet := mkQuerySet (orders w) [].

Definition filter (p : Order.t -> bool) (queryset : QuerySet) : QuerySet :=
  mkQuerySet (base.filter (fun row : Z * Order.t => p row.2 = true) (rows queryset))
             (ordering queryset).

Definition order_by (key : string) (queryset : QuerySet) : QuerySet :=
  mkQuerySet (rows queryset) [key].



(** [OrderService.get_user_orders] as the views call it, without
    further filters. *)
Definition get_user_orders (user : User.t) : M World QuerySet :=
  w <- get ;;
  if negb (UserChecks.can_view_orders user) then ret none
  else
    let queryset := all w in
    if User.is_client user then
      ret (order_by "-created_at" (filter (OrderService.client_is user) queryset))
    else if User.is_worker user then
      ret (order_by "-created_at"
             (filter (fun order => User.gender (Order.client order) == User.gender user)
                     queryset))
    else if User.is_admin user then ret (order_by "-created_at" queryset)
    else ret none.

End OrderQueries.

(** ** Model validation ([Order.clean]) *)

Module OrderClean.

(** [self.worker]: the user the foreign key points to. *)
Definition get_related_worker : M (Ctx Order.t) (option User.t) :=
  c <- get ;;
  match Order.worker (inst c) with
  | None => ret None
  | Some worker_id =>
      match users (world c) !! worker_id with
      | Some u => ret (Some u)
      | None => raise DoesNotExist
      end
  end.

Definition clean : M (Ctx Order.t) unit :=
  worker <- get_related_worker ;;
  match worker with
  | Some u =>
      raise_if (User.role u != User.Role.WORKER)
               (ValidationError "Only workers can be assigned to orders.")
  | None => ret tt
  end ;;
  this <- self ;;
  if truthy_int (Order.pk this) then
    old_instance <- OrderOps.objects_get (Order.pk this) ;;
    raise_if (negb (Order._is_valid_status_transition
                      (Order.status old_instance) (Order.status this)))
             (ValidationError "Invalid status transition.")
  else ret tt.

End OrderClean.

(** ** Bulk actions of the order admin ([apps/orders/admin.py]) *)

Module OrderAdmin.

(** [queryset.filter(status__in=olds).update(status=new)] on the
    selected primary keys: the rows are written directly, [Order.save]
    is not called; returns the number of rows updated. *)
Definition filter_update (queryset : gset Z) (olds : list string) (new : string)
  : M World nat :=
  fun w =>
    let hit (k : Z) (o : Order.t) : bool :=
      bool_decide (k ∈ queryset) && Order.contains (Order.status o) olds in
    let table := orders w in
    (set_orders (map_imap (fun k o => Some (if hit k o then Order.set_status new o else o))
                          table) w,
     Return (length (base.filter (fun ko : Z * Order.t => hit ko.1 ko.2 = true)
                                 (map_to_list table)))).

Definition mark_as_paid (queryset : gset Z) : M World nat :=
  filter_update queryset [Order.Status.PENDING] Order.Status.PAID.

Definition mark_as_in_progress (queryset : gset Z) : M World nat :=
  filter_update queryset [Order.Status.PAID] Order.Status.IN_PROGRESS.

Definition mark_as_completed (queryset : gset Z) : M World nat :=
  filter_update queryset [Order.Status.IN_PROGRESS] Order.Status.COMPLETED.

Definition mark_as_canceled (queryset : gset Z) : M World nat :=
  filter_update queryset
    [Order.Status.PENDING; Order.Status.PAID; Order.Status.IN_PROGRESS]
    Order.Status.CANCELED.

End OrderAdmin.

(** ** The update, payment and action endpoints *)

(** The fields of [OrderUpdateSerializer] as its field validation
    returns them. *)
Record UpdateAttrs : Type := mkUpdateAttrs {
  upd_service_name : option string;
  upd_description : option string;
  upd_price : option Z
}.

(** [**serializer.validated_data]. *)
Definition update_kwargs (attrs : UpdateAttrs) : list Kwarg :=
  match upd_service_name attrs with Some v => [kw_service_name v] | None => [] end
  ++ match upd_description attrs with Some v => [kw_description v] | None => [] end
  ++ match upd_price attrs with Some v => [kw_price v] | None => [] end.

Module OrderUpdateSerializer.

(** [instance] is [self.instance]. *)
Definition validate (instance : option Order.t) (attrs : UpdateAttrs)
  : M World UpdateAttrs :=
  match instance with
  | None => raise (ValidationError "Order instance required for updates.")
  | Some order =>
      raise_if (negb (Order.is_pending order))
               (ValidationError "Only pending orders can be updated.") ;;
      ret attrs
  end.

End OrderUpdateSerializer.

(** [OrderDetailView.update]: the serializer for PUT and PATCH is
    [OrderUpdateSerializer], built from the request data and a context
    only. *)
Module OrderDetailUpdate.

(** [order.refresh_from_db()]. *)
Definition refresh_from_db (order : Order.t) : M World Order.t :=
  w <- get ;;
  match Order.pk order with
  | Some k =>
      match orders w !! k with
      | Some row => ret row
      | None => raise DoesNotExist
      end
  | None => raise DoesNotExist
  end.

Definition update (user : User.t) (pk : Z) (request_data : UpdateAttrs)
  : M World Response :=
  try_except
    (order <- OrderService.get_order_by_id pk user ;;
     validated_data <- OrderUpdateSerializer.validate None request_data ;;
     (* the serializer has no field [status] or [worker_id] *)
     let new_status : option string := None in
     let worker_id : option Z := None in
     if negb (truthy_str new_status) && truthy_int worker_id then
       w <- get ;;
       match get_worker worker_id w with
       | Some worker =>
           with_instance order (OrderService.assign_worker_to_order worker user) ;;
           order <- refresh_from_db order ;;
           ret (mkResponse HTTP_200_OK (OrderDetail order))
       | None => ret (mkResponse HTTP_400_BAD_REQUEST (Detail "Worker not found."))
       end
     else if new_status == Some (Order.status order) then
       if truthy_int worker_id then
         w <- get ;;
         match get_worker worker_id w with
         | Some worker =>
             with_instance order (OrderService.assign_worker_to_order worker user) ;;
             order <- refresh_from_db order ;;
             ret (mkResponse HTTP_200_OK (OrderDetail order))
         | None => ret (mkResponse HTTP_400_BAD_REQUEST (Detail "Worker not found."))
         end
       else ret (mkResponse HTTP_200_OK (OrderDetail order))
     else
       r <- with_instance order
              (OrderService.update_order_status new_status user
                 (update_kwargs validated_data)) ;;
       let updated_order := snd r in
       if truthy_int worker_id && (Order.status updated_order == Order.Status.PAID) then
         w <- get ;;
         match get_worker worker_id w with
         | Some worker =>
             r' <- with_instance updated_order
                     (OrderService.assign_worker_to_order worker user) ;;
             ret (mkResponse HTTP_200_OK (OrderDetail (snd r')))
         | None => ret (mkResponse HTTP_400_BAD_REQUEST (Detail "Worker not found."))
         end
       else ret (mkResponse HTTP_200_OK (OrderDetail updated_order)))
    OrderStatusUpdateView.handler.

End OrderDetailUpdate.

(** The fields of [OrderPaymentSerializer] as its field validation
    returns them. *)
Record PaymentAttrs : Type := mkPaymentAttrs {
  payment_method : string;
  amount : Z;
  reference : option string
}.

Module OrderPaymentSerializer.

(** [context_order] is [self.context.get("order")]. The error about
    the amount is raised under the key [amount]. *)
Definition validate (context_order : option Order.t) (attrs : PaymentAttrs)
  : M World PaymentAttrs :=
  match context_order with
  | None => raise (ValidationError "Order context required.")
  | Some order =>
      raise_if (amount attrs != Order.price order)
               (ValidationError ("Payment amount must match order price ("
                                 +:+ pretty (Order.price order) +:+ ").")) ;;
      raise_if (negb (Order.can_be_paid order))
               (ValidationError "Order cannot be paid at this time.") ;;
      ret attrs
  end.

End OrderPaymentSerializer.

(** The body of a payment response. *)
Inductive PaymentBody : Type :=
| PaymentDetail (detail : string)
| PaymentOrder (detail : string) (order : Order.t).

Record PaymentResponse : Type := mkPaymentResponse {
  payment_status_code : Z;
  payment_data : PaymentBody
}.

Module OrderPaymentView.

Definition handler (e : Exception) : M World PaymentResponse :=
  match e with
  | OrderNotFoundError =>
      ret (mkPaymentResponse HTTP_404_NOT_FOUND (PaymentDetail "Order not found."))
  | InsufficientPermissionsError detail =>
      ret (mkPaymentResponse HTTP_403_FORBIDDEN (PaymentDetail detail))
  | PaymentProcessingError detail =>
      ret (mkPaymentResponse HTTP_400_BAD_REQUEST (PaymentDetail detail))
  | _ => raise e
  end.

(** [process_payment] does not look at the keyword arguments the view
    passes on. *)
Definition create (user : User.t) (pk : Z) (request_data : PaymentAttrs)
  : M World PaymentResponse :=
  try_except
    (order <- OrderService.get_order_by_id pk user ;;
     OrderPaymentSerializer.validate (Some order) request_data ;;
     r <- with_instance order (PaymentService.process_payment true) ;;
     let updated_order := fst r in
     ret (mkPaymentResponse HTTP_200_OK
            (PaymentOrder "Payment processed successfully." updated_order)))
    handler.

End OrderPaymentView.

(** The fields of [OrderActionSerializer] as its field validation
    returns them. *)
Record ActionAttrs : Type := mkActionAttrs {
  act_action : string;
  act_reason : option string
}.

(** [attrs.get("reason", "")]. *)
Definition get_reason (attrs : ActionAttrs) : string := default "" (act_reason attrs).

Module OrderActionSerializer.

(** [blank reason] is [not reason.strip()]. *)
Definition validate (blank : string -> bool) (attrs : ActionAttrs) : M World ActionAttrs :=
  let action := act_action attrs in
  let reason := get_reason attrs in
  raise_if ((action == "cancel") && blank reason)
           (ValidationError "Reason is required for cancellation.") ;;
  ret attrs.

End OrderActionSerializer.

Module OrderActionView.

(** The answer to a boolean service result. *)
Definition answer (success : bool) (done failed : string) : M World Response :=
  if success then ret (mkResponse HTTP_200_OK (Detail done))
  else ret (mkResponse HTTP_400_BAD_REQUEST (Detail failed)).

Definition post (blank : string -> bool) (user : User.t) (pk : Z)
    (request_data : ActionAttrs) : M World Response :=
  try_except
    (order <- OrderService.get_order_by_id pk user ;;
     validated_data <- OrderActionSerializer.validate blank request_data ;;
     let action := act_action validated_data in
     let reason := get_reason validated_data in
     if action == "start_work" then
       r <- with_instance order (OrderService.start_order_work user) ;;
       answer (fst r) "Work started successfully." "Cannot start work on this order."
     else if action == "complete" then
       r <- with_instance order (OrderService.complete_order user) ;;
       answer (fst r) "Order completed successfully." "Cannot complete this order."
     else if action == "cancel" then
       r <- with_instance order (OrderService.cancel_order user reason) ;;
       answer (fst r) "Order canceled successfully." "Cannot cancel this order."
     else
       ret (mkResponse HTTP_400_BAD_REQUEST (Detail ("Unknown action: " +:+ action))))
    OrderDetailView.handler.

End OrderActionView.

(** ** The status request of the order consumer
    ([apps/websocket/consumers.py]) *)

Module OrderStatusRequest.
Import Consumer.


Definition _can_user_view_order (order : Order.t) : M (Ctx Consumer.t) bool :=
  this <- self ;;
  match user this with
  | None => raise AttributeError
  | Some u =>
      if User.is_admin u then ret true
      else if User.is_client u && OrderService.client_is u order then ret true
      else if User.is_worker u && (User.gender (Order.client order) == User.gender u)
      then ret true
      else ret false
  end.




End OrderStatusRequest.

(** ** Vocabulary of the endpoint statements *)



(** The order as a successful payment leaves it. *)
Definition paid (w : World) (o : Order.t) : Order.t :=
  touched w (Order.set_paid_at (Some (clock w)) (Order.set_status Order.Status.PAID o)).

(** The status each action of the action endpoint asks for. *)
Definition action_target : list (string * string) :=
  [("start_work", Order.Status.IN_PROGRESS);
   ("complete", Order.Status.COMPLETED);
   ("cancel", Order.Status.CANCELED)].



(** What a boolean service call does to the stored order [o]: it
    either moves it to [new_status] along an edge of the table, saves
    it and returns [True], or has no effect and does not return
    [True]. *)
Definition moves_or_refuses (w : World) (o : Order.t) (k : Z) (new_status : string)
    (out : World * Outcome (bool * Order.t)) : Prop :=
  (Order._is_valid_status_transition (Order.status o) new_status = true
   /\ out = (world (stored w k (saved w o (Order.set_status new_status o))),
             Return (true, saved w o (Order.set_status new_status o))))
  \/ (out.1 = w /\ forall r, out.2 = Return r -> r.1 = false).

(** The instance a status update builds from the stored order [o]
    before it saves: the validated fields, then the new status. *)
Definition updated_to (new_status : string) (attrs : Attrs) (o : Order.t) : Order.t :=
  Order.set_status new_status
    (foldl (fun acc kw => OrderService.setattr kw acc) o (validated_kwargs attrs)).
(** * Theorems *)

(** ** The transition table *)

Lemma value_inj (s s' : Order.Status.member) :
  Order.Status.value s = Order.Status.value s' -> s = s'.
Proof. destruct s, s'; simpl; intros H; first [reflexivity | discriminate H]. Qed.

(** Outside the enumeration nothing is a legal source or target. *)
Lemma transition_from_unknown (old new : string) :
  (forall s, old <> Order.Status.value s) ->
  Order._is_valid_status_transition old new = false.
Proof.
  intros Hold. unfold Order._is_valid_status_transition, Order.valid_transitions.
  simpl. repeat case_bool_decide; subst; try reflexivity.
  - exfalso. apply (Hold Order.Status.Pending). reflexivity.
  - exfalso. apply (Hold Order.Status.Paid). reflexivity.
  - exfalso. apply (Hold Order.Status.InProgress). reflexivity.
Qed.

(** C1. For every ordered pair of order statuses the legality check is
    true exactly on the six edges Pending->Paid, Pending->Canceled,
    Paid->InProgress, Paid->Canceled, InProgress->Completed and
    InProgress->Canceled; every other pair, every self-pair included, is
    illegal. The check is a total function of the two statuses. *)
Theorem C1_transition_table_exact (s s' : Order.Status.member) :
  (Order._is_valid_status_transition (Order.Status.value s) (Order.Status.value s') = true
   <-> (s, s') ∈ graph_edges)
  /\ (Order._is_valid_status_transition (Order.Status.value s) (Order.Status.value s') = false
      <-> (s, s') ∉ graph_edges)
  /\ Order._is_valid_status_transition (Order.Status.value s) (Order.Status.value s) = false.
Proof.
  assert (Hdec : forall p : Order.Status.member * Order.Status.member,
             p ∈ graph_edges <-> In p graph_edges)
    by (intros p; apply list_elem_of_In).
  split; [| split].
  - rewrite Hdec.
    destruct s, s'; vm_compute; split; intros H;
      first [reflexivity | discriminate H | tauto
            | (repeat destruct H as [H | H]; try discriminate H; destruct H)].
  - rewrite Hdec.
    destruct s, s'; vm_compute; split; intros H;
      first [reflexivity | discriminate H
            | (intros G; repeat destruct G as [G | G]; try discriminate G; destruct G)
            | (exfalso; apply H; tauto)].
  - destruct s; reflexivity.
Qed.

(** ** Running the monad *)

Ltac unfold_monad :=
  unfold bind, ret, raise, raise_if, get, put, try_except,
    self, assign, lift, timezone_now, atomic, with_instance in *.

Lemma bind_return {S A B : Type} (m : M S A) (k : A -> M S B) (s s' : S) (a : A) :
  m s = (s', Return a) -> bind m k s = k a s'.
Proof. intros H. unfold bind. rewrite H. reflexivity. Qed.

Lemma bind_raise {S A B : Type} (m : M S A) (k : A -> M S B) (s s' : S) (e : Exception) :
  m s = (s', Raise e) -> bind m k s = (s', Raise e).
Proof. intros H. unfold bind. rewrite H. reflexivity. Qed.

(** ** Loading an order *)

Lemma get_order_by_id_found (w : World) (user : User.t) (pk : Z) (o : Order.t) :
  orders w !! pk = Some o ->
  OrderService.get_order_by_id pk user w =
    if OrderService._can_user_view_order user o
    then (w, Return o)
    else (w, Raise (InsufficientPermissionsError "Cannot view this order.")).
Proof.
  intros H. unfold OrderService.get_order_by_id. unfold_monad. rewrite H.
  destruct (OrderService._can_user_view_order user o); reflexivity.
Qed.

Lemma get_order_by_id_missing (w : World) (user : User.t) (pk : Z) :
  orders w !! pk = None ->
  OrderService.get_order_by_id pk user w = (w, Raise OrderNotFoundError).
Proof.
  intros H. unfold OrderService.get_order_by_id. unfold_monad. rewrite H. reflexivity.
Qed.

(** ** Deleting an order *)

Lemma bind_eq_get_order {B : Type} (w : World) (user : User.t) (pk : Z) (o : Order.t)
    (Hrow : orders w !! pk = Some o) (k : Order.t -> M World B) :
  bind (OrderService.get_order_by_id pk user) k w =
    if OrderService._can_user_view_order user o
    then k o w
    else (w, Raise (InsufficientPermissionsError "Cannot view this order.")).
Proof.
  unfold bind. rewrite (get_order_by_id_found _ _ _ _ Hrow).
  destruct (OrderService._can_user_view_order user o); reflexivity.
Qed.

(** What [destroy] answers, by cases on the stored order. *)
Lemma destroy_cases (w : World) (user : User.t) (pk : Z) :
  OrderDetailView.destroy user pk w =
    match orders w !! pk with
    | None => (w, Return (mkResponse HTTP_404_NOT_FOUND (Detail "Order not found.")))
    | Some o =>
        if negb (OrderService._can_user_view_order user o) then
          (w, Return (mkResponse HTTP_403_FORBIDDEN (Detail "Cannot view this order.")))
        else if negb (Order.is_pending o) then
          (w, Return (mkResponse HTTP_400_BAD_REQUEST
                        (Detail "Only pending orders can be deleted.")))
        else
          match Order.pk o with
          | Some k => (set_orders (delete k (orders w)) w,
                       Return (mkResponse HTTP_204_NO_CONTENT NoBody))
          | None => (w, Raise ValueError)
          end
    end.
Proof.
  unfold OrderDetailView.destroy, try_except.
  destruct (orders w !! pk) as [o |] eqn:Hrow.
  - rewrite (bind_eq_get_order _ _ _ _ Hrow).
    destruct (OrderService._can_user_view_order user o); simpl; [| reflexivity].
    destruct (Order.is_pending o); simpl; [| reflexivity].
    unfold OrderDetailView.delete. unfold_monad.
    destruct (Order.pk o); reflexivity.
  - unfold bind. rewrite (get_order_by_id_missing _ _ _ Hrow). reflexivity.
Qed.

(** C10. An order whose status is not Pending cannot be deleted through
    the order-detail endpoint: the request is answered with a client
    error (403 when the user may not view the order, 400 otherwise) and
    the world, hence the order record, is left as it was. Conversely a
    request that is answered 204 or that changes the table found the
    order Pending. *)
Theorem C10_delete_only_while_pending (w : World) (user : User.t) (pk : Z) (o : Order.t) :
  orders w !! pk = Some o ->
  (Order.status o <> Order.Status.PENDING ->
     exists r, OrderDetailView.destroy user pk w = (w, Return r) /\ client_error r)
  /\ (forall w' r,
        OrderDetailView.destroy user pk w = (w', r) ->
        (orders w' <> orders w \/ r = Return (mkResponse HTTP_204_NO_CONTENT NoBody)) ->
        Order.status o = Order.Status.PENDING).
Proof.
  intros Hrow. rewrite destroy_cases, Hrow. split.
  - intros Hst.
    destruct (OrderService._can_user_view_order user o); simpl.
    + assert (Hp : Order.is_pending o = false).
      { unfold Order.is_pending. apply bool_decide_eq_false. exact Hst. }
      rewrite Hp. simpl. eexists. split; [reflexivity |].
      unfold client_error, HTTP_400_BAD_REQUEST, HTTP_403_FORBIDDEN; simpl; lia.
    + eexists. split; [reflexivity |].
      unfold client_error, HTTP_400_BAD_REQUEST, HTTP_403_FORBIDDEN; simpl; lia.
  - intros w' r Hrun Hchg.
    destruct (OrderService._can_user_view_order user o); simpl in Hrun.
    + destruct (Order.is_pending o) eqn:Hp; simpl in Hrun.
      * unfold Order.is_pending in Hp. apply bool_decide_eq_true in Hp. exact Hp.
      * inversion Hrun; subst. destruct Hchg as [Hne | Heq];
          [exfalso; apply Hne; reflexivity | discriminate Heq].
    + inversion Hrun; subst. destruct Hchg as [Hne | Heq];
        [exfalso; apply Hne; reflexivity | discriminate Heq].
Qed.


(** A paid order cannot be deleted by its own client. *)
Lemma C10_delete_only_while_pending_witness :
  let o := order_of Order.Status.PAID None (Some 5) in
  exists r, OrderDetailView.destroy alice 1 (world_of o) = (world_of o, Return r)
            /\ client_error r.
Proof.
  intros o.
  apply (proj1 (C10_delete_only_while_pending (world_of o) alice 1 o eq_refl)).
  discriminate.
Defined.

(** ** Requesting the current status *)


Lemma no_self_transition (x : string) :
  Order._is_valid_status_transition x x = false.
Proof.
  unfold Order._is_valid_status_transition, Order.valid_transitions. simpl.
  repeat case_bool_decide; subst; reflexivity.
Qed.

(** The service function itself has no idempotent path: asked for the
    status the order already has, it raises. *)
Lemma update_order_status_same_status_raises (c : Ctx Order.t) (user : User.t)
    (kwargs : list Kwarg) :
  exists e,
    OrderService.update_order_status (Some (Order.status (inst c))) user kwargs c
      = (c, Raise e)
    /\ (e = InvalidOrderStatusError
        \/ e = InsufficientPermissionsError "Cannot update this order.").
Proof.
  unfold OrderService.update_order_status. unfold_monad.
  destruct (OrderService._can_user_update_order user (inst c)); simpl.
  - rewrite no_self_transition. simpl. eexists; split; [reflexivity | left; reflexivity].
  - eexists; split; [reflexivity | right; reflexivity].
Qed.



(** What carol, who does not own the order, is answered when she asks
    for the status alice's pending order already has. *)
Example stranger_is_refused :
  let o := order_of Order.Status.PENDING None None in
  OrderStatusUpdateView.update carol 1 (mkAttrs (Some Order.Status.PENDING) None None)
    (world_of o)
  = (world_of o, Return (mkResponse HTTP_403_FORBIDDEN (Detail "Cannot view this order."))).
Proof. vm_compute. reflexivity. Qed.


(** ** Saving a persisted order *)

Lemma save_persisted (w : World) (o row : Order.t) (k : Z) :
  Order.pk o = Some k -> 0 < k -> orders w !! k = Some row ->
  OrderOps.save (mkCtx w o) =
    let o' := Order.set_updated_at (Some (clock w)) (stamp (Order.status row) (clock w) o) in
    (mkCtx (set_orders (<[k := o']> (orders w)) w) o', Return tt).
Proof.
  intros Hpk Hk Hrow.
  unfold OrderOps.save, OrderOps.objects_get, OrderOps.Model_save, stamp.
  unfold_monad. simpl. rewrite Hpk. simpl.
  rewrite bool_decide_eq_false_2 by lia. simpl. rewrite Hrow.
  destruct (bool_decide (Order.status row = Order.status o)); simpl.
  - rewrite Hpk, Hrow. reflexivity.
  - destruct (bool_decide (Order.status o = Order.Status.PAID) && negb (is_set (Order.paid_at o)));
      simpl.
    + rewrite Hpk, Hrow. reflexivity.
    + destruct (bool_decide (Order.status o = Order.Status.COMPLETED)
                && negb (is_set (Order.completed_at o))); simpl;
        rewrite Hpk, Hrow; reflexivity.
Qed.

(** The notifier is silent when told the status the order already has. *)
Lemma notify_order_updated_same (o : Order.t) (w : World) :
  WebSocketNotifier.notify_order_updated o (Order.status o) w = (w, Return tt).
Proof.
  unfold WebSocketNotifier.notify_order_updated.
  rewrite bool_decide_eq_true_2 by reflexivity. reflexivity.
Qed.

(** ** Completing an order *)




(** What wilma, a worker of the right gender who is not assigned to the
    order, gets when she asks to complete it. *)
Example other_worker_is_refused :
  let o := order_of Order.Status.IN_PROGRESS (Some 2) (Some 5) in
  OrderService.complete_order wilma (mkCtx (world_of o) o)
  = (mkCtx (world_of o) o,
     Raise (InsufficientPermissionsError "Only assigned worker can complete the order.")).
Proof. vm_compute. reflexivity. Qed.


(** ** The notifier only writes frames *)

Lemma set_outbox_id (w : World) : set_outbox (outbox w ++ []) w = w.
Proof. destruct w; unfold set_outbox; simpl. rewrite app_nil_r. reflexivity. Qed.

Lemma set_outbox_twice (w : World) (f1 f2 : list (string * Message)) :
  set_outbox (outbox (set_outbox (outbox w ++ f1) w) ++ f2) (set_outbox (outbox w ++ f1) w)
  = set_outbox (outbox w ++ (f1 ++ f2)) w.
Proof. destruct w; unfold set_outbox; simpl. rewrite app_assoc. reflexivity. Qed.

Lemma members_set_outbox (group : string) (out : list (string * Message)) (w : World) :
  channel_layer.members group (set_outbox out w) = channel_layer.members group w.
Proof. reflexivity. Qed.

Lemma only_sends_ret {A : Type} (a : A) : only_sends (ret a).
Proof.
  intros w. exists [], a. rewrite set_outbox_id. split; [reflexivity |].
  intros channel message Hin. inversion Hin.
Qed.

Lemma only_sends_bind {A B : Type} (m : M World A) (k : A -> M World B) :
  only_sends m -> (forall a, only_sends (k a)) -> only_sends (bind m k).
Proof.
  intros Hm Hk w. destruct (Hm w) as (f1 & a & Hrun & Hlive).
  destruct (Hk a (set_outbox (outbox w ++ f1) w)) as (f2 & b & Hrun' & Hlive').
  exists (f1 ++ f2)%list, b. split.
  - unfold bind. rewrite Hrun, Hrun', set_outbox_twice. reflexivity.
  - intros channel message Hin. apply elem_of_app in Hin as [Hin | Hin].
    + eapply Hlive; exact Hin.
    + destruct (Hlive' _ _ Hin) as [group Hg]. exists group. exact Hg.
Qed.

Lemma only_sends_get : only_sends (get : M World World).
Proof.
  intros w. exists [], w. rewrite set_outbox_id. split; [reflexivity |].
  intros channel message Hin. inversion Hin.
Qed.

Lemma only_sends_for_each {A : Type} (xs : list A) (body : A -> M World unit) :
  (forall x, only_sends (body x)) -> only_sends (for_each xs body).
Proof.
  intros Hbody. induction xs as [| x xs IH]; simpl.
  - apply only_sends_ret.
  - apply only_sends_bind; [apply Hbody | intros _; exact IH].
Qed.

Lemma only_sends_group_send (group : string) (message : Message) :
  only_sends (channel_layer.group_send group message).
Proof.
  intros w. eexists _, tt. split; [reflexivity |].
  intros channel message' Hin. exists group.
  apply list_elem_of_fmap in Hin as (ch & Heq & Hch).
  inversion Heq; subst. apply elem_of_elements. exact Hch.
Qed.

Lemma only_sends_create_order_message (event : string) (order_id : option Z)
    (kwargs : list (string * JSON)) :
  only_sends (WebSocketMessageBuilder.create_order_message event order_id kwargs).
Proof.
  intros w. eexists [], _. rewrite set_outbox_id. split; [reflexivity |].
  intros channel message Hin. inversion Hin.
Qed.

Lemma only_sends_notify_user (user_id : Z) (message : Message) :
  only_sends (WebSocketNotifier.notify_user user_id message).
Proof. apply only_sends_group_send. Qed.

Lemma only_sends_notify_workers_by_gender (gender : option string) (message : Message) :
  only_sends (WebSocketNotifier.notify_workers_by_gender gender message).
Proof.
  unfold WebSocketNotifier.notify_workers_by_gender.
  apply only_sends_bind; [apply only_sends_get |]. intros w.
  destruct (WebSocketNotifier.worker_ids_by_gender gender w).
  - apply only_sends_ret.
  - apply only_sends_for_each. intros x. apply only_sends_notify_user.
Qed.

Create HintDb sends.

#[local] Hint Resolve only_sends_ret only_sends_get only_sends_group_send
  only_sends_create_order_message only_sends_notify_user
  only_sends_notify_workers_by_gender : sends.

Ltac sends := repeat first [ solve [auto with sends] | apply only_sends_bind; [| intros ?] ].

Lemma only_sends_notify_order_created (order : Order.t) :
  only_sends (WebSocketNotifier.notify_order_created order).
Proof. unfold WebSocketNotifier.notify_order_created. sends. Qed.

Lemma only_sends_notify_order_updated (order : Order.t) (old_status : string) :
  only_sends (WebSocketNotifier.notify_order_updated order old_status).
Proof.
  unfold WebSocketNotifier.notify_order_updated.
  destruct (Order.status order != old_status); [| apply only_sends_ret].
  sends. destruct (Order.contains _ _); sends.
Qed.

Lemma only_sends_notify_payment_processed (order : Order.t) (success : bool) :
  only_sends (WebSocketNotifier.notify_payment_processed order success).
Proof. unfold WebSocketNotifier.notify_payment_processed. sends. Qed.

Lemma only_sends_dispatch (ev : Event) : only_sends (dispatch ev).
Proof.
  destruct ev; simpl;
    [ apply only_sends_notify_order_created
    | apply only_sends_notify_order_updated
    | apply only_sends_notify_payment_processed ].
Qed.

(** C3 (amended). For every domain event the notifier handles (order
    created, order updated, payment processed) the call returns, and its
    only effect is to write envelopes to sockets that are live members
    of a channel-layer group. No notification record is created, marked
    Sent or otherwise touched: the notification store and every other
    table are as before, whether or not a channel received the event. *)
Theorem C3_dispatch_leaves_store_untouched (ev : Event) (w : World) :
  exists frames,
    dispatch ev w = (set_outbox (outbox w ++ frames) w, Return tt)
    /\ notifications (dispatch ev w).1 = notifications w
    /\ orders (dispatch ev w).1 = orders w
    /\ forall channel message,
         (channel, message) ∈ frames ->
         exists group, channel ∈ channel_layer.members group w.
Proof.
  destruct (only_sends_dispatch ev w) as (frames & [] & Hrun & Hlive).
  exists frames. rewrite Hrun. simpl. auto.
Qed.

(** What happens when alice, who has a live socket, creates an order:
    one frame is written to her socket and the store stays empty. *)
Example order_created_is_not_recorded :
  let o := order_of Order.Status.PENDING None None in
  dispatch (OrderCreated o) (live_world o)
  = (set_outbox
       [("chan-alice",
         mkMessage "order_created"
           [("event", JStr "order_created"); ("order_id", JInt 1);
            ("status", JStr "pending")] 7)]
       (live_world o),
     Return tt)
  /\ notifications (dispatch (OrderCreated o) (live_world o)).1 = ∅.
Proof. vm_compute. split; reflexivity. Qed.

(** C3, as the specification words it, fails: no record is persisted for
    a dispatched event. *)
Lemma C3_counterexample : ~ spec_dispatch_persists_record.
Proof.
  intros Hspec.
  pose (o := order_of Order.Status.PENDING None None).
  destruct (Hspec (OrderCreated o) (live_world o) I) as (k & n & Hnew & Hrec & _).
  destruct (only_sends_dispatch (OrderCreated o) (live_world o))
    as (frames & [] & Hrun & _).
  rewrite Hrun in Hrec.
  change (notifications (live_world o) !! k = Some n) in Hrec.
  rewrite Hnew in Hrec. discriminate Hrec.
Qed.

(** ** Processing a payment *)

Lemma process_payment_not_pending (w : World) (o : Order.t) (success : bool) :
  Order.status o <> Order.Status.PENDING ->
  PaymentService.process_payment success (mkCtx w o)
  = (mkCtx w o, Raise (PaymentProcessingError "Order cannot be paid at this time.")).
Proof.
  intros Hs. unfold PaymentService.process_payment, Order.can_be_paid. unfold_monad.
  simpl. rewrite bool_decide_eq_false_2 by exact Hs. reflexivity.
Qed.

Lemma process_payment_pending (w : World) (o : Order.t) (k : Z) (success : bool) :
  Order.pk o = Some k -> 0 < k -> orders w !! k = Some o ->
  Order.status o = Order.Status.PENDING ->
  let o1 := if success
            then Order.set_paid_at (Some (clock w)) (Order.set_status Order.Status.PAID o)
            else Order.set_status Order.Status.CANCELED o in
  let o' := Order.set_updated_at (Some (clock w)) o1 in
  exists frames,
    PaymentService.process_payment success (mkCtx w o)
    = (mkCtx (set_outbox (outbox w ++ frames) (set_orders (<[k := o']> (orders w)) w)) o',
       Return o').
Proof.
  intros Hpk Hk Hrow Hs o1 o'.
  assert (Hsave : OrderOps.save (mkCtx w o1)
                  = (mkCtx (set_orders (<[k := o']> (orders w)) w) o', Return tt)).
  { rewrite (save_persisted w o1 o k); [| destruct success; exact Hpk | exact Hk | exact Hrow].
    simpl. unfold o', o1, stamp. rewrite Hs. destruct success; reflexivity. }
  destruct (only_sends_notify_payment_processed o' success
              (set_orders (<[k := o']> (orders w)) w)) as (frames & [] & Hrun & _).
  exists frames.
  unfold PaymentService.process_payment, Order.can_be_paid. unfold_monad. simpl.
  rewrite bool_decide_eq_true_2 by exact Hs. simpl.
  destruct success; simpl; fold o1; rewrite Hsave; simpl; rewrite Hrun; reflexivity.
Qed.

(** C8. On a persisted Pending order, processing a payment with
    success returns the order Paid with paid_at set to the current
    instant; processing it without success returns the order Canceled
    (not merely marked as a failed payment) with paid_at, unset on an
    unpaid order, still unset. In both cases the row is saved. On an
    order that is not Pending both calls raise the payment-processing
    error and change neither the order nor the world. *)
Theorem C8_process_payment (w : World) (o : Order.t) :
  (persisted w o ->
   Order.status o = Order.Status.PENDING ->
   exists c',
     PaymentService.process_payment true (mkCtx w o) = (c', Return (inst c'))
     /\ Order.status (inst c') = Order.Status.PAID
     /\ Order.paid_at (inst c') = Some (clock w)
     /\ persisted (world c') (inst c'))
  /\ (persisted w o ->
      Order.status o = Order.Status.PENDING ->
      Order.paid_at o = None ->
      exists c',
        PaymentService.process_payment false (mkCtx w o) = (c', Return (inst c'))
        /\ Order.status (inst c') = Order.Status.CANCELED
        /\ Order.paid_at (inst c') = None
        /\ persisted (world c') (inst c'))
  /\ (Order.status o <> Order.Status.PENDING ->
      forall success, exists detail,
        PaymentService.process_payment success (mkCtx w o)
        = (mkCtx w o, Raise (PaymentProcessingError detail))).
Proof.
  split; [| split].
  - intros (k & Hpk & Hk & Hrow) Hs.
    destruct (process_payment_pending w o k true Hpk Hk Hrow Hs) as [frames Hrun].
    eexists. split; [exact Hrun |]. simpl.
    split; [reflexivity |]. split; [reflexivity |].
    exists k. simpl. rewrite lookup_insert_eq. auto.
  - intros (k & Hpk & Hk & Hrow) Hs Hpaid.
    destruct (process_payment_pending w o k false Hpk Hk Hrow Hs) as [frames Hrun].
    eexists. split; [exact Hrun |]. simpl.
    split; [reflexivity |]. split; [exact Hpaid |].
    exists k. simpl. rewrite lookup_insert_eq. auto.
  - intros Hs success. eexists. apply process_payment_not_pending. exact Hs.
Qed.

(** A payment succeeds or fails on alice's pending order; once the order
    is canceled a further attempt is refused. *)
Lemma C8_process_payment_witness :
  let o := order_of Order.Status.PENDING None None in
  let o' := order_of Order.Status.CANCELED None None in
  (exists c',
     PaymentService.process_payment true (mkCtx (world_of o) o) = (c', Return (inst c'))
     /\ Order.status (inst c') = Order.Status.PAID
     /\ Order.paid_at (inst c') = Some 7)
  /\ (exists c',
        PaymentService.process_payment false (mkCtx (world_of o) o) = (c', Return (inst c'))
        /\ Order.status (inst c') = Order.Status.CANCELED
        /\ Order.paid_at (inst c') = None)
  /\ (exists detail,
        PaymentService.process_payment false (mkCtx (world_of o') o')
        = (mkCtx (world_of o') o', Raise (PaymentProcessingError detail))).
Proof.
  intros o o'.
  assert (Hp : persisted (world_of o) o) by (exists 1; repeat split; reflexivity).
  split; [| split].
  - destruct (proj1 (C8_process_payment (world_of o) o) Hp eq_refl)
      as (c' & Hrun & Hs & Ht & _).
    exists c'. auto.
  - destruct (proj1 (proj2 (C8_process_payment (world_of o) o)) Hp eq_refl eq_refl)
      as (c' & Hrun & Hs & Ht & _).
    exists c'. auto.
  - apply (proj2 (proj2 (C8_process_payment (world_of o') o'))). discriminate.
Defined.

(** ** Marking a notification as read over the socket *)





(** ** The shape of every operation on a persisted order *)

Lemma setattr_pk (kw : Kwarg) (o : Order.t) :
  Order.pk (OrderService.setattr kw o) = Order.pk o.
Proof. destruct kw; reflexivity. Qed.

Lemma foldl_setattr_pk (kwargs : list Kwarg) (o : Order.t) :
  Order.pk (foldl (fun acc kw => OrderService.setattr kw acc) o kwargs) = Order.pk o.
Proof.
  revert o. induction kwargs as [| kw kwargs IH]; intros o; simpl; [reflexivity |].
  rewrite IH. apply setattr_pk.
Qed.

Lemma for_each_setattr (kwargs : list Kwarg) (w : World) (o : Order.t) :
  for_each kwargs (fun kw => assign (OrderService.setattr kw)) (mkCtx w o)
  = (mkCtx w (foldl (fun acc kw => OrderService.setattr kw acc) o kwargs), Return tt).
Proof.
  revert o. induction kwargs as [| kw kwargs IH]; intros o; simpl; [reflexivity |].
  unfold bind, assign at 1. simpl. apply IH.
Qed.

Lemma save_changed (w : World) (o o1 : Order.t) (k : Z) :
  Order.pk o = Some k -> 0 < k -> orders w !! k = Some o -> Order.pk o1 = Some k ->
  OrderOps.save (mkCtx w o1)
  = (mkCtx (set_orders (<[k := saved w o o1]> (orders w)) w) (saved w o o1), Return tt).
Proof.
  intros Hpk Hk Hrow Hpk1. rewrite (save_persisted w o1 o k Hpk1 Hk Hrow). reflexivity.
Qed.

Lemma saved_status (w : World) (o o1 : Order.t) :
  Order.status (saved w o o1) = Order.status o1.
Proof.
  unfold saved, stamp. repeat (case_match; simpl); reflexivity.
Qed.

Lemma discard_run {S A : Type} (m : M S A) (s : S) :
  discard m s = match m s with
                | (s', Return _) => (s', Return tt)
                | (s', Raise e) => (s', Raise e)
                end.
Proof. unfold discard, bind, ret. destruct (m s) as [s' [a | e]]; reflexivity. Qed.

(** The boolean service functions: guards, then the model method; the
    report to the notifier names the status the order now has and is
    ignored. *)
Lemma assign_worker_to_order_run (worker user : User.t) (c : Ctx Order.t) :
  OrderService.assign_worker_to_order worker user c =
    if negb (OrderService._can_user_manage_order user (inst c)) then
      (c, Raise (InsufficientPermissionsError "Cannot manage this order."))
    else if negb (User.is_worker worker) then
      (c, Raise (InsufficientPermissionsError "Can only assign workers to orders."))
    else OrderOps.assign_worker worker c.
Proof.
  unfold OrderService.assign_worker_to_order. unfold_monad.
  destruct (OrderService._can_user_manage_order user (inst c)); simpl; [| reflexivity].
  destruct (User.is_worker worker); simpl; [| reflexivity].
  destruct (OrderOps.assign_worker worker c) as [c' [[|] | e]]; simpl; try reflexivity.
  rewrite notify_order_updated_same. destruct c'; reflexivity.
Qed.

Lemma start_order_work_run (user : User.t) (c : Ctx Order.t) :
  OrderService.start_order_work user c =
    if negb (OrderService._can_user_manage_order user (inst c)) then
      (c, Raise (InsufficientPermissionsError "Cannot manage this order."))
    else if negb (OrderService.worker_is user (inst c)) then
      (c, Raise (InsufficientPermissionsError "Only assigned worker can start work."))
    else OrderOps.start_work c.
Proof.
  unfold OrderService.start_order_work. unfold_monad.
  destruct (OrderService._can_user_manage_order user (inst c)); simpl; [| reflexivity].
  destruct (OrderService.worker_is user (inst c)); simpl; [| reflexivity].
  destruct (OrderOps.start_work c) as [c' [[|] | e]]; simpl; try reflexivity.
  rewrite notify_order_updated_same. destruct c'; reflexivity.
Qed.

Lemma service_complete_order_run (user : User.t) (c : Ctx Order.t) :
  OrderService.complete_order user c =
    if negb (OrderService._can_user_manage_order user (inst c)) then
      (c, Raise (InsufficientPermissionsError "Cannot manage this order."))
    else if negb (OrderService.worker_is user (inst c)) then
      (c, Raise (InsufficientPermissionsError "Only assigned worker can complete the order."))
    else OrderOps.complete_order c.
Proof.
  unfold OrderService.complete_order. unfold_monad.
  destruct (OrderService._can_user_manage_order user (inst c)); simpl; [| reflexivity].
  destruct (OrderService.worker_is user (inst c)); simpl; [| reflexivity].
  destruct (OrderOps.complete_order c) as [c' [[|] | e]]; simpl; try reflexivity.
  rewrite notify_order_updated_same. destruct c'; reflexivity.
Qed.

Lemma service_cancel_order_run (user : User.t) (reason : string) (c : Ctx Order.t) :
  OrderService.cancel_order user reason c =
    if negb (OrderService._can_user_cancel_order user (inst c)) then
      (c, Raise (InsufficientPermissionsError "Cannot cancel this order."))
    else OrderOps.cancel_order c.
Proof.
  unfold OrderService.cancel_order. unfold_monad.
  destruct (OrderService._can_user_cancel_order user (inst c)); simpl; [| reflexivity].
  destruct (OrderOps.cancel_order c) as [c' [[|] | e]]; simpl; try reflexivity.
  rewrite notify_order_updated_same. destruct c'; reflexivity.
Qed.

Section Shape.
Variables (w : World) (o : Order.t) (k : Z).
Hypothesis Hpk : Order.pk o = Some k.
Hypothesis Hk : 0 < k.
Hypothesis Hrow : orders w !! k = Some o.

Lemma after_nil (o1 : Order.t) :
  mkCtx (set_orders (<[k := saved w o o1]> (orders w)) w) (saved w o o1)
  = after w o k o1 [].
Proof. unfold after, set_outbox, set_orders. simpl. rewrite app_nil_r. reflexivity. Qed.

Lemma shape_changed (op : Op) (o1 : Order.t) (frames : list (string * Message)) :
  Mutation w o op o1 -> Order.pk o1 = Some k ->
  shape w o k op (after w o k o1 frames) (Return tt).
Proof. intros Hm Hp. right. exists o1, frames. auto. Qed.

Lemma shape_same (op : Op) (r : Outcome unit) : shape w o k op (mkCtx w o) r.
Proof. left. reflexivity. Qed.

Lemma model_assign_worker_run (worker : User.t) :
  OrderOps.assign_worker worker (mkCtx w o)
  = if negb (Order.can_be_assigned o) then (mkCtx w o, Return false)
    else if User.role worker != User.Role.WORKER then (mkCtx w o, Return false)
    else (after w o k (Order.set_worker (Some (User.id worker)) o) [], Return true).
Proof.
  unfold OrderOps.assign_worker. unfold_monad. simpl.
  destruct (Order.can_be_assigned o); simpl; [| reflexivity].
  destruct (bool_decide (User.role worker = User.Role.WORKER)); simpl; [| reflexivity].
  rewrite (save_changed w o _ k Hpk Hk Hrow) by exact Hpk.
  rewrite after_nil. reflexivity.
Qed.

(** The three methods that only move the status. *)
Lemma model_status_run (guard : Order.t -> bool) (new_status : string) :
  (this <- self ;;
   if negb (guard this) then ret false
   else assign (Order.set_status new_status) ;; OrderOps.save ;; ret true) (mkCtx w o)
  = if negb (guard o) then (mkCtx w o, Return false)
    else (after w o k (Order.set_status new_status o) [], Return true).
Proof.
  unfold_monad. simpl. destruct (guard o); simpl; [| reflexivity].
  rewrite (save_changed w o _ k Hpk Hk Hrow) by exact Hpk.
  rewrite after_nil. reflexivity.
Qed.

Lemma start_work_run :
  OrderOps.start_work (mkCtx w o)
  = if negb (Order.can_be_started o) then (mkCtx w o, Return false)
    else (after w o k (Order.set_status Order.Status.IN_PROGRESS o) [], Return true).
Proof. exact (model_status_run Order.can_be_started Order.Status.IN_PROGRESS). Qed.

Lemma complete_run :
  OrderOps.complete_order (mkCtx w o)
  = if negb (Order.can_be_completed o) then (mkCtx w o, Return false)
    else (after w o k (Order.set_status Order.Status.COMPLETED o) [], Return true).
Proof. exact (model_status_run Order.can_be_completed Order.Status.COMPLETED). Qed.

Lemma cancel_run :
  OrderOps.cancel_order (mkCtx w o)
  = if negb (Order.can_be_canceled o) then (mkCtx w o, Return false)
    else (after w o k (Order.set_status Order.Status.CANCELED o) [], Return true).
Proof. exact (model_status_run Order.can_be_canceled Order.Status.CANCELED). Qed.

Lemma can_be_assigned_paid :
  Order.can_be_assigned o = true -> Order.status o = Order.Status.PAID.
Proof.
  unfold Order.can_be_assigned. intros H. apply andb_prop in H as [H _].
  apply bool_decide_eq_true in H. exact H.
Qed.

Ltac settle H :=
  inversion H; subst; clear H;
  first [ apply shape_same
        | apply shape_changed; [constructor; auto | simpl; auto] ].

Lemma save_and_notify {A : Type} (o1 : Order.t) (notify : Order.t -> M World unit)
    (fin : M (Ctx Order.t) A) (g : Order.t -> A) :
  Order.pk o1 = Some k ->
  (forall x, only_sends (notify x)) ->
  (forall c, fin c = (c, Return (g (inst c)))) ->
  exists frames,
    (OrderOps.save ;; order <- self ;; lift (notify order) ;; fin) (mkCtx w o1)
    = (after w o k o1 frames, Return (g (saved w o o1))).
Proof.
  intros Hpk1 Hnotify Hfin.
  destruct (Hnotify (saved w o o1) (set_orders (<[k := saved w o o1]> (orders w)) w))
    as (frames & [] & Hrun & _).
  exists frames.
  rewrite (bind_return _ _ _ _ _ (save_changed w o o1 k Hpk Hk Hrow Hpk1)).
  unfold bind at 1. unfold self at 1.
  unfold bind at 1. unfold lift at 1. simpl. rewrite Hrun.
  rewrite Hfin. reflexivity.
Qed.

Lemma update_order_status_run (new_status : string) (user : User.t)
    (kwargs : list Kwarg) :
  OrderService._can_user_update_order user o = true ->
  Order._is_valid_status_transition (Order.status o) new_status = true ->
  let o1 := Order.set_status new_status
              (foldl (fun acc kw => OrderService.setattr kw acc) o kwargs) in
  exists frames,
    OrderService.update_order_status (Some new_status) user kwargs (mkCtx w o)
    = (after w o k o1 frames, Return (saved w o o1)).
Proof.
  intros Hperm Hvalid o1.
  destruct (save_and_notify o1
              (fun order => WebSocketNotifier.notify_order_updated order (Order.status o))
              self (fun order => order)) as [frames Hrun].
  { unfold o1. simpl. rewrite foldl_setattr_pk. exact Hpk. }
  { intros x. apply only_sends_notify_order_updated. }
  { intros c. reflexivity. }
  exists frames.
  unfold OrderService.update_order_status.
  unfold bind at 1. unfold self at 1. simpl.
  unfold bind at 1. rewrite Hperm. simpl.
  unfold bind at 1. rewrite Hvalid. simpl.
  unfold try_except, atomic.
  rewrite (bind_return _ _ _ _ _ (for_each_setattr kwargs w o)).
  unfold bind at 1. unfold assign at 1. simpl.
  fold o1. rewrite Hrun. reflexivity.
Qed.

Lemma process_payment_run (success : bool) :
  Order.status o = Order.Status.PENDING ->
  let o1 := if success
            then Order.set_paid_at (Some (clock w)) (Order.set_status Order.Status.PAID o)
            else Order.set_status Order.Status.CANCELED o in
  exists frames,
    PaymentService.process_payment success (mkCtx w o)
    = (after w o k o1 frames, Return (saved w o o1)).
Proof.
  intros Hs o1.
  destruct (save_and_notify o1
              (fun order => WebSocketNotifier.notify_payment_processed order success)
              self (fun order => order)) as [frames Hrun].
  { unfold o1. destruct success; exact Hpk. }
  { intros x. apply only_sends_notify_payment_processed. }
  { intros c. reflexivity. }
  exists frames.
  unfold PaymentService.process_payment, Order.can_be_paid.
  unfold bind at 1. unfold self at 1. simpl.
  unfold bind at 1. rewrite bool_decide_eq_true_2 by exact Hs. simpl.
  unfold try_except, atomic.
  assert (Hprep : (if success
                   then assign (Order.set_status Order.Status.PAID) ;;
                        now <- timezone_now ;;
                        assign (Order.set_paid_at (Some now))
                   else assign (Order.set_status Order.Status.CANCELED)) (mkCtx w o)
                  = (mkCtx w o1, Return tt))
    by (destruct success; reflexivity).
  rewrite (bind_return _ _ _ _ _ Hprep), Hrun. reflexivity.
Qed.

Lemma refund_payment_run (user : User.t) (reason : string) :
  (User.is_admin user || OrderService.client_is user o) = true ->
  Order.is_paid o = true ->
  let o1 := Order.set_status Order.Status.CANCELED o in
  exists frames,
    PaymentService.refund_payment user reason (mkCtx w o)
    = (after w o k o1 frames, Return true).
Proof.
  intros Hperm Hpaid o1.
  destruct (save_and_notify o1
              (fun order => WebSocketNotifier.notify_payment_processed order false)
              (ret true) (fun _ => true)) as [frames Hrun].
  { exact Hpk. }
  { intros x. apply only_sends_notify_payment_processed. }
  { intros c. reflexivity. }
  exists frames.
  unfold PaymentService.refund_payment.
  unfold bind at 1. unfold self at 1. simpl.
  unfold bind at 1.
  assert (Hguard : negb (User.is_admin user) && negb (OrderService.client_is user o) = false).
  { destruct (User.is_admin user), (OrderService.client_is user o);
      simpl in *; congruence. }
  rewrite Hguard. simpl.
  unfold bind at 1. rewrite Hpaid. simpl.
  unfold try_except, atomic.
  unfold bind at 1. unfold assign at 1. simpl. fold o1.
  rewrite Hrun. reflexivity.
Qed.

Lemma exec_shape (op : Op) (c' : Ctx Order.t) (r : Outcome unit) :
  exec op (mkCtx w o) = (c', r) -> shape w o k op c' r.
Proof.
  destruct op; simpl; rewrite ?discard_run.
  - (* save *)
    rewrite (save_changed w o o k Hpk Hk Hrow Hpk), after_nil. intros H. settle H.
  - (* assign_worker *)
    rewrite model_assign_worker_run.
    destruct (Order.can_be_assigned o) eqn:Hc; simpl; [| intros H; settle H].
    destruct (bool_decide (User.role worker = User.Role.WORKER)); simpl;
      intros H; settle H. apply can_be_assigned_paid. exact Hc.
  - (* start_work *)
    rewrite start_work_run.
    destruct (Order.can_be_started o); simpl; intros H; settle H.
  - (* complete_order *)
    rewrite complete_run.
    destruct (Order.can_be_completed o); simpl; intros H; settle H.
  - (* cancel_order *)
    rewrite cancel_run.
    destruct (Order.can_be_canceled o); simpl; intros H; settle H.
  - (* update_order_status *)
    destruct new_status as [new_status |].
    + destruct (OrderService._can_user_update_order user o) eqn:Hperm.
      * destruct (Order._is_valid_status_transition (Order.status o) new_status) eqn:Hv.
        -- destruct (update_order_status_run new_status user kwargs Hperm Hv)
             as [frames Hrun].
           rewrite Hrun. intros H. inversion H; subst; clear H.
           apply shape_changed; [constructor; exact Hv |].
           simpl. rewrite foldl_setattr_pk. exact Hpk.
        -- unfold OrderService.update_order_status. unfold_monad. simpl.
           rewrite Hperm, Hv. simpl. intros H. settle H.
      * unfold OrderService.update_order_status. unfold_monad. simpl.
        rewrite Hperm. simpl. intros H. settle H.
    + unfold OrderService.update_order_status. unfold_monad. simpl.
      destruct (OrderService._can_user_update_order user o); simpl; intros H; settle H.
  - (* assign_worker_to_order *)
    rewrite assign_worker_to_order_run. simpl.
    destruct (OrderService._can_user_manage_order user o); simpl;
      [| intros H; settle H].
    destruct (User.is_worker worker); simpl; [| intros H; settle H].
    rewrite model_assign_worker_run.
    destruct (Order.can_be_assigned o) eqn:Hc; simpl; [| intros H; settle H].
    destruct (bool_decide (User.role worker = User.Role.WORKER)); simpl;
      intros H; settle H. apply can_be_assigned_paid. exact Hc.
  - (* start_order_work *)
    rewrite start_order_work_run. simpl.
    destruct (OrderService._can_user_manage_order user o); simpl;
      [| intros H; settle H].
    destruct (OrderService.worker_is user o); simpl; [| intros H; settle H].
    rewrite start_work_run.
    destruct (Order.can_be_started o); simpl; intros H; settle H.
  - (* complete_order *)
    rewrite service_complete_order_run. simpl.
    destruct (OrderService._can_user_manage_order user o); simpl;
      [| intros H; settle H].
    destruct (OrderService.worker_is user o); simpl; [| intros H; settle H].
    rewrite complete_run.
    destruct (Order.can_be_completed o); simpl; intros H; settle H.
  - (* cancel_order *)
    rewrite service_cancel_order_run. simpl.
    destruct (OrderService._can_user_cancel_order user o); simpl;
      [| intros H; settle H].
    rewrite cancel_run.
    destruct (Order.can_be_canceled o); simpl; intros H; settle H.
  - (* process_payment *)
    destruct (bool_decide (Order.status o = Order.Status.PENDING)) eqn:Hs.
    + apply bool_decide_eq_true in Hs.
      destruct (process_payment_run success Hs) as [frames Hrun].
      rewrite Hrun. intros H. inversion H; subst; clear H.
      destruct success; (apply shape_changed; [constructor; exact Hs | exact Hpk]).
    + apply bool_decide_eq_false in Hs.
      rewrite (process_payment_not_pending w o success Hs). intros H. settle H.
  - (* refund_payment *)
    destruct (User.is_admin user || OrderService.client_is user o) eqn:Hperm.
    + destruct (Order.is_paid o) eqn:Hpaid.
      * destruct (refund_payment_run user reason Hperm Hpaid) as [frames Hrun].
        rewrite Hrun. intros H. inversion H; subst; clear H.
        apply shape_changed; [constructor | exact Hpk].
      * unfold PaymentService.refund_payment. unfold_monad. simpl.
        rewrite Hpaid. simpl.
        destruct (negb (User.is_admin user) && negb (OrderService.client_is user o));
          simpl; intros H; settle H.
    + unfold PaymentService.refund_payment. unfold_monad. simpl.
      apply orb_false_elim in Hperm as [Ha Hc]. rewrite Ha, Hc. simpl.
      intros H. settle H.
Qed.

End Shape.

(** ** Derived timestamps are set on entry and kept afterwards *)






Lemma no_transition_into_pending (old : string) :
  Order._is_valid_status_transition old Order.Status.PENDING = false.
Proof.
  unfold Order._is_valid_status_transition, Order.valid_transitions. simpl.
  repeat case_bool_decide; reflexivity.
Qed.


(** The extra fields the endpoint forwards never name a timestamp. *)
Lemma validated_kwargs_plain (new_status : option string) (user : User.t) (attrs : Attrs) :
  plain (op_update_order_status new_status user (validated_kwargs attrs)).
Proof.
  destruct attrs as [[s |] [wid |] [reason |]]; reflexivity.
Qed.


Section Steps.
Variables (w : World) (o : Order.t) (k : Z) (op : Op).
Variables (c' : Ctx Order.t) (r : Outcome unit).
Hypothesis Hpk : Order.pk o = Some k.
Hypothesis Hk : 0 < k.
Hypothesis Hrow : orders w !! k = Some o.
Hypothesis Hshape : shape w o k op c' r.






End Steps.

Lemma exec_persisted_shape (op : Op) (c c' : Ctx Order.t) (r : Outcome unit) :
  persisted (world c) (inst c) ->
  exec op c = (c', r) ->
  exists k, Order.pk (inst c) = Some k /\ 0 < k
            /\ orders (world c) !! k = Some (inst c)
            /\ shape (world c) (inst c) k op c' r.
Proof.
  intros (k & Hpk & Hk & Hrow) Hrun. exists k. repeat (split; [assumption |]).
  destruct c as [w o]. simpl in *. apply exec_shape; assumption.
Qed.


(** An unpaid Pending order stays so whatever the operation: a Pending
    order with paid_at set is not reachable from an unpaid one. *)
Lemma pending_stays_unpaid (op : Op) (c c' : Ctx Order.t) (r : Outcome unit) :
  persisted (world c) (inst c) ->
  exec op c = (c', r) ->
  (Order.status (inst c) = Order.Status.PENDING -> Order.paid_at (inst c) = None) ->
  Order.status (inst c') = Order.Status.PENDING -> Order.paid_at (inst c') = None.
Proof.
  intros Hp Hrun Hinv Hs'.
  destruct (exec_persisted_shape op c c' r Hp Hrun) as (k & _ & _ & _ & Hshape).
  destruct Hshape as [-> | (o1 & frames & Hm & _ & _ & ->)]; [auto |].
  unfold after in *. cbn [inst] in *. rewrite saved_status in Hs'.
  destruct Hm as [ | worker Hs | | | | new_status user kwargs Hv | worker user Hs
                 | user | user | user reason | Hs | Hs | user reason ];
    simpl in Hs'; try discriminate Hs'; try (rewrite Hs in Hs'; discriminate Hs').
  - unfold saved, stamp. rewrite bool_decide_eq_true_2 by reflexivity. simpl. auto.
  - subst new_status. rewrite no_transition_into_pending in Hv. discriminate Hv.
Qed.




(** The same request, evaluated: the order is in progress and paid_at
    is gone, in the instance and in its row. *)
Example paid_at_reset_by_extra_field :
  let o := order_of Order.Status.PAID None (Some 5) in
  let c' := (exec (op_update_order_status (Some Order.Status.IN_PROGRESS) root
                     [kw_paid_at None])
                  (mkCtx (world_of o) o)).1 in
  Order.status (inst c') = Order.Status.IN_PROGRESS
  /\ Order.paid_at (inst c') = None
  /\ orders (world c') !! 1 = Some (inst c').
Proof. vm_compute. repeat split; reflexivity. Qed.


(** ** Notification status changes *)


Lemma mark_as_sent_run (w : World) (n row : Notification.t) (k : Z) :
  Notification.id n = Some k -> notifications w !! k = Some row ->
  NotificationOps.mark_as_sent (mkCtx w n)
  = (mkCtx (set_notifications
              (<[k := Notification.set_sent_at (Some (clock w))
                        (Notification.set_status Notification.Status.SENT row)]>
                 (notifications w)) w)
           (Notification.set_sent_at (Some (clock w))
              (Notification.set_status Notification.Status.SENT n)),
     Return tt).
Proof.
  intros Hid Hrow. unfold NotificationOps.mark_as_sent, NotificationOps.save_update_fields.
  unfold_monad. simpl. rewrite Hid, Hrow. reflexivity.
Qed.

Lemma mark_as_failed_run (w : World) (n row : Notification.t) (k : Z) :
  Notification.id n = Some k -> notifications w !! k = Some row ->
  NotificationOps.mark_as_failed (mkCtx w n)
  = (mkCtx (set_notifications
              (<[k := Notification.set_status Notification.Status.FAILED row]>
                 (notifications w)) w)
           (Notification.set_status Notification.Status.FAILED n),
     Return tt).
Proof.
  intros Hid Hrow. unfold NotificationOps.mark_as_failed, NotificationOps.save_update_fields.
  unfold_monad. simpl. rewrite Hid, Hrow. reflexivity.
Qed.


(** The admin actions, the other path to these status changes, filter
    on the old status. *)
Lemma filter_update_lookup (queryset : gset Z) (old new : string) (w : World) (k : Z) :
  notifications (NotificationAdmin.filter_update queryset old new w).1 !! k
  = (fun n => if bool_decide (k ∈ queryset) && (Notification.status n == old)
              then Notification.set_status new n else n)
      <$> notifications w !! k.
Proof.
  unfold NotificationAdmin.filter_update. simpl.
  rewrite map_lookup_imap. destruct (notifications w !! k); reflexivity.
Qed.

Lemma filter_update_follows_edge (queryset : gset Z) (old new : string) (w : World)
    (k : Z) (n : Notification.t) :
  notifications w !! k = Some n ->
  exists n',
    notifications (NotificationAdmin.filter_update queryset old new w).1 !! k = Some n'
    /\ (n' = n
        \/ (Notification.status n = old /\ Notification.status n' = new)).
Proof.
  intros Hrow. rewrite filter_update_lookup, Hrow. simpl.
  eexists. split; [reflexivity |].
  destruct (bool_decide (k ∈ queryset)); simpl; [| left; reflexivity].
  case_bool_decide as Hold; [| left; reflexivity].
  right. split; [exact Hold | reflexivity].
Qed.

Lemma admin_actions_follow_edges (queryset : gset Z) (w : World) (k : Z)
    (n : Notification.t) :
  notifications w !! k = Some n ->
  Forall (fun action : gset Z -> M World nat =>
            exists n',
              notifications (action queryset w).1 !! k = Some n'
              /\ (n' = n
                  \/ (Notification.status n, Notification.status n') ∈ notification_edges))
         [ NotificationAdmin.mark_as_sent; NotificationAdmin.mark_as_read;
           NotificationAdmin.mark_as_failed; NotificationAdmin.resend_notifications ].
Proof.
  intros Hrow.
  repeat first [apply Forall_cons_2 | apply Forall_nil_2].
  all: cbv beta.
  all: match goal with
       | |- exists _, notifications (?action _ _).1 !! _ = _ /\ _ => unfold action
       end.
  all: match goal with
       | |- exists _, notifications (NotificationAdmin.filter_update _ ?old ?new _).1 !! _ = _ /\ _ =>
           destruct (filter_update_follows_edge queryset old new w k n Hrow)
             as (n' & Hrow' & Hcase);
           exists n'; (split; [exact Hrow' |]);
           destruct Hcase as [-> | [Hold Hnew]];
           [left; reflexivity
           | right; rewrite Hold, Hnew; unfold notification_edges; set_solver]
       end.
Qed.


(** ** Subscribing and unsubscribing over the socket *)

Lemma prefix_nonempty (p s : string) :
  p <> "" -> String.prefix p s = true -> s <> "".
Proof. intros Hp Hs ->. destruct p; [congruence | discriminate Hs]. Qed.

Ltac unfold_consumer :=
  unfold BaseWebSocketConsumer._handle_subscribe, BaseWebSocketConsumer._handle_unsubscribe,
    BaseWebSocketConsumer.json_get, BaseWebSocketConsumer.names_user_group,
    BaseWebSocketConsumer.group_add, BaseWebSocketConsumer.group_discard,
    BaseWebSocketConsumer.send_error_message, BaseWebSocketConsumer.send,
    BaseWebSocketConsumer._get_current_timestamp,
    channel_layer.group_add, channel_layer.group_discard in *;
  unfold_monad.


Lemma send_error_message_run (c : Ctx Consumer.t) (text : string) :
  BaseWebSocketConsumer.send_error_message text c
  = (mkCtx (set_outbox
              (outbox (world c)
               ++ [(Consumer.channel_name (inst c),
                    mkMessage "error"
                      [("error", JStr text); ("timestamp", JInt (clock (world c)))]
                      (clock (world c)))])
              (world c))
           (inst c),
     Return tt).
Proof. reflexivity. Qed.

(** The handlers catch every exception: they always return. *)
Lemma handle_subscribe_returns (c : Ctx Consumer.t) (data : JSON) :
  exists c', BaseWebSocketConsumer._handle_subscribe data c = (c', Return tt).
Proof.
  unfold BaseWebSocketConsumer._handle_subscribe, try_except.
  match goal with |- context [match ?body c with _ => _ end] => destruct (body c) as [c' [[] | e]] end.
  - eauto.
  - rewrite send_error_message_run. eauto.
Qed.

(** An authenticated connection hands a subscribe message to the
    handler. *)
Lemma receive_subscribe (c : Ctx Consumer.t) (d : list (string * JSON)) :
  Consumer.authenticated (inst c) = true ->
  dict_get "type" d = JStr "subscribe" ->
  BaseWebSocketConsumer.receive (Some (JDict d)) c
  = BaseWebSocketConsumer._handle_subscribe (JDict d) c.
Proof.
  intros Hauth Htype.
  assert (Hhas : dict_has "type" d = true).
  { clear Hauth. induction d as [| [key v] d IH]; simpl in *; [discriminate Htype |].
    case_bool_decide; simpl; [reflexivity | apply IH; exact Htype]. }
  destruct (handle_subscribe_returns c (JDict d)) as [c' Hrun].
  unfold BaseWebSocketConsumer.receive, BaseWebSocketConsumer.receive_with,
    BaseWebSocketConsumer._validate_message, BaseWebSocketConsumer.json_contains,
    BaseWebSocketConsumer._handle_message, BaseWebSocketConsumer.json_get.
  unfold try_except, bind at 1, self. rewrite Hauth. simpl.
  unfold bind at 1, ret at 1. unfold WS_MESSAGE_STRUCTURE.TYPE. rewrite Hhas. simpl.
  unfold bind at 1, ret at 1. rewrite Htype. rewrite Hrun. reflexivity.
Qed.

Lemma handle_unsubscribe_returns (c : Ctx Consumer.t) (data : JSON) :
  exists c', BaseWebSocketConsumer._handle_unsubscribe data c = (c', Return tt).
Proof.
  unfold BaseWebSocketConsumer._handle_unsubscribe, try_except.
  match goal with |- context [match ?body c with _ => _ end] => destruct (body c) as [c' [[] | e]] end.
  - eauto.
  - rewrite send_error_message_run. eauto.
Qed.

Lemma receive_unsubscribe (c : Ctx Consumer.t) (d : list (string * JSON)) :
  Consumer.authenticated (inst c) = true ->
  dict_get "type" d = JStr "unsubscribe" ->
  BaseWebSocketConsumer.receive (Some (JDict d)) c
  = BaseWebSocketConsumer._handle_unsubscribe (JDict d) c.
Proof.
  intros Hauth Htype.
  assert (Hhas : dict_has "type" d = true).
  { clear Hauth. induction d as [| [key v] d IH]; simpl in *; [discriminate Htype |].
    case_bool_decide; simpl; [reflexivity | apply IH; exact Htype]. }
  destruct (handle_unsubscribe_returns c (JDict d)) as [c' Hrun].
  unfold BaseWebSocketConsumer.receive, BaseWebSocketConsumer.receive_with,
    BaseWebSocketConsumer._validate_message, BaseWebSocketConsumer.json_contains,
    BaseWebSocketConsumer._handle_message, BaseWebSocketConsumer.json_get.
  unfold try_except, bind at 1, self. rewrite Hauth. simpl.
  unfold bind at 1, ret at 1. unfold WS_MESSAGE_STRUCTURE.TYPE. rewrite Hhas. simpl.
  unfold bind at 1, ret at 1. rewrite Htype. rewrite Hrun. reflexivity.
Qed.

(** What alice's connection gets when it subscribes to carol's group. *)
Example alice_joins_carols_group :
  let c := mkCtx (world_of (order_of Order.Status.PENDING None None))
                 (consumer_of alice "chan-alice") in
  let data := JDict [("type", JStr "subscribe"); ("group_name", JStr "user_11")] in
  let c' := (BaseWebSocketConsumer.receive (Some data) c).1 in
  elements (channel_layer.members "user_11" (world c')) = ["chan-alice"]
  /\ (msg_type <$> (outbox (world c')).*2) = ["subscribed"]
  /\ entitled_groups alice = ["user_10"; "notifications_10"; "orders_client_10"].
Proof. vm_compute. repeat split; reflexivity. Qed.


(** The groups named [entitled_groups] are the only ones whose
    membership a connecting consumer changes. *)
Lemma connect_joins_entitled_groups (c : Ctx Consumer.t) (u : User.t) (group : string) :
  group ∉ entitled_groups u ->
  channel_layer.members group (world (OrderConsumer.connect (Some u) c).1)
    = channel_layer.members group (world c)
  /\ channel_layer.members group (world (NotificationConsumer.connect (Some u) c).1)
     = channel_layer.members group (world c).
Proof.
  destruct c as [w this]. intros Hout.
  assert (Hne : forall x, x ∈ entitled_groups u -> group <> x)
    by (intros x Hx ->; exact (Hout Hx)).
  clear Hout. unfold entitled_groups in Hne.
  split.
  - unfold OrderConsumer.connect, OrderConsumer._join_order_groups,
      BaseWebSocketConsumer.connect, BaseWebSocketConsumer.accept,
      BaseWebSocketConsumer.close, BaseWebSocketConsumer.send_connection_confirmation.
    unfold_consumer. simpl.
    repeat (case_match; simpl; simplify_eq);
      unfold channel_layer.members; simpl;
      repeat match goal with
             | H : User.is_client _ = _ |- _ => rewrite H in Hne; clear H
             | H : User.is_worker _ = _ |- _ => rewrite H in Hne; clear H
             | H : User.is_admin _ = _ |- _ => rewrite H in Hne; clear H
             | H : User.gender _ = _ |- _ => rewrite H in Hne; clear H
             end;
      rewrite ?lookup_insert_ne by (apply not_eq_sym, Hne; set_solver); reflexivity.
  - unfold NotificationConsumer.connect, NotificationConsumer._join_notification_groups,
      BaseWebSocketConsumer.connect, BaseWebSocketConsumer.accept,
      BaseWebSocketConsumer.close, BaseWebSocketConsumer.send_connection_confirmation.
    unfold_consumer. simpl.
    assert (Hn : group <> "notifications_" +:+ pretty (User.id u))
      by (apply Hne; set_solver).
    assert (Hu : group <> "user_" +:+ pretty (User.id u))
      by (apply Hne; set_solver).
    repeat (case_match; simpl; simplify_eq);
      unfold channel_layer.members; simpl;
      repeat match goal with
             | H : User.is_admin _ = _ |- _ => rewrite H in Hne; clear H
             end;
      rewrite ?lookup_insert_ne by (apply not_eq_sym; first [assumption | apply Hne; set_solver]);
      reflexivity.
Qed.

(** * Further properties of the code *)

(** ** The transition table on arbitrary strings *)

(** X1. The legality check accepts a pair of strings only when the old
    status is Pending, Paid or InProgress, the new one is Paid,
    InProgress, Completed or Canceled, and the two differ: a status
    outside the enumeration is neither a source nor a target, Completed
    and Canceled are never left and Pending is never entered. *)
Theorem X1_legal_transitions_stay_in_the_table (old new : string) :
  Order._is_valid_status_transition old new = true ->
  old ∈ source_statuses /\ new ∈ target_statuses /\ old <> new.
Proof.
  unfold Order._is_valid_status_transition, Order.valid_transitions, source_statuses,
    target_statuses. simpl.
  repeat case_bool_decide; subst; simpl; intros Hv; try discriminate Hv;
    repeat case_bool_decide; subst; try discriminate Hv;
    (split; [set_solver | split; [set_solver | discriminate]]).
Qed.

Lemma X1_legal_transitions_stay_in_the_table_witness :
  Order.Status.PAID ∈ source_statuses
  /\ Order.Status.IN_PROGRESS ∈ target_statuses
  /\ Order.Status.PAID <> Order.Status.IN_PROGRESS.
Proof.
  apply (X1_legal_transitions_stay_in_the_table Order.Status.PAID Order.Status.IN_PROGRESS).
  reflexivity.
Defined.

(** ** Every operation follows the transition table *)

Lemma guard_started (o : Order.t) :
  Order.can_be_started o = true -> Order.status o = Order.Status.PAID.
Proof.
  unfold Order.can_be_started. intros H. apply andb_prop in H as [H _].
  apply bool_decide_eq_true in H. exact H.
Qed.

Lemma guard_completed (o : Order.t) :
  Order.can_be_completed o = true -> Order.status o = Order.Status.IN_PROGRESS.
Proof.
  unfold Order.can_be_completed. intros H. apply andb_prop in H as [H _].
  apply bool_decide_eq_true in H. exact H.
Qed.

Lemma guard_canceled (o : Order.t) :
  Order.can_be_canceled o = true ->
  Order._is_valid_status_transition (Order.status o) Order.Status.CANCELED = true.
Proof.
  unfold Order.can_be_canceled, Order.contains. simpl. intros H.
  repeat (apply orb_prop in H as [H | H]); try discriminate H;
    apply bool_decide_eq_true in H; rewrite H; reflexivity.
Qed.

Lemma after_status (w : World) (o : Order.t) (k : Z) (o1 : Order.t)
    (frames : list (string * Message)) :
  Order.status (inst (after w o k o1 frames)) = Order.status o1.
Proof. unfold after. cbn [inst]. apply saved_status. Qed.

(** X2. Whatever operation of the order model or of the services is
    applied to a persisted order, with whatever arguments, the status
    afterwards is the status before or a status the transition table
    allows after it: no operation skips a stage or revives an order. *)
Theorem X2_operations_follow_the_table (op : Op) (c c' : Ctx Order.t) (r : Outcome unit) :
  persisted (world c) (inst c) ->
  exec op c = (c', r) ->
  Order.status (inst c') = Order.status (inst c)
  \/ Order._is_valid_status_transition (Order.status (inst c)) (Order.status (inst c')) = true.
Proof.
  intros (k & Hpk & Hk & Hrow) Hrun. destruct c as [w o]. cbn [world inst] in *.
  destruct op; simpl in Hrun; rewrite ?discard_run in Hrun.
  - (* save *)
    rewrite (save_changed w o o k Hpk Hk Hrow Hpk) in Hrun.
    inversion Hrun; subst. left. cbn [inst]. apply saved_status.
  - (* assign_worker *)
    rewrite (model_assign_worker_run w o k Hpk Hk Hrow) in Hrun.
    destruct (Order.can_be_assigned o); simpl in Hrun;
      [| inversion Hrun; subst; left; reflexivity].
    destruct (bool_decide (User.role worker = User.Role.WORKER)); simpl in Hrun;
      inversion Hrun; subst; left; [rewrite after_status |]; reflexivity.
  - (* start_work *)
    rewrite (start_work_run w o k Hpk Hk Hrow) in Hrun.
    destruct (Order.can_be_started o) eqn:Hg; simpl in Hrun;
      inversion Hrun; subst; [right | left; reflexivity].
    rewrite after_status, (guard_started o Hg). reflexivity.
  - (* complete_order *)
    rewrite (complete_run w o k Hpk Hk Hrow) in Hrun.
    destruct (Order.can_be_completed o) eqn:Hg; simpl in Hrun;
      inversion Hrun; subst; [right | left; reflexivity].
    rewrite after_status, (guard_completed o Hg). reflexivity.
  - (* cancel_order *)
    rewrite (cancel_run w o k Hpk Hk Hrow) in Hrun.
    destruct (Order.can_be_canceled o) eqn:Hg; simpl in Hrun;
      inversion Hrun; subst; [right | left; reflexivity].
    rewrite after_status. apply guard_canceled. exact Hg.
  - (* update_order_status *)
    destruct (exec_shape w o k Hpk Hk Hrow (op_update_order_status new_status user kwargs)
                c' r (eq_trans (discard_run _ _) Hrun))
      as [-> | (o1 & frames & Hm & _ & _ & ->)]; [left; reflexivity |].
    inversion Hm; subst. right. rewrite after_status. simpl. assumption.
  - (* assign_worker_to_order *)
    rewrite assign_worker_to_order_run in Hrun. simpl in Hrun.
    destruct (OrderService._can_user_manage_order user o); simpl in Hrun;
      [| inversion Hrun; subst; left; reflexivity].
    destruct (User.is_worker worker); simpl in Hrun;
      [| inversion Hrun; subst; left; reflexivity].
    rewrite (model_assign_worker_run w o k Hpk Hk Hrow) in Hrun.
    destruct (Order.can_be_assigned o); simpl in Hrun;
      [| inversion Hrun; subst; left; reflexivity].
    destruct (bool_decide (User.role worker = User.Role.WORKER)); simpl in Hrun;
      inversion Hrun; subst; left; [rewrite after_status |]; reflexivity.
  - (* start_order_work *)
    rewrite start_order_work_run in Hrun. simpl in Hrun.
    destruct (OrderService._can_user_manage_order user o); simpl in Hrun;
      [| inversion Hrun; subst; left; reflexivity].
    destruct (OrderService.worker_is user o); simpl in Hrun;
      [| inversion Hrun; subst; left; reflexivity].
    rewrite (start_work_run w o k Hpk Hk Hrow) in Hrun.
    destruct (Order.can_be_started o) eqn:Hg; simpl in Hrun;
      inversion Hrun; subst; [right | left; reflexivity].
    rewrite after_status, (guard_started o Hg). reflexivity.
  - (* complete_order *)
    rewrite service_complete_order_run in Hrun. simpl in Hrun.
    destruct (OrderService._can_user_manage_order user o); simpl in Hrun;
      [| inversion Hrun; subst; left; reflexivity].
    destruct (OrderService.worker_is user o); simpl in Hrun;
      [| inversion Hrun; subst; left; reflexivity].
    rewrite (complete_run w o k Hpk Hk Hrow) in Hrun.
    destruct (Order.can_be_completed o) eqn:Hg; simpl in Hrun;
      inversion Hrun; subst; [right | left; reflexivity].
    rewrite after_status, (guard_completed o Hg). reflexivity.
  - (* cancel_order *)
    rewrite service_cancel_order_run in Hrun. simpl in Hrun.
    destruct (OrderService._can_user_cancel_order user o); simpl in Hrun;
      [| inversion Hrun; subst; left; reflexivity].
    rewrite (cancel_run w o k Hpk Hk Hrow) in Hrun.
    destruct (Order.can_be_canceled o) eqn:Hg; simpl in Hrun;
      inversion Hrun; subst; [right | left; reflexivity].
    rewrite after_status. apply guard_canceled. exact Hg.
  - (* process_payment *)
    destruct (exec_shape w o k Hpk Hk Hrow (op_process_payment success)
                c' r (eq_trans (discard_run _ _) Hrun))
      as [-> | (o1 & frames & Hm & _ & _ & ->)]; [left; reflexivity |].
    right. rewrite after_status.
    inversion Hm as [ | | | | | | | | | | Hs | Hs | ]; subst; simpl; rewrite Hs; reflexivity.
  - (* refund_payment *)
    destruct (User.is_admin user || OrderService.client_is user o) eqn:Hperm.
    + destruct (Order.is_paid o) eqn:Hpaid.
      * destruct (refund_payment_run w o k Hpk Hk Hrow user reason Hperm Hpaid)
          as [frames Hrun'].
        rewrite Hrun' in Hrun. inversion Hrun; subst. right.
        rewrite after_status. simpl.
        apply bool_decide_eq_true in Hpaid. rewrite Hpaid. reflexivity.
      * unfold PaymentService.refund_payment in Hrun. unfold_monad. simpl in Hrun.
        rewrite Hpaid in Hrun. simpl in Hrun.
        destruct (negb (User.is_admin user) && negb (OrderService.client_is user o));
          simpl in Hrun; inversion Hrun; subst; left; reflexivity.
    + unfold PaymentService.refund_payment in Hrun. unfold_monad. simpl in Hrun.
      apply orb_false_elim in Hperm as [Ha Hc]. rewrite Ha, Hc in Hrun. simpl in Hrun.
      inversion Hrun; subst; left; reflexivity.
Qed.

(** wanda starts work on the paid order assigned to her. *)
Lemma X2_operations_follow_the_table_witness :
  let o := order_of Order.Status.PAID (Some 2) (Some 5) in
  let c' := (exec (op_start_order_work wanda) (mkCtx (world_of o) o)).1 in
  Order.status (inst c') = Order.Status.PAID
  \/ Order._is_valid_status_transition Order.Status.PAID (Order.status (inst c')) = true.
Proof.
  intros o c'.
  apply (X2_operations_follow_the_table (op_start_order_work wanda)
           (mkCtx (world_of o) o) c'
           (exec (op_start_order_work wanda) (mkCtx (world_of o) o)).2).
  - exists 1. repeat split; reflexivity.
  - apply surjective_pairing.
Defined.

(** ** Completed and canceled orders are final *)

Lemma terminal_no_exit (status new : string) :
  terminal status -> Order._is_valid_status_transition status new = false.
Proof. intros [-> | ->]; reflexivity. Qed.

Lemma terminal_guards (o : Order.t) :
  terminal (Order.status o) ->
  Order.can_be_paid o = false /\ Order.can_be_assigned o = false
  /\ Order.can_be_started o = false /\ Order.can_be_completed o = false
  /\ Order.can_be_canceled o = false /\ Order.is_paid o = false.
Proof.
  unfold Order.can_be_paid, Order.can_be_assigned, Order.can_be_started,
    Order.can_be_completed, Order.can_be_canceled, Order.is_paid.
  intros [-> | ->]; repeat split; reflexivity.
Qed.

(** X3. A Completed or Canceled order is final: every operation of the
    order model and of the services other than a bare save leaves the
    instance and the whole world exactly as they were (it returns false
    or raises), whoever calls it and whether or not the instance is
    stored. *)
Theorem X3_terminal_orders_are_final (op : Op) (c : Ctx Order.t) :
  terminal (Order.status (inst c)) ->
  op <> op_save ->
  (exec op c).1 = c.
Proof.
  intros Hterm Hop.
  destruct (terminal_guards (inst c) Hterm) as (Hpaid & Hassign & Hstart & Hdone & Hcancel & Hisp).
  destruct op; simpl; rewrite ?discard_run; try congruence.
  - unfold OrderOps.assign_worker. unfold_monad. rewrite Hassign. reflexivity.
  - unfold OrderOps.start_work. unfold_monad. rewrite Hstart. reflexivity.
  - unfold OrderOps.complete_order. unfold_monad. rewrite Hdone. reflexivity.
  - unfold OrderOps.cancel_order. unfold_monad. rewrite Hcancel. reflexivity.
  - unfold OrderService.update_order_status. unfold_monad.
    destruct (OrderService._can_user_update_order user (inst c)); simpl; [| reflexivity].
    destruct new_status as [new_status |]; [| reflexivity].
    rewrite (terminal_no_exit _ new_status Hterm). reflexivity.
  - rewrite assign_worker_to_order_run.
    destruct (OrderService._can_user_manage_order user (inst c)); simpl; [| reflexivity].
    destruct (User.is_worker worker); simpl; [| reflexivity].
    unfold OrderOps.assign_worker. unfold_monad. rewrite Hassign. reflexivity.
  - rewrite start_order_work_run.
    destruct (OrderService._can_user_manage_order user (inst c)); simpl; [| reflexivity].
    destruct (OrderService.worker_is user (inst c)); simpl; [| reflexivity].
    unfold OrderOps.start_work. unfold_monad. rewrite Hstart. reflexivity.
  - rewrite service_complete_order_run.
    destruct (OrderService._can_user_manage_order user (inst c)); simpl; [| reflexivity].
    destruct (OrderService.worker_is user (inst c)); simpl; [| reflexivity].
    unfold OrderOps.complete_order. unfold_monad. rewrite Hdone. reflexivity.
  - rewrite service_cancel_order_run.
    destruct (OrderService._can_user_cancel_order user (inst c)); simpl; [| reflexivity].
    unfold OrderOps.cancel_order. unfold_monad. rewrite Hcancel. reflexivity.
  - unfold PaymentService.process_payment. unfold_monad. rewrite Hpaid. reflexivity.
  - unfold PaymentService.refund_payment. unfold_monad. rewrite Hisp.
    destruct (negb (User.is_admin user) && negb (OrderService.client_is user (inst c)));
      reflexivity.
Qed.

(** An admin tries to cancel a completed order. *)
Lemma X3_terminal_orders_are_final_witness :
  let o := order_of Order.Status.COMPLETED (Some 2) (Some 5) in
  (exec (op_cancel_order root "late") (mkCtx (world_of o) o)).1 = mkCtx (world_of o) o.
Proof.
  intros o.
  apply (X3_terminal_orders_are_final (op_cancel_order root "late") (mkCtx (world_of o) o)).
  - left. reflexivity.
  - discriminate.
Defined.

(** ** The boolean service functions notify nobody *)

Lemma save_keeps_outbox (c : Ctx Order.t) :
  outbox (world (OrderOps.save c).1) = outbox (world c).
Proof.
  unfold OrderOps.save, OrderOps.objects_get, OrderOps.Model_save. unfold_monad.
  destruct c as [w o]. simpl.
  repeat (case_match; simpl; simplify_eq); reflexivity.
Qed.

Lemma model_methods_keep_outbox (c : Ctx Order.t) (worker : User.t) :
  outbox (world (OrderOps.assign_worker worker c).1) = outbox (world c)
  /\ outbox (world (OrderOps.start_work c).1) = outbox (world c)
  /\ outbox (world (OrderOps.complete_order c).1) = outbox (world c)
  /\ outbox (world (OrderOps.cancel_order c).1) = outbox (world c).
Proof.
  assert (Hstep : forall (f : Order.t -> Order.t) (b : bool),
             outbox (world ((assign f ;; OrderOps.save ;; ret b) c).1) = outbox (world c)).
  { intros f b. unfold bind at 1. unfold assign at 1.
    pose proof (save_keeps_outbox (mkCtx (world c) (f (inst c)))) as Hsave.
    unfold bind. destruct (OrderOps.save _) as [c' [[] | e]]; exact Hsave. }
  unfold OrderOps.assign_worker, OrderOps.start_work, OrderOps.complete_order,
    OrderOps.cancel_order.
  repeat split; unfold bind at 1; unfold self at 1;
    repeat (match goal with |- context [if ?b then _ else _] => destruct b end;
            try reflexivity);
    apply Hstep.
Qed.

(** X4. Assigning a worker, starting work, completing and canceling
    through the service never write a frame to any socket, whether they
    succeed, return false or raise: they report the change to the
    notifier with the order's new status as the old one, and the
    notifier is silent when the two are equal. *)
Theorem X4_boolean_operations_notify_nobody (c : Ctx Order.t) (worker user : User.t)
    (reason : string) :
  outbox (world (OrderService.assign_worker_to_order worker user c).1) = outbox (world c)
  /\ outbox (world (OrderService.start_order_work user c).1) = outbox (world c)
  /\ outbox (world (OrderService.complete_order user c).1) = outbox (world c)
  /\ outbox (world (OrderService.cancel_order user reason c).1) = outbox (world c).
Proof.
  destruct (model_methods_keep_outbox c worker) as (Ha & Hs & Hc & Hx).
  rewrite assign_worker_to_order_run, start_order_work_run, service_complete_order_run,
    service_cancel_order_run.
  repeat split;
    repeat (match goal with |- context [if ?b then _ else _] => destruct b end;
            try reflexivity);
    assumption.
Qed.

(** ** Who receives an order event *)

Lemma notify_users_run (user_ids : list Z) (message : Message) (w : World) :
  WebSocketNotifier.notify_users user_ids message w
  = (set_outbox
       (outbox w
        ++ concat ((fun user_id => deliveries (user_group user_id) message w) <$> user_ids))
       w,
     Return tt).
Proof.
  unfold WebSocketNotifier.notify_users. revert w.
  induction user_ids as [| user_id user_ids IH]; intros w; simpl.
  - rewrite set_outbox_id. reflexivity.
  - unfold bind. unfold WebSocketNotifier.notify_user at 1.
    unfold channel_layer.group_send at 1. rewrite IH.
    change (elements (channel_layer.members ("user_" +:+ pretty user_id) w))
      with (elements (channel_layer.members (user_group user_id) w)).
    fold (deliveries (user_group user_id) message w).
    rewrite <- (set_outbox_twice w (deliveries (user_group user_id) message w)).
    reflexivity.
Qed.

Lemma notify_workers_by_gender_run (gender : option string) (message : Message) (w : World) :
  WebSocketNotifier.notify_workers_by_gender gender message w
  = (set_outbox (outbox w ++ worker_deliveries gender message w) w, Return tt).
Proof.
  unfold WebSocketNotifier.notify_workers_by_gender, worker_deliveries, bind, get.
  destruct (WebSocketNotifier.worker_ids_by_gender gender w) as [| user_id user_ids] eqn:Hids.
  - simpl. rewrite set_outbox_id. reflexivity.
  - apply notify_users_run.
Qed.

Lemma client_then_workers (w : World) (client_id : Z) (gender : option string)
    (m1 m2 : Message) :
  (WebSocketNotifier.notify_user client_id m1 ;;
   WebSocketNotifier.notify_workers_by_gender gender m2) w
  = (set_outbox
       (outbox w ++ deliveries (user_group client_id) m1 w ++ worker_deliveries gender m2 w)
       w,
     Return tt).
Proof.
  unfold bind. unfold WebSocketNotifier.notify_user, channel_layer.group_send.
  rewrite notify_workers_by_gender_run.
  fold (user_group client_id). fold (deliveries (user_group client_id) m1 w).
  rewrite <- (set_outbox_twice w (deliveries (user_group client_id) m1 w)).
  reflexivity.
Qed.

Lemma notify_order_created_run (order : Order.t) (w : World) :
  WebSocketNotifier.notify_order_created order w
  = (set_outbox
       (outbox w
        ++ deliveries (user_group (User.id (Order.client order)))
             (order_message "order_created" order
                [("status", JStr (Order.status order))] (clock w)) w
        ++ worker_deliveries (User.gender (Order.client order))
             (order_message "new_order" order
                [("client", JStr (User.username (Order.client order)))] (clock w)) w)
       w,
     Return tt).
Proof.
  rewrite <- client_then_workers. reflexivity.
Qed.

Lemma notify_order_updated_run (order : Order.t) (old_status : string) (w : World) :
  WebSocketNotifier.notify_order_updated order old_status w
  = if bool_decide (Order.status order = old_status) then (w, Return tt)
    else
      (set_outbox
         (outbox w
          ++ deliveries (user_group (User.id (Order.client order)))
               (order_message "order_updated" order
                  [("status", JStr (Order.status order)); ("old_status", JStr old_status)]
                  (clock w)) w
          ++ (if bool_decide (Order.status order = Order.Status.IN_PROGRESS
                              \/ Order.status order = Order.Status.COMPLETED)
              then worker_deliveries (User.gender (Order.client order))
                     (order_message "order_updated" order
                        [("status", JStr (Order.status order))] (clock w)) w
              else []))
         w,
       Return tt).
Proof.
  unfold WebSocketNotifier.notify_order_updated.
  case_bool_decide as Hsame; [reflexivity |]. cbn [negb].
  destruct (Order.contains (Order.status order)
              [Order.Status.IN_PROGRESS; Order.Status.COMPLETED]) eqn:Hin.
  - rewrite bool_decide_eq_true_2.
    + rewrite <- client_then_workers. reflexivity.
    + unfold Order.contains in Hin. simpl in Hin.
      repeat case_bool_decide; auto; discriminate.
  - rewrite bool_decide_eq_false_2.
    + rewrite app_nil_r. reflexivity.
    + unfold Order.contains in Hin. simpl in Hin.
      repeat case_bool_decide; try discriminate. tauto.
Qed.

Lemma notify_payment_processed_run (order : Order.t) (success : bool) (w : World) :
  let event := if success then "payment_success" else "payment_failed" in
  let message :=
    order_message event order [("status", JStr (Order.status order))] (clock w) in
  WebSocketNotifier.notify_payment_processed order success w
  = (set_outbox
       (outbox w
        ++ deliveries (user_group (User.id (Order.client order))) message w
        ++ worker_deliveries (User.gender (Order.client order)) message w)
       w,
     Return tt).
Proof.
  intros event message. rewrite <- client_then_workers.
  destruct success; reflexivity.
Qed.

Lemma deliveries_live (group : string) (message : Message) (w : World)
    (frame : string * Message) :
  frame ∈ deliveries group message w ->
  frame.1 ∈ channel_layer.members group w /\ frame.2 = message.
Proof.
  unfold deliveries. intros Hin. apply list_elem_of_fmap in Hin as (channel & -> & Hin).
  split; [| reflexivity]. simpl. apply elem_of_elements. exact Hin.
Qed.

Lemma worker_ids_by_gender_spec (gender : option string) (w : World) (user_id : Z) :
  user_id ∈ WebSocketNotifier.worker_ids_by_gender gender w
  <-> exists k u, users w !! k = Some u /\ User.id u = user_id
                  /\ User.role u = User.Role.WORKER /\ User.gender u = gender.
Proof.
  unfold WebSocketNotifier.worker_ids_by_gender. split.
  - intros Hin. apply list_elem_of_fmap in Hin as (u & -> & Hin).
    apply list_elem_of_filter in Hin as [[Hrole Hgender] Hin].
    apply list_elem_of_fmap in Hin as ([k u'] & -> & Hin).
    apply elem_of_map_to_list in Hin. exists k, u'. auto.
  - intros (k & u & Hu & <- & Hrole & Hgender).
    apply list_elem_of_fmap. exists u. split; [reflexivity |].
    apply list_elem_of_filter. split; [auto |].
    apply list_elem_of_fmap. exists (k, u). split; [reflexivity |].
    apply elem_of_map_to_list. exact Hu.
Qed.

Lemma worker_deliveries_live (gender : option string) (message : Message) (w : World)
    (frame : string * Message) :
  frame ∈ worker_deliveries gender message w ->
  exists user_id, user_id ∈ WebSocketNotifier.worker_ids_by_gender gender w
                  /\ frame.1 ∈ channel_layer.members (user_group user_id) w
                  /\ frame.2 = message.
Proof.
  unfold worker_deliveries. intros Hin.
  apply list_elem_of_In, in_concat in Hin as (frames & Hframes & Hin).
  apply list_elem_of_In, list_elem_of_fmap in Hframes as (user_id & -> & Hid).
  apply list_elem_of_In, deliveries_live in Hin. exists user_id. tauto.
Qed.

(** X5. When an order is created the notifier writes, in this order: an
    [order_created] envelope carrying the order id and status to every
    live channel of the client's personal group, then a [new_order]
    envelope carrying the order id and the client's username to every
    live channel of the personal group of every worker whose gender is
    the client's. Nothing else in the world changes. *)
Theorem X5_order_created_fanout (order : Order.t) (w : World) :
  let client := Order.client order in
  WebSocketNotifier.notify_order_created order w
  = (set_outbox
       (outbox w
        ++ deliveries (user_group (User.id client))
             (order_message "order_created" order
                [("status", JStr (Order.status order))] (clock w)) w
        ++ worker_deliveries (User.gender client)
             (order_message "new_order" order
                [("client", JStr (User.username client))] (clock w)) w)
       w,
     Return tt).
Proof.
  intros client. apply notify_order_created_run.
Qed.

(** X6. An order update whose status equals the old status is silent.
    Otherwise the client's live channels receive an [order_updated]
    envelope carrying the new and the old status, and the workers of
    the client's gender receive an [order_updated] envelope (new status
    only) exactly when the new status is in_progress or completed:
    workers hear nothing of an order becoming paid or canceled. *)
Theorem X6_order_updated_fanout (order : Order.t) (old_status : string) (w : World) :
  let client := Order.client order in
  WebSocketNotifier.notify_order_updated order old_status w
  = if bool_decide (Order.status order = old_status) then (w, Return tt)
    else
      (set_outbox
         (outbox w
          ++ deliveries (user_group (User.id client))
               (order_message "order_updated" order
                  [("status", JStr (Order.status order)); ("old_status", JStr old_status)]
                  (clock w)) w
          ++ (if bool_decide (Order.status order = Order.Status.IN_PROGRESS
                              \/ Order.status order = Order.Status.COMPLETED)
              then worker_deliveries (User.gender client)
                     (order_message "order_updated" order
                        [("status", JStr (Order.status order))] (clock w)) w
              else []))
         w,
       Return tt).
Proof.
  intros client. apply notify_order_updated_run.
Qed.

(** X7. A processed payment is announced with one and the same envelope
    ([payment_success] or [payment_failed], with the order id and
    status) to the client's live channels and then to the live channels
    of every worker of the client's gender. *)
Theorem X7_payment_processed_fanout (order : Order.t) (success : bool) (w : World) :
  let event := if success then "payment_success" else "payment_failed" in
  let message :=
    order_message event order [("status", JStr (Order.status order))] (clock w) in
  WebSocketNotifier.notify_payment_processed order success w
  = (set_outbox
       (outbox w
        ++ deliveries (user_group (User.id (Order.client order))) message w
        ++ worker_deliveries (User.gender (Order.client order)) message w)
       w,
     Return tt).
Proof.
  apply notify_payment_processed_run.
Qed.

(** X8. Whatever the event, every frame the notifier writes goes to a
    channel that is a live member of the personal group of an addressee
    of the order: its client, or a stored worker whose gender is the
    client's. No other user's group is written to, and every frame is
    stamped with the current clock and carries the id of the order. *)
Theorem X8_events_reach_addressees_only (ev : Event) (w : World) :
  exists frames,
    (dispatch ev w).1 = set_outbox (outbox w ++ frames) w
    /\ Forall
         (fun frame =>
            (exists user_id,
                addressee (event_order ev) w user_id
                /\ frame.1 ∈ channel_layer.members (user_group user_id) w)
            /\ msg_timestamp frame.2 = clock w
            /\ dict_get "order_id" (msg_payload frame.2)
               = json_of_id (Order.pk (event_order ev)))
         frames.
Proof.
  assert (Hclient : forall order event fields frame,
    frame ∈ deliveries (user_group (User.id (Order.client order)))
              (order_message event order fields (clock w)) w ->
    (exists user_id,
        addressee order w user_id
        /\ frame.1 ∈ channel_layer.members (user_group user_id) w)
    /\ msg_timestamp frame.2 = clock w
    /\ dict_get "order_id" (msg_payload frame.2) = json_of_id (Order.pk order)).
  { intros order event fields frame Hin. apply deliveries_live in Hin as [Hlive ->].
    split; [| split; reflexivity].
    exists (User.id (Order.client order)). split; [left; reflexivity | exact Hlive]. }
  assert (Hworkers : forall order event fields frame,
    frame ∈ worker_deliveries (User.gender (Order.client order))
              (order_message event order fields (clock w)) w ->
    (exists user_id,
        addressee order w user_id
        /\ frame.1 ∈ channel_layer.members (user_group user_id) w)
    /\ msg_timestamp frame.2 = clock w
    /\ dict_get "order_id" (msg_payload frame.2) = json_of_id (Order.pk order)).
  { intros order event fields frame Hin.
    apply worker_deliveries_live in Hin as (user_id & Hid & Hlive & ->).
    split; [| split; reflexivity].
    exists user_id. split; [| exact Hlive].
    right. apply worker_ids_by_gender_spec. exact Hid. }
  destruct ev as [order | order old_status | order success]; simpl.
  - rewrite notify_order_created_run. eexists. split; [reflexivity |].
    apply Forall_forall. intros frame Hin.
    apply elem_of_app in Hin as [Hin | Hin]; eauto.
  - rewrite notify_order_updated_run. case_bool_decide.
    + exists []. split; [rewrite set_outbox_id; reflexivity | constructor].
    + eexists. split; [reflexivity |].
      apply Forall_forall. intros frame Hin.
      apply elem_of_app in Hin as [Hin | Hin]; [eauto |].
      case_bool_decide; [eauto | inversion Hin].
  - rewrite notify_payment_processed_run. eexists. split; [reflexivity |].
    apply Forall_forall. intros frame Hin.
    apply elem_of_app in Hin as [Hin | Hin]; eauto.
Qed.

(** ** Every inbound message is answered once *)

Lemma quiet_step_refl (c : Ctx Consumer.t) : quiet_step c c.
Proof. repeat split. Qed.

Lemma quiet_step_trans (c1 c2 c3 : Ctx Consumer.t) :
  quiet_step c1 c2 -> quiet_step c2 c3 -> quiet_step c1 c3.
Proof.
  intros (Hi & Ho & Hr & Hu & Hc) (Hi' & Ho' & Hr' & Hu' & Hc').
  repeat split; congruence.
Qed.

Lemma quiet_then_reply (c1 c2 c3 : Ctx Consumer.t) :
  quiet_step c1 c2 -> one_reply c2 c3 -> one_reply c1 c3.
Proof.
  intros (Hi & Ho & Hr & Hu & Hc) (Hi' & [reply Ho'] & Hr' & Hu' & Hc').
  repeat split; try congruence.
  exists reply. rewrite Ho', Ho, Hi. reflexivity.
Qed.

Lemma quiet_ret {A : Type} (a : A) : quiet (ret a).
Proof. intros c. apply quiet_step_refl. Qed.

Lemma quiet_raise {A : Type} (e : Exception) : quiet (raise (A := A) e).
Proof. intros c. apply quiet_step_refl. Qed.

Lemma quiet_bind {A B : Type} (m : M (Ctx Consumer.t) A) (k : A -> M (Ctx Consumer.t) B) :
  quiet m -> (forall a, quiet (k a)) -> quiet (bind m k).
Proof.
  intros Hm Hk c. specialize (Hm c). unfold bind.
  destruct (m c) as [c1 [a | e]]; simpl in *; [| exact Hm].
  eapply quiet_step_trans; [exact Hm | apply Hk].
Qed.

Lemma quiet_try {A : Type} (m : M (Ctx Consumer.t) A) (h : Exception -> M (Ctx Consumer.t) A) :
  quiet m -> (forall e, quiet (h e)) -> quiet (try_except m h).
Proof.
  intros Hm Hh c. specialize (Hm c). unfold try_except.
  destruct (m c) as [c1 [a | e]]; simpl in *; [exact Hm |].
  eapply quiet_step_trans; [exact Hm | apply Hh].
Qed.

Lemma quiet_self : quiet (self (I := Consumer.t)).
Proof. intros c. apply quiet_step_refl. Qed.

Lemma quiet_get : quiet (get (S := Ctx Consumer.t)).
Proof. intros c. apply quiet_step_refl. Qed.

Lemma quiet_timestamp : quiet BaseWebSocketConsumer._get_current_timestamp.
Proof. intros c. apply quiet_step_refl. Qed.

Lemma quiet_json_get (key : string) (data : JSON) :
  quiet (BaseWebSocketConsumer.json_get key data).
Proof. intros c. destruct data; apply quiet_step_refl. Qed.

Lemma quiet_json_contains (field : string) (data : JSON) :
  quiet (BaseWebSocketConsumer.json_contains field data).
Proof. intros c. destruct data; apply quiet_step_refl. Qed.

Lemma quiet_names_user_group (group_name : JSON) :
  quiet (BaseWebSocketConsumer.names_user_group group_name).
Proof.
  intros c. unfold BaseWebSocketConsumer.names_user_group.
  destruct (truthy group_name); [destruct group_name |]; apply quiet_step_refl.
Qed.

Lemma quiet_group_add (group : string) : quiet (BaseWebSocketConsumer.group_add group).
Proof.
  intros c. unfold_consumer. simpl.
  destruct (Consumer.valid_group_name (inst c) group); repeat split.
Qed.

Lemma quiet_group_discard (group : string) :
  quiet (BaseWebSocketConsumer.group_discard group).
Proof.
  intros c. unfold_consumer. simpl.
  destruct (Consumer.valid_group_name (inst c) group); [| repeat split].
  destruct (groups (world c) !! group); [| repeat split].
  case_bool_decide; repeat split.
Qed.

Lemma quiet_mark_notification_read (notification_id : Z) :
  quiet (NotificationConsumer._mark_notification_read notification_id).
Proof.
  intros c. unfold NotificationConsumer._mark_notification_read.
  unfold NotificationOps.mark_as_read, NotificationOps.save_update_fields.
  unfold_monad. simpl.
  destruct (notifications (world c) !! notification_id) as [n |] eqn:Hn; simpl;
    [| repeat split].
  case_bool_decide; simpl; [| repeat split].
  destruct (Notification.id n) as [k |]; simpl; [| repeat split].
  destruct (notifications (world c) !! k); simpl; repeat split.
Qed.

Lemma replying_send (message : Message) : replying (BaseWebSocketConsumer.send message).
Proof. intros c. repeat split. simpl. eauto. Qed.

Lemma replying_stamped (k : Z -> Message) :
  replying (now <- BaseWebSocketConsumer._get_current_timestamp ;;
            BaseWebSocketConsumer.send (k now)).
Proof. intros c. repeat split. simpl. eauto. Qed.

Lemma replying_send_error_message (text : string) :
  replying (BaseWebSocketConsumer.send_error_message text).
Proof. apply replying_stamped. Qed.

Lemma attempt_replying (m : M (Ctx Consumer.t) unit) : replying m -> attempt m.
Proof. intros Hm c. destruct (Hm c) as [Hstep ->]. exact Hstep. Qed.

Lemma attempt_raise (e : Exception) : attempt (raise e).
Proof. intros c. apply quiet_step_refl. Qed.

Lemma attempt_bind {A : Type} (m : M (Ctx Consumer.t) A) (k : A -> M (Ctx Consumer.t) unit) :
  quiet m -> (forall a, attempt (k a)) -> attempt (bind m k).
Proof.
  intros Hm Hk c. specialize (Hm c). unfold bind.
  destruct (m c) as [c1 [a | e]]; simpl in *; [| exact Hm].
  specialize (Hk a c1). destruct (k a c1) as [c2 [[] | e]]; simpl in *.
  - eapply quiet_then_reply; eassumption.
  - eapply quiet_step_trans; eassumption.
Qed.

Lemma replying_try (m : M (Ctx Consumer.t) unit) (h : Exception -> M (Ctx Consumer.t) unit) :
  attempt m -> (forall e, replying (h e)) -> replying (try_except m h).
Proof.
  intros Hm Hh c. specialize (Hm c). unfold try_except.
  destruct (m c) as [c1 [[] | e]]; simpl in *; [split; [exact Hm | reflexivity] |].
  destruct (Hh e c1) as [Hstep Hret]. split; [| exact Hret].
  eapply quiet_then_reply; eassumption.
Qed.

Lemma replying_handle_ping (data : JSON) : replying (BaseWebSocketConsumer._handle_ping data).
Proof. apply replying_stamped. Qed.

Lemma replying_handle_subscribe (data : JSON) :
  replying (BaseWebSocketConsumer._handle_subscribe data).
Proof.
  apply replying_try; [| intros e; apply replying_send_error_message].
  apply attempt_bind; [apply quiet_json_get | intros group_name].
  apply attempt_bind; [apply quiet_names_user_group | intros [|]].
  - destruct group_name; try apply attempt_raise.
    apply attempt_bind; [apply quiet_group_add | intros _].
    apply attempt_replying, replying_stamped.
  - apply attempt_replying, replying_send_error_message.
Qed.

Lemma replying_handle_unsubscribe (data : JSON) :
  replying (BaseWebSocketConsumer._handle_unsubscribe data).
Proof.
  apply replying_try; [| intros e; apply replying_send_error_message].
  apply attempt_bind; [apply quiet_json_get | intros group_name].
  apply attempt_bind; [apply quiet_names_user_group | intros [|]].
  - destruct group_name; try apply attempt_raise.
    apply attempt_bind; [apply quiet_group_discard | intros _].
    apply attempt_replying, replying_stamped.
  - apply attempt_replying, replying_send_error_message.
Qed.

Lemma by_base_message_type {A : Type} (P : A -> Prop) (message_type : JSON) (a b c d : A) :
  P a -> P b -> P c -> P d ->
  P match message_type with
    | JStr "ping" => a
    | JStr "subscribe" => b
    | JStr "unsubscribe" => c
    | _ => d
    end.
Proof. intros Ha Hb Hc Hd. repeat case_match; assumption. Qed.

Lemma by_notification_message_type {A : Type} (P : A -> Prop) (message_type : JSON)
    (a b d : A) :
  P a -> P b -> P d ->
  P match message_type with
    | JStr "mark_read" => a
    | JStr "notification_preferences" => b
    | _ => d
    end.
Proof. intros Ha Hb Hd. repeat case_match; assumption. Qed.

Lemma attempt_handle_message (data : JSON) :
  attempt (BaseWebSocketConsumer._handle_message data).
Proof.
  apply attempt_bind; [apply quiet_json_get | intros message_type].
  apply (by_base_message_type attempt); apply attempt_replying.
  - apply replying_handle_ping.
  - apply replying_handle_subscribe.
  - apply replying_handle_unsubscribe.
  - apply replying_send_error_message.
Qed.

Lemma replying_handle_mark_read (int_of : JSON -> option Z) (data : JSON) :
  replying (NotificationConsumer._handle_mark_read int_of data).
Proof.
  apply replying_try; [| intros e; apply replying_send_error_message].
  apply attempt_bind; [apply quiet_json_get | intros notification_id].
  destruct (negb (truthy notification_id));
    [apply attempt_replying, replying_send_error_message |].
  apply attempt_bind.
  - destruct (int_of notification_id);
      [apply quiet_mark_notification_read | apply quiet_ret].
  - intros [|]; apply attempt_replying;
      [apply replying_stamped | apply replying_send_error_message].
Qed.

Lemma replying_handle_notification_preferences (data : JSON) :
  replying (NotificationConsumer._handle_notification_preferences data).
Proof.
  apply replying_try; [| intros e; apply replying_send_error_message].
  apply attempt_bind; [apply quiet_json_contains | intros found].
  apply attempt_bind;
    [destruct found; [apply quiet_json_get | apply quiet_ret] | intros preferences].
  apply attempt_replying, replying_stamped.
Qed.

Lemma attempt_notification_handle_message (int_of : JSON -> option Z) (data : JSON) :
  attempt (NotificationConsumer._handle_message int_of data).
Proof.
  apply attempt_bind; [apply quiet_json_get | intros message_type].
  apply (by_notification_message_type attempt).
  - apply attempt_replying, replying_handle_mark_read.
  - apply attempt_replying, replying_handle_notification_preferences.
  - apply attempt_handle_message.
Qed.

Lemma replying_receive_with (handle_message : JSON -> M (Ctx Consumer.t) unit)
    (text_data : option JSON) :
  (forall data, attempt (handle_message data)) ->
  replying (BaseWebSocketConsumer.receive_with handle_message text_data).
Proof.
  intros Hhandle.
  apply replying_try; [| intros e; apply replying_send_error_message].
  apply attempt_bind; [apply quiet_self | intros this].
  destruct (negb (Consumer.authenticated this));
    [apply attempt_replying, replying_send_error_message |].
  destruct text_data as [data |];
    [| apply attempt_replying, replying_send_error_message].
  apply attempt_bind; [apply quiet_json_contains | intros valid].
  destruct (negb valid); [apply attempt_replying, replying_send_error_message |].
  apply Hhandle.
Qed.

(** X10. Whatever arrives on a socket (undecodable text, any JSON
    value, any message type, from an authenticated connection or not),
    [receive] of the base consumer and of the notification consumer
    returns without an exception and writes exactly one frame, to the
    connection's own channel; the consumer's attributes, the orders,
    the users and the clock are unchanged. *)
Theorem X10_every_message_is_answered_once (int_of : JSON -> option Z)
    (text_data : option JSON) (c : Ctx Consumer.t) :
  (one_reply c (BaseWebSocketConsumer.receive text_data c).1
   /\ (BaseWebSocketConsumer.receive text_data c).2 = Return tt)
  /\ (one_reply c (NotificationConsumer.receive int_of text_data c).1
      /\ (NotificationConsumer.receive int_of text_data c).2 = Return tt).
Proof.
  split.
  - apply replying_receive_with. exact attempt_handle_message.
  - apply replying_receive_with. exact (attempt_notification_handle_message int_of).
Qed.

(** ** Handshake, subscriptions and disconnection *)

(** X9. A handshake without an authenticated user is refused by every
    consumer: the only effect of [connect] is a close frame with code
    4001 on the connection's own channel (no group is joined, the
    connection stays unauthenticated), and whatever the connection
    sends afterwards is answered "Not authenticated" without being
    looked at. *)
Theorem X9_unauthenticated_connection_is_refused (c : Ctx Consumer.t)
    (handle_message : JSON -> M (Ctx Consumer.t) unit) (text_data : option JSON) :
  Consumer.authenticated (inst c) = false ->
  let refused :=
    having_sent (close_frame 4001 c) (mkCtx (world c) (Consumer.set_user None (inst c))) in
  BaseWebSocketConsumer.connect None c = (refused, Return tt)
  /\ OrderConsumer.connect None c = (refused, Return tt)
  /\ NotificationConsumer.connect None c = (refused, Return tt)
  /\ BaseWebSocketConsumer.receive_with handle_message text_data refused
     = (having_sent
          (Consumer.channel_name (inst c),
           mkMessage "error"
             [("error", JStr "Not authenticated"); ("timestamp", JInt (clock (world c)))]
             (clock (world c)))
          refused,
        Return tt).
Proof.
  intros Hauth refused.
  assert (Hbase : BaseWebSocketConsumer.connect None c = (refused, Return tt)) by reflexivity.
  assert (Hstill : Consumer.authenticated (inst refused) = false) by exact Hauth.
  repeat split.
  - unfold OrderConsumer.connect. unfold bind at 1. rewrite Hbase.
    unfold bind, self. rewrite Hstill. reflexivity.
  - unfold NotificationConsumer.connect. unfold bind at 1. rewrite Hbase.
    unfold bind, self. rewrite Hstill. reflexivity.
  - unfold BaseWebSocketConsumer.receive_with, try_except, bind, self.
    rewrite Hstill. reflexivity.
Qed.

Lemma X9_unauthenticated_connection_is_refused_witness :
  let c := mkCtx (world_of (order_of Order.Status.PENDING None None))
                 (Consumer.init "chan-1" (fun _ => true)) in
  Consumer.authenticated (inst c) = false
  /\ OrderConsumer.connect None c
     = (having_sent (close_frame 4001 c)
          (mkCtx (world c) (Consumer.set_user None (inst c))),
        Return tt).
Proof.
  split; [reflexivity |].
  apply (X9_unauthenticated_connection_is_refused
           (mkCtx (world_of (order_of Order.Status.PENDING None None))
                  (Consumer.init "chan-1" (fun _ => true)))
           BaseWebSocketConsumer._handle_message None).
  reflexivity.
Defined.

Lemma members_group_add (valid : string -> bool) (group channel : string) (w : World)
    (g : string) :
  valid group = true ->
  channel_layer.members g (channel_layer.group_add valid group channel w).1
  = if decide (g = group) then {[channel]} ∪ channel_layer.members group w
    else channel_layer.members g w.
Proof.
  intros Hvalid. unfold channel_layer.group_add. rewrite Hvalid.
  unfold channel_layer.members at 1. simpl.
  destruct (decide (g = group)) as [-> | Hne].
  - rewrite lookup_insert_eq. reflexivity.
  - rewrite lookup_insert_ne by congruence. reflexivity.
Qed.

Lemma members_group_discard (valid : string -> bool) (group channel : string) (w : World)
    (g : string) :
  channel_layer.members g (channel_layer.group_discard valid group channel w).1
  = if decide (g = group)
    then (if valid group then channel_layer.members group w ∖ {[channel]}
          else channel_layer.members group w)
    else channel_layer.members g w.
Proof.
  unfold channel_layer.group_discard.
  destruct (valid group); [| destruct (decide (g = group)) as [-> |]; reflexivity].
  unfold channel_layer.members.
  destruct (groups w !! group) as [chans |] eqn:Hgroup.
  - case_bool_decide as Hrest; simpl.
    + destruct (decide (g = group)) as [-> | Hne].
      * rewrite lookup_delete_eq. simpl. rewrite Hrest. reflexivity.
      * rewrite lookup_delete_ne by congruence. reflexivity.
    + destruct (decide (g = group)) as [-> | Hne].
      * rewrite lookup_insert_eq. reflexivity.
      * rewrite lookup_insert_ne by congruence. reflexivity.
  - simpl. destruct (decide (g = group)) as [-> | Hne]; [| reflexivity].
    rewrite ?Hgroup. simpl. apply set_eq. intros x. rewrite elem_of_difference.
    split; [intros Hx; exfalso; exact (not_elem_of_empty x Hx) | tauto].
Qed.

Lemma group_discard_keeps_outbox (valid : string -> bool) (group channel : string)
    (w : World) :
  outbox (channel_layer.group_discard valid group channel w).1 = outbox w.
Proof.
  unfold channel_layer.group_discard.
  destruct (valid group); [| reflexivity].
  destruct (groups w !! group); [| reflexivity].
  case_bool_decide; reflexivity.
Qed.

Lemma handle_subscribe_accepted (c : Ctx Consumer.t) (d : list (string * JSON))
    (name : string) :
  dict_get "group_name" d = JStr name ->
  String.prefix "user_" name = true ->
  Consumer.valid_group_name (inst c) name = true ->
  BaseWebSocketConsumer._handle_subscribe (JDict d) c
  = (having_sent
       (Consumer.channel_name (inst c),
        mkMessage "subscribed"
          [("group_name", JStr name); ("message", JStr "Successfully subscribed to group")]
          (clock (world c)))
       (mkCtx (channel_layer.group_add (Consumer.valid_group_name (inst c)) name
                 (Consumer.channel_name (inst c)) (world c)).1
              (inst c)),
     Return tt).
Proof.
  intros Hg Hpre Hv.
  assert (Hs : name <> "") by (eapply prefix_nonempty; [| exact Hpre]; discriminate).
  unfold having_sent. unfold_consumer. rewrite Hg. simpl.
  rewrite (bool_decide_eq_false_2 _ Hs). simpl. rewrite Hpre. simpl.
  rewrite Hv. reflexivity.
Qed.

Lemma handle_unsubscribe_accepted (c : Ctx Consumer.t) (d : list (string * JSON))
    (name : string) :
  dict_get "group_name" d = JStr name ->
  String.prefix "user_" name = true ->
  Consumer.valid_group_name (inst c) name = true ->
  BaseWebSocketConsumer._handle_unsubscribe (JDict d) c
  = (having_sent
       (Consumer.channel_name (inst c),
        mkMessage "unsubscribed"
          [("group_name", JStr name);
           ("message", JStr "Successfully unsubscribed from group")]
          (clock (world c)))
       (mkCtx (channel_layer.group_discard (Consumer.valid_group_name (inst c)) name
                 (Consumer.channel_name (inst c)) (world c)).1
              (inst c)),
     Return tt).
Proof.
  intros Hg Hpre Hv.
  assert (Hs : name <> "") by (eapply prefix_nonempty; [| exact Hpre]; discriminate).
  unfold having_sent. unfold_consumer. rewrite Hg. simpl.
  rewrite (bool_decide_eq_false_2 _ Hs). simpl. rewrite Hpre. simpl.
  rewrite Hv.
  destruct (groups (world c) !! name) as [chans |]; simpl; [| reflexivity].
  case_bool_decide; reflexivity.
Qed.

(** X11. An authenticated connection that subscribes to a group
    [user_...] becomes a member of that group and of no other; when it
    then unsubscribes it is no longer a member, also if it had been one
    before the subscription (as it is of its own personal group after
    the handshake): from then on it receives nothing sent to that
    group. Every other group keeps its members throughout, and the two
    replies are one "subscribed" and one "unsubscribed" frame. *)
Theorem X11_subscribe_then_unsubscribe (c : Ctx Consumer.t) (name : string)
    (d1 d2 : list (string * JSON)) :
  Consumer.authenticated (inst c) = true ->
  String.prefix "user_" name = true ->
  Consumer.valid_group_name (inst c) name = true ->
  names_group "subscribe" name d1 ->
  names_group "unsubscribe" name d2 ->
  let channel := Consumer.channel_name (inst c) in
  let c1 := (BaseWebSocketConsumer.receive (Some (JDict d1)) c).1 in
  let c2 := (BaseWebSocketConsumer.receive (Some (JDict d2)) c1).1 in
  (forall g, channel_layer.members g (world c1)
             = if decide (g = name) then {[channel]} ∪ channel_layer.members name (world c)
               else channel_layer.members g (world c))
  /\ (forall g, channel_layer.members g (world c2)
                = if decide (g = name) then channel_layer.members name (world c) ∖ {[channel]}
                  else channel_layer.members g (world c))
  /\ (fun frame => (frame.1, msg_type frame.2))
       <$> drop (length (outbox (world c))) (outbox (world c2))
     = [(channel, "subscribed"); (channel, "unsubscribed")].
Proof.
  intros Hauth Hpre Hv [Htype1 Hname1] [Htype2 Hname2] channel c1 c2.
  assert (Hc1 : c1 = (BaseWebSocketConsumer._handle_subscribe (JDict d1) c).1)
    by (unfold c1; rewrite (receive_subscribe c d1 Hauth Htype1); reflexivity).
  rewrite (handle_subscribe_accepted c d1 name Hname1 Hpre Hv) in Hc1. simpl in Hc1.
  assert (Hc2 : c2 = (BaseWebSocketConsumer._handle_unsubscribe (JDict d2) c1).1).
  { unfold c2. rewrite (receive_unsubscribe c1 d2); [reflexivity | | exact Htype2].
    rewrite Hc1. exact Hauth. }
  assert (Hinst : inst c1 = inst c) by (rewrite Hc1; reflexivity).
  rewrite (handle_unsubscribe_accepted c1 d2 name Hname2 Hpre) in Hc2
    by (rewrite ?Hinst; assumption).
  simpl in Hc2. rewrite Hinst in Hc2. clearbody c1 c2. subst c1 c2.
  assert (Hone : forall g,
    channel_layer.members g
      (channel_layer.group_add (Consumer.valid_group_name (inst c)) name channel (world c)).1
    = if decide (g = name) then {[channel]} ∪ channel_layer.members name (world c)
      else channel_layer.members g (world c))
    by (intros g; apply members_group_add; exact Hv).
  split; [| split].
  - intros g. rewrite <- Hone. reflexivity.
  - intros g. unfold having_sent. cbn [world inst].
    rewrite members_set_outbox.
    rewrite members_group_discard. rewrite Hv.
    change (channel_layer.members ?x (set_outbox ?f ?w)) with (channel_layer.members x w).
    rewrite !Hone.
    destruct (decide (g = name)) as [-> | Hne]; [| reflexivity].
    rewrite decide_True by reflexivity.
    apply set_eq. intros x. rewrite !elem_of_difference, elem_of_union. tauto.
  - unfold having_sent. cbn [world inst outbox set_outbox].
    rewrite group_discard_keeps_outbox. cbn [outbox set_outbox].
    unfold channel_layer.group_add. rewrite Hv. cbn [fst outbox set_groups].
    rewrite <- app_assoc, drop_app_length. reflexivity.
Qed.

Lemma X11_subscribe_then_unsubscribe_witness :
  let c := mkCtx (live_world (order_of Order.Status.PENDING None None))
                 (consumer_of alice "chan-alice") in
  let d1 := [("type", JStr "subscribe"); ("group_name", JStr "user_10")] in
  let d2 := [("type", JStr "unsubscribe"); ("group_name", JStr "user_10")] in
  channel_layer.members "user_10"
    (world (BaseWebSocketConsumer.receive (Some (JDict d2))
              (BaseWebSocketConsumer.receive (Some (JDict d1)) c).1).1)
  = channel_layer.members "user_10" (world c) ∖ {["chan-alice"]}.
Proof.
  intros c d1 d2.
  destruct (X11_subscribe_then_unsubscribe c "user_10" d1 d2
              eq_refl eq_refl eq_refl (conj eq_refl eq_refl) (conj eq_refl eq_refl))
    as (_ & Hafter & _).
  rewrite (Hafter "user_10"). reflexivity.
Defined.

Lemma disconnect_run (c : Ctx Consumer.t) (name : string) (close_code : Z) :
  Consumer.group_name (inst c) = Some name ->
  Consumer.authenticated (inst c) = true ->
  name <> "" ->
  Consumer.valid_group_name (inst c) name = true ->
  BaseWebSocketConsumer.disconnect close_code c
  = (mkCtx (channel_layer.group_discard (Consumer.valid_group_name (inst c)) name
              (Consumer.channel_name (inst c)) (world c)).1
           (inst c),
     Return tt).
Proof.
  intros Hname Hauth Hne Hv.
  unfold BaseWebSocketConsumer.disconnect. unfold_consumer.
  rewrite Hname, Hauth. rewrite (bool_decide_eq_false_2 _ Hne). simpl.
  rewrite !Hv.
  destruct (groups (world c) !! name); [case_bool_decide |]; reflexivity.
Qed.

Lemma order_connect_run (c : Ctx Consumer.t) (u : User.t) :
  (forall g, Consumer.valid_group_name (inst c) g = true) ->
  exists w1,
    OrderConsumer.connect (Some u) c = (mkCtx w1 (connected_as u (inst c)), Return tt)
    /\ (User.is_client u = true ->
        Consumer.channel_name (inst c)
          ∈ channel_layer.members ("orders_client_" +:+ pretty (User.id u)) w1).
Proof.
  intros Hv.
  unfold OrderConsumer.connect, OrderConsumer._join_order_groups,
    BaseWebSocketConsumer.connect, BaseWebSocketConsumer.accept,
    BaseWebSocketConsumer.close, BaseWebSocketConsumer.send_connection_confirmation.
  unfold_consumer. simpl. rewrite !Hv. simpl.
  destruct (User.is_client u) eqn:Hclient; simpl.
  - rewrite !Hv. simpl. eexists. split; [reflexivity |]. intros _.
    unfold channel_layer.members. simpl. rewrite lookup_insert_eq. simpl.
    apply elem_of_union_l, elem_of_singleton. reflexivity.
  - destruct (User.is_worker u); simpl.
    + destruct (User.gender u) as [g |]; simpl.
      * case_bool_decide; simpl; rewrite ?Hv; simpl;
          eexists; (split; [reflexivity | discriminate]).
      * eexists. split; [reflexivity | discriminate].
    + destruct (User.is_admin u); simpl; rewrite ?Hv; simpl;
        eexists; (split; [reflexivity | discriminate]).
Qed.

Lemma notification_connect_run (c : Ctx Consumer.t) (u : User.t) :
  (forall g, Consumer.valid_group_name (inst c) g = true) ->
  exists w1,
    NotificationConsumer.connect (Some u) c
    = (mkCtx w1 (connected_as u (inst c)), Return tt)
    /\ Consumer.channel_name (inst c)
         ∈ channel_layer.members ("notifications_" +:+ pretty (User.id u)) w1.
Proof.
  intros Hv.
  unfold NotificationConsumer.connect, NotificationConsumer._join_notification_groups,
    BaseWebSocketConsumer.connect, BaseWebSocketConsumer.accept,
    BaseWebSocketConsumer.close, BaseWebSocketConsumer.send_connection_confirmation.
  unfold_consumer. simpl. rewrite !Hv. simpl. rewrite !Hv. simpl.
  destruct (User.is_admin u); simpl; rewrite ?Hv; simpl;
    eexists; (split; [reflexivity |]);
    unfold channel_layer.members; simpl.
  - destruct (decide ("notifications_admin" = "notifications_" +:+ pretty (User.id u)))
      as [<- | Hne].
    + rewrite lookup_insert_eq. simpl.
      apply elem_of_union_l, elem_of_singleton. reflexivity.
    + rewrite lookup_insert_ne by exact Hne. rewrite lookup_insert_eq. simpl.
      apply elem_of_union_l, elem_of_singleton. reflexivity.
  - rewrite lookup_insert_eq. simpl.
    apply elem_of_union_l, elem_of_singleton. reflexivity.
Qed.

Lemma leaves_personal_group_only (w1 : World) (this : Consumer.t) (u : User.t)
    (close_code : Z) :
  (forall g, Consumer.valid_group_name this g = true) ->
  let channel := Consumer.channel_name this in
  let c2 := (BaseWebSocketConsumer.disconnect close_code (mkCtx w1 (connected_as u this))).1 in
  (channel ∉ channel_layer.members (user_group (User.id u)) (world c2))
  /\ (forall g, g <> user_group (User.id u) ->
                channel_layer.members g (world c2) = channel_layer.members g w1).
Proof.
  intros Hv channel c2. unfold c2.
  rewrite (disconnect_run _ (user_group (User.id u))); try reflexivity;
    [| discriminate | apply Hv].
  cbn [fst world inst]. split.
  - rewrite members_group_discard. rewrite decide_True by reflexivity.
    change (Consumer.valid_group_name (connected_as u this)) with (Consumer.valid_group_name this).
    rewrite Hv. rewrite elem_of_difference, elem_of_singleton. tauto.
  - intros g Hg. rewrite members_group_discard. rewrite decide_False by exact Hg.
    reflexivity.
Qed.

(** X12. Disconnecting removes the channel from the connection's
    personal group [user_<id>] and from no other group: the groups the
    consumers joined by role at connect time are never left. After a
    client has connected to the order consumer and disconnected, its
    channel is still a member of [orders_client_<id>]; after any user
    has connected to the notification consumer and disconnected, its
    channel is still a member of [notifications_<id>]. *)
Theorem X12_disconnect_leaves_the_personal_group_only (c : Ctx Consumer.t) (u : User.t)
    (close_code : Z) :
  (forall g, Consumer.valid_group_name (inst c) g = true) ->
  let channel := Consumer.channel_name (inst c) in
  let personal := user_group (User.id u) in
  let after (connect : option User.t -> M (Ctx Consumer.t) unit) :=
    world (BaseWebSocketConsumer.disconnect close_code (connect (Some u) c).1).1 in
  Forall
    (fun connect =>
       (channel ∉ channel_layer.members personal (after connect))
       /\ (forall g, g <> personal ->
                     channel_layer.members g (after connect)
                     = channel_layer.members g (world (connect (Some u) c).1)))
    [OrderConsumer.connect; NotificationConsumer.connect]
  /\ (User.is_client u = true ->
      channel ∈ channel_layer.members ("orders_client_" +:+ pretty (User.id u))
                  (after OrderConsumer.connect))
  /\ channel ∈ channel_layer.members ("notifications_" +:+ pretty (User.id u))
                 (after NotificationConsumer.connect).
Proof.
  intros Hv channel personal after.
  destruct (order_connect_run c u Hv) as (w1 & Horder & Hclient).
  destruct (notification_connect_run c u Hv) as (w2 & Hnote & Hjoined).
  destruct (leaves_personal_group_only w1 (inst c) u close_code Hv) as [Hleft1 Hrest1].
  destruct (leaves_personal_group_only w2 (inst c) u close_code Hv) as [Hleft2 Hrest2].
  unfold after. rewrite Horder, Hnote. cbn [fst].
  split; [| split].
  - repeat first [apply Forall_cons_2 | apply Forall_nil_2]; cbv beta.
    + rewrite Horder. split; assumption.
    + rewrite Hnote. split; assumption.
  - intros His. rewrite Hrest1 by discriminate. apply Hclient, His.
  - rewrite Hrest2 by discriminate. exact Hjoined.
Qed.

Lemma X12_disconnect_leaves_the_personal_group_only_witness :
  let c := mkCtx (world_of (order_of Order.Status.PENDING None None))
                 (Consumer.init "chan-alice" (fun _ => true)) in
  "chan-alice"
    ∈ channel_layer.members "notifications_10"
        (world (BaseWebSocketConsumer.disconnect 1000
                  (NotificationConsumer.connect (Some alice) c).1).1).
Proof.
  intros c.
  exact (proj2 (proj2 (X12_disconnect_leaves_the_personal_group_only c alice 1000
                          (fun _ => eq_refl)))).
Defined.

(** ** Who may do what *)

(** X13. The four permission checks of the order service are ordered:
    whoever may manage an order may view it; an administrator may view,
    update, manage and cancel every order; a client may never update or
    manage an order, and may view or cancel only an order of their own;
    a user who is not an administrator may update only an order they
    are assigned to as worker; a user with none of the three roles may
    do nothing. *)
Theorem X13_permissions_are_ordered (user : User.t) (order : Order.t) :
  let view := OrderService._can_user_view_order user order in
  let update := OrderService._can_user_update_order user order in
  let manage := OrderService._can_user_manage_order user order in
  let cancel := OrderService._can_user_cancel_order user order in
  (manage = true -> view = true)
  /\ (User.is_admin user = true ->
      view = true /\ update = true /\ manage = true /\ cancel = true)
  /\ (User.is_client user = true ->
      update = false /\ manage = false
      /\ (view = true \/ cancel = true -> OrderService.client_is user order = true))
  /\ (User.is_admin user = false -> update = true ->
      User.is_worker user = true /\ Order.worker order = Some (User.id user))
  /\ (User.is_admin user = false -> User.is_client user = false ->
      User.is_worker user = false ->
      view = false /\ update = false /\ manage = false /\ cancel = false).
Proof.
  unfold OrderService._can_user_view_order, OrderService._can_user_update_order,
    OrderService._can_user_manage_order, OrderService._can_user_cancel_order,
    OrderService.worker_is, User.is_admin, User.is_client, User.is_worker,
    User.Role.ADMIN, User.Role.CLIENT, User.Role.WORKER.
  cbv zeta.
  repeat split; intros; repeat (case_bool_decide; simpl in *);
    try congruence; try tauto;
    repeat match goal with
           | H : _ \/ _ |- _ => destruct H
           end; try congruence;
    destruct (OrderService.client_is user order); simpl in *; congruence.
Qed.

Lemma X13_permissions_are_ordered_witness :
  OrderService._can_user_manage_order wanda (order_of Order.Status.PAID None None) = true
  /\ OrderService._can_user_view_order wanda (order_of Order.Status.PAID None None) = true.
Proof.
  split; [reflexivity |].
  exact (proj1 (X13_permissions_are_ordered wanda (order_of Order.Status.PAID None None))
               eq_refl).
Defined.

(** ** The status-update serializer *)



(** ** What the service operations do to a stored order *)

Lemma saved_same_status (w : World) (o o1 : Order.t) :
  Order.status o1 = Order.status o -> saved w o o1 = touched w o1.
Proof.
  intros Hsame. unfold saved, touched, stamp. rewrite Hsame.
  rewrite bool_decide_eq_true_2 by reflexivity. reflexivity.
Qed.

Lemma saved_unstamped (w : World) (o o1 : Order.t) :
  Order.status o1 <> Order.Status.PAID ->
  Order.status o1 <> Order.Status.COMPLETED ->
  saved w o o1 = touched w o1.
Proof.
  intros Hpaid Hcompleted. unfold saved, touched, stamp.
  rewrite (bool_decide_eq_false_2 _ Hpaid), (bool_decide_eq_false_2 _ Hcompleted).
  simpl. destruct (negb _); reflexivity.
Qed.

Lemma after_stored (w : World) (o : Order.t) (k : Z) (o1 : Order.t) :
  after w o k o1 [] = stored w k (saved w o o1).
Proof. unfold after, stored, set_outbox, set_orders. simpl. rewrite app_nil_r. reflexivity. Qed.

(** X16. A worker is assigned to a stored order exactly when the actor
    may manage the order, the assignee has the worker role, the order
    is Paid and no worker is assigned yet: the row then gets the worker
    and a fresh [updated_at], and nothing else changes. In every other
    case the call has no effect at all; in particular an assigned
    order is never reassigned. *)
Theorem X16_assignment_of_unassigned_paid_orders (w : World) (o : Order.t) (k : Z)
    (worker user : User.t) :
  Order.pk o = Some k -> 0 < k -> orders w !! k = Some o ->
  let out := OrderService.assign_worker_to_order worker user (mkCtx w o) in
  if OrderService._can_user_manage_order user o && User.is_worker worker
     && Order.is_paid o && negb (is_set (Order.worker o))
  then out = (stored w k (touched w (Order.set_worker (Some (User.id worker)) o)),
              Return true)
  else refused (mkCtx w o) out true.
Proof.
  intros Hpk Hk Hrow out. unfold out, refused.
  rewrite assign_worker_to_order_run. cbn [inst].
  destruct (OrderService._can_user_manage_order user o); simpl;
    [| split; [reflexivity | discriminate]].
  destruct (User.is_worker worker) eqn:Hworker; simpl;
    [| split; [reflexivity | discriminate]].
  rewrite (model_assign_worker_run w o k Hpk Hk Hrow).
  unfold Order.can_be_assigned, Order.is_paid.
  destruct (Order.status o == Order.Status.PAID); simpl;
    [| split; [reflexivity | discriminate]].
  destruct (is_set (Order.worker o)); simpl; [split; [reflexivity | discriminate] |].
  unfold User.is_worker in Hworker. rewrite Hworker. simpl.
  rewrite after_stored, saved_same_status by reflexivity. reflexivity.
Qed.

Lemma X16_assignment_of_unassigned_paid_orders_witness :
  let o := order_of Order.Status.PAID None (Some 5) in
  OrderService.assign_worker_to_order wanda root (mkCtx (world_of o) o)
  = (stored (world_of o) 1 (touched (world_of o) (Order.set_worker (Some 2) o)),
     Return true).
Proof.
  intros o.
  exact (X16_assignment_of_unassigned_paid_orders (world_of o) o 1 wanda root
           eq_refl eq_refl eq_refl).
Defined.

(** X17. Work on a stored order is started exactly when the actor may
    manage the order, is its assigned worker and the order is Paid: the
    row then becomes InProgress with a fresh [updated_at], and nothing
    else changes. An actor who is not the assigned worker (also an
    administrator) gets a permission error, and on an order in any
    other status the assigned worker gets [False]; neither has any
    effect. *)
Theorem X17_start_by_the_assigned_worker (w : World) (o : Order.t) (k : Z)
    (user : User.t) :
  Order.pk o = Some k -> 0 < k -> orders w !! k = Some o ->
  let out := OrderService.start_order_work user (mkCtx w o) in
  (if OrderService._can_user_manage_order user o && OrderService.worker_is user o
      && Order.is_paid o
   then out = (stored w k (touched w (Order.set_status Order.Status.IN_PROGRESS o)),
               Return true)
   else refused (mkCtx w o) out true)
  /\ (OrderService.worker_is user o = false -> exists e, out.2 = Raise e).
Proof.
  intros Hpk Hk Hrow out. unfold out, refused.
  rewrite start_order_work_run. cbn [inst].
  destruct (OrderService._can_user_manage_order user o); simpl;
    [| split; [split; [reflexivity | discriminate] | eauto]].
  destruct (OrderService.worker_is user o) eqn:Hassigned; simpl;
    [| split; [split; [reflexivity | discriminate] | eauto]].
  split; [| discriminate].
  rewrite (start_work_run w o k Hpk Hk Hrow).
  unfold Order.can_be_started, Order.is_paid.
  destruct (Order.status o == Order.Status.PAID); simpl;
    [| split; [reflexivity | discriminate]].
  unfold OrderService.worker_is in Hassigned. apply bool_decide_eq_true in Hassigned.
  rewrite Hassigned. simpl.
  rewrite after_stored, saved_unstamped by discriminate. reflexivity.
Qed.

Lemma X17_start_by_the_assigned_worker_witness :
  let o := order_of Order.Status.PAID (Some 2) (Some 5) in
  OrderService.start_order_work wanda (mkCtx (world_of o) o)
  = (stored (world_of o) 1 (touched (world_of o) (Order.set_status Order.Status.IN_PROGRESS o)),
     Return true).
Proof.
  intros o.
  exact (proj1 (X17_start_by_the_assigned_worker (world_of o) o 1 wanda
                  eq_refl eq_refl eq_refl)).
Defined.

(** X18. A stored order is canceled through the service exactly when
    the actor is an administrator and the order is Pending, Paid or
    InProgress, or the actor is the owning client and the order is
    Pending, or the actor is the assigned worker and the order is
    InProgress: the row then becomes Canceled with a fresh
    [updated_at], keeping [paid_at] and the worker. Every other call
    has no effect; the reason given is not stored anywhere. *)
Theorem X18_cancellation_rights (w : World) (o : Order.t) (k : Z) (user : User.t)
    (reason : string) :
  Order.pk o = Some k -> 0 < k -> orders w !! k = Some o ->
  let out := OrderService.cancel_order user reason (mkCtx w o) in
  if (User.is_admin user
      && (Order.is_pending o || Order.is_paid o || Order.is_in_progress o))
     || (User.is_client user && OrderService.client_is user o && Order.is_pending o)
     || (User.is_worker user && OrderService.worker_is user o && Order.is_in_progress o)
  then out = (stored w k (touched w (Order.set_status Order.Status.CANCELED o)),
              Return true)
  else refused (mkCtx w o) out true.
Proof.
  intros Hpk Hk Hrow out. unfold out, refused.
  rewrite service_cancel_order_run. cbn [inst].
  assert (Hdone : Order.can_be_canceled o = true ->
    OrderOps.cancel_order (mkCtx w o)
    = (stored w k (touched w (Order.set_status Order.Status.CANCELED o)), Return true)).
  { intros Hcan. rewrite (cancel_run w o k Hpk Hk Hrow), Hcan. simpl.
    rewrite after_stored, saved_unstamped by discriminate. reflexivity. }
  assert (Hnot : Order.can_be_canceled o = false ->
    OrderOps.cancel_order (mkCtx w o) = (mkCtx w o, Return false)).
  { intros Hcan. rewrite (cancel_run w o k Hpk Hk Hrow), Hcan. reflexivity. }
  revert Hdone Hnot.
  unfold OrderService._can_user_cancel_order, Order.can_be_canceled, Order.contains,
    Order.is_pending, Order.is_paid, Order.is_in_progress,
    User.is_admin, User.is_client, User.is_worker,
    User.Role.ADMIN, User.Role.CLIENT, User.Role.WORKER,
    Order.Status.PENDING, Order.Status.PAID, Order.Status.IN_PROGRESS.
  simpl. intros Hdone Hnot.
  destruct (OrderService.client_is user o), (OrderService.worker_is user o);
    repeat (case_bool_decide; simpl in * );
    try congruence;
    first [ apply Hdone; reflexivity
          | rewrite Hnot by reflexivity; split; [reflexivity | discriminate]
          | split; [reflexivity | discriminate] ].
Qed.

Lemma X18_cancellation_rights_witness :
  let o := order_of Order.Status.PENDING None None in
  OrderService.cancel_order alice "changed my mind" (mkCtx (world_of o) o)
  = (stored (world_of o) 1 (touched (world_of o) (Order.set_status Order.Status.CANCELED o)),
     Return true).
Proof.
  intros o.
  exact (X18_cancellation_rights (world_of o) o 1 alice "changed my mind"
           eq_refl eq_refl eq_refl).
Defined.

Lemma save_then_notify {A : Type} (w : World) (o : Order.t) (k : Z) (o1 : Order.t)
    (notify : Order.t -> M World unit) (fin : M (Ctx Order.t) A) (g : Order.t -> A)
    (frames : list (string * Message)) :
  Order.pk o = Some k -> 0 < k -> orders w !! k = Some o -> Order.pk o1 = Some k ->
  (let w1 := set_orders (<[k := saved w o o1]> (orders w)) w in
   notify (saved w o o1) w1 = (set_outbox (outbox w1 ++ frames) w1, Return tt)) ->
  (forall c, fin c = (c, Return (g (inst c)))) ->
  (OrderOps.save ;; order <- self ;; lift (notify order) ;; fin) (mkCtx w o1)
  = (announced frames (stored w k (saved w o o1)), Return (g (saved w o o1))).
Proof.
  intros Hpk Hk Hrow Hpk1 Hnotify Hfin. cbv zeta in Hnotify.
  rewrite (bind_return _ _ _ _ _ (save_changed w o o1 k Hpk Hk Hrow Hpk1)).
  unfold bind at 1. unfold self at 1.
  unfold bind at 1. unfold lift at 1. simpl. rewrite Hnotify.
  rewrite Hfin. reflexivity.
Qed.

Lemma refund_payment_guards (user : User.t) (reason : string) (c : Ctx Order.t) :
  PaymentService.refund_payment user reason c
  = if negb (User.is_admin user) && negb (OrderService.client_is user (inst c)) then
      (c, Raise (InsufficientPermissionsError "Cannot request refund for this order."))
    else if negb (Order.is_paid (inst c)) then
      (c, Raise (PaymentProcessingError "Order is not paid."))
    else
      try_except
        (atomic
           (assign (Order.set_status Order.Status.CANCELED) ;;
            OrderOps.save ;;
            order <- self ;;
            lift (WebSocketNotifier.notify_payment_processed order false) ;;
            ret true))
        (fun _ => raise (PaymentProcessingError "Refund processing failed.")) c.
Proof.
  unfold PaymentService.refund_payment.
  unfold bind at 1. unfold self at 1. simpl.
  unfold bind at 1.
  destruct (negb (User.is_admin user) && negb (OrderService.client_is user (inst c)));
    simpl; [reflexivity |].
  unfold bind at 1. destruct (negb (Order.is_paid (inst c))); reflexivity.
Qed.

(** X15. A refund of a stored order is granted exactly when the actor
    is an administrator or the order's client and the order is Paid (an
    order already in progress is not refunded, and a worker can never
    ask for one). The row then becomes Canceled with a fresh
    [updated_at] and keeps its [paid_at]; the client and the workers of
    the client's gender are sent a [payment_failed] envelope; the
    reason is not stored. Every other call raises and has no effect. *)
Theorem X15_refund_of_paid_orders (w : World) (o : Order.t) (k : Z) (user : User.t)
    (reason : string) :
  Order.pk o = Some k -> 0 < k -> orders w !! k = Some o ->
  let out := PaymentService.refund_payment user reason (mkCtx w o) in
  if (User.is_admin user || OrderService.client_is user o) && Order.is_paid o
  then
    let o' := touched w (Order.set_status Order.Status.CANCELED o) in
    out = (announced (payment_frames false o' w) (stored w k o'), Return true)
  else out.1 = mkCtx w o /\ exists e, out.2 = Raise e.
Proof.
  intros Hpk Hk Hrow out. unfold out.
  rewrite refund_payment_guards. cbn [inst].
  destruct (User.is_admin user), (OrderService.client_is user o); simpl; eauto;
    (destruct (Order.is_paid o) eqn:Hpaid; simpl; [| eauto]).
  all: unfold try_except, atomic.
  all: unfold bind at 1; unfold assign at 1; simpl.
  all: rewrite (save_then_notify w o k (Order.set_status Order.Status.CANCELED o)
                  (fun order => WebSocketNotifier.notify_payment_processed order false)
                  (ret true) (fun _ => true)
                  (payment_frames false
                     (touched w (Order.set_status Order.Status.CANCELED o)) w)
                  Hpk Hk Hrow Hpk);
    [ rewrite saved_unstamped by discriminate; reflexivity
    | cbv zeta; rewrite saved_unstamped by discriminate;
      rewrite notify_payment_processed_run; reflexivity
    | intros c; reflexivity ].
Qed.

Lemma X15_refund_of_paid_orders_witness :
  let o := order_of Order.Status.PAID None (Some 5) in
  let o' := touched (world_of o) (Order.set_status Order.Status.CANCELED o) in
  PaymentService.refund_payment alice "late" (mkCtx (world_of o) o)
  = (announced (payment_frames false o' (world_of o)) (stored (world_of o) 1 o'),
     Return true).
Proof.
  intros o.
  exact (X15_refund_of_paid_orders (world_of o) o 1 alice "late" eq_refl eq_refl eq_refl).
Defined.

(** ** The update endpoint of the detail view *)

(** X19. A PUT or PATCH on the detail endpoint never changes anything
    and never succeeds: the update serializer is built without an
    instance, so its validation always raises "Order instance required
    for updates." once the order has been loaded; before that the
    answer is 404 for an unknown order and 403 for one the user may not
    view. The branches that assign a worker or change the status are
    never reached. *)
Theorem X19_detail_update_never_succeeds (user : User.t) (pk : Z)
    (request_data : UpdateAttrs) (w : World) :
  OrderDetailUpdate.update user pk request_data w
  = (w,
     match orders w !! pk with
     | None => Return (mkResponse HTTP_404_NOT_FOUND (Detail "Order not found."))
     | Some order =>
         if OrderService._can_user_view_order user order
         then Raise (ValidationError "Order instance required for updates.")
         else Return (mkResponse HTTP_403_FORBIDDEN (Detail "Cannot view this order."))
     end).
Proof.
  unfold OrderDetailUpdate.update, try_except.
  destruct (orders w !! pk) as [o |] eqn:Hrow.
  - rewrite (bind_eq_get_order _ _ _ _ Hrow).
    destruct (OrderService._can_user_view_order user o); reflexivity.
  - unfold bind. rewrite (get_order_by_id_missing _ _ _ Hrow). reflexivity.
Qed.

(** ** Listing and loading agree *)

(** X23. The orders a user is listed ([get_user_orders]) are exactly
    the orders the same user can load one by one ([get_order_by_id]):
    all of them for an administrator, their own for a client, those of
    clients of their gender for a worker, none for anybody else.
    Listing changes nothing and asks for the newest first. *)
Theorem X23_listed_orders_are_the_viewable_ones (user : User.t) (w : World) :
  exists queryset,
    OrderQueries.get_user_orders user w = (w, Return queryset)
    /\ (forall k order,
           rows queryset !! k = Some order
           <-> OrderService.get_order_by_id k user w = (w, Return order))
    /\ (rows queryset <> ∅ -> ordering queryset = ["-created_at"]).
Proof.
  assert (Hload : forall k order,
    OrderService.get_order_by_id k user w = (w, Return order)
    <-> orders w !! k = Some order /\ OrderService._can_user_view_order user order = true).
  { intros k order. destruct (orders w !! k) as [o |] eqn:Hrow.
    - rewrite (get_order_by_id_found _ _ _ _ Hrow).
      destruct (OrderService._can_user_view_order user o) eqn:Hview; split.
      + intros H. simplify_eq. auto.
      + intros [H _]. simplify_eq. reflexivity.
      + discriminate.
      + intros [H Hv]. simplify_eq. congruence.
    - rewrite (get_order_by_id_missing _ _ _ Hrow). split; [discriminate |].
      intros [H _]. discriminate H. }
  unfold OrderQueries.get_user_orders, UserChecks.can_view_orders, Order.contains.
  unfold bind, get. simpl.
  unfold User.is_client, User.is_worker, User.is_admin,
    User.Role.CLIENT, User.Role.WORKER, User.Role.ADMIN in *.
  assert (Hnone : forall order,
    bool_decide (User.role user = "client") = false ->
    bool_decide (User.role user = "worker") = false ->
    bool_decide (User.role user = "admin") = false ->
    OrderService._can_user_view_order user order = false).
  { intros order Hc Hw Ha. unfold OrderService._can_user_view_order,
      User.is_client, User.is_worker, User.is_admin,
      User.Role.CLIENT, User.Role.WORKER, User.Role.ADMIN.
    rewrite Hc, Hw, Ha. reflexivity. }
  destruct (bool_decide (User.role user = "client")) eqn:Hc; simpl.
  - eexists. split; [reflexivity |]. split; [| intros _; reflexivity].
    intros k order. rewrite Hload. simpl.
    rewrite map_lookup_filter_Some. simpl.
    unfold OrderService._can_user_view_order, User.is_client, User.is_worker,
      User.is_admin, User.Role.CLIENT, User.Role.WORKER, User.Role.ADMIN.
    rewrite Hc. apply bool_decide_eq_true in Hc.
    rewrite (bool_decide_eq_false_2 (User.role user = "admin")) by (rewrite Hc; discriminate).
    rewrite (bool_decide_eq_false_2 (User.role user = "worker")) by (rewrite Hc; discriminate).
    simpl. destruct (OrderService.client_is user order); simpl; tauto.
  - destruct (bool_decide (User.role user = "worker")) eqn:Hw; simpl.
    + eexists. split; [reflexivity |]. split; [| intros _; reflexivity].
      intros k order. rewrite Hload. simpl.
      rewrite map_lookup_filter_Some. simpl.
      unfold OrderService._can_user_view_order, User.is_client, User.is_worker,
        User.is_admin, User.Role.CLIENT, User.Role.WORKER, User.Role.ADMIN.
      rewrite Hc, Hw. apply bool_decide_eq_true in Hw.
      rewrite (bool_decide_eq_false_2 (User.role user = "admin"))
        by (rewrite Hw; discriminate).
      simpl. destruct (bool_decide (User.gender (Order.client order) = User.gender user));
        simpl; tauto.
    + destruct (bool_decide (User.role user = "admin")) eqn:Ha; simpl.
      * eexists. split; [reflexivity |]. split; [| intros _; reflexivity].
        intros k order. rewrite Hload. simpl.
        unfold OrderService._can_user_view_order, User.is_admin, User.Role.ADMIN.
        rewrite Ha. tauto.
      * eexists. split; [reflexivity |]. split; [| intros Hne; contradiction Hne; reflexivity].
        intros k order. rewrite Hload. simpl. rewrite lookup_empty.
        rewrite (Hnone order eq_refl eq_refl eq_refl).
        split; [discriminate | intros [_ H]; discriminate H].
Qed.

(** ** Bulk actions of the order admin *)

Lemma order_filter_update_lookup (queryset : gset Z) (olds : list string) (new : string)
    (w : World) (k : Z) :
  orders (OrderAdmin.filter_update queryset olds new w).1 !! k
  = (fun o => if bool_decide (k ∈ queryset) && Order.contains (Order.status o) olds
              then Order.set_status new o else o)
      <$> orders w !! k.
Proof.
  unfold OrderAdmin.filter_update. simpl.
  rewrite map_lookup_imap. destruct (orders w !! k); reflexivity.
Qed.

(** X25. The four bulk actions of the order admin (mark as paid, in
    progress, completed, canceled) move a selected row only along an
    edge of the transition table and leave every other row, and every
    row that is not selected, as it is. They write the status column
    only: [Order.save] and the notifier are not called, so nothing is
    sent and the timestamps stay as they were; an order marked as paid
    this way keeps an empty [paid_at]. *)
Theorem X25_admin_bulk_actions (queryset : gset Z) (w : World) (k : Z) (o : Order.t) :
  orders w !! k = Some o ->
  Forall (fun action : gset Z -> M World nat =>
            let w' := (action queryset w).1 in
            outbox w' = outbox w
            /\ notifications w' = notifications w
            /\ exists o',
                 orders w' !! k = Some o'
                 /\ (o' = o
                     \/ (k ∈ queryset
                         /\ Order._is_valid_status_transition
                              (Order.status o) (Order.status o') = true
                         /\ o' = Order.set_status (Order.status o') o)))
         [ OrderAdmin.mark_as_paid; OrderAdmin.mark_as_in_progress;
           OrderAdmin.mark_as_completed; OrderAdmin.mark_as_canceled ].
Proof.
  intros Hrow.
  repeat first [apply Forall_cons_2 | apply Forall_nil_2].
  all: cbv beta zeta.
  all: match goal with
       | |- outbox (?action _ _).1 = _ /\ _ => unfold action
       end.
  all: split; [reflexivity |]; split; [reflexivity |].
  all: rewrite order_filter_update_lookup, Hrow; simpl.
  all: eexists; split; [reflexivity |].
  all: destruct (bool_decide (k ∈ queryset)) eqn:Hsel; simpl; [| left; reflexivity].
  all: apply bool_decide_eq_true in Hsel.
  all: unfold Order.contains; simpl.
  all: repeat (case_bool_decide; simpl); try (left; reflexivity).
  all: right; split; [exact Hsel |]; split; [| reflexivity].
  all: match goal with
       | H : Order.status _ = _ |- _ => rewrite H
       end; reflexivity.
Qed.

Lemma X25_admin_bulk_actions_witness :
  let o := order_of Order.Status.PENDING None None in
  let w' := (OrderAdmin.mark_as_paid {[1]} (world_of o)).1 in
  outbox w' = outbox (world_of o)
  /\ notifications w' = notifications (world_of o)
  /\ exists o',
       orders w' !! 1 = Some o'
       /\ (o' = o
           \/ (1 ∈ ({[1]} : gset Z)
               /\ Order._is_valid_status_transition (Order.status o) (Order.status o') = true
               /\ o' = Order.set_status (Order.status o') o)).
Proof.
  intros o.
  exact (Forall_inv (X25_admin_bulk_actions {[1]} (world_of o) 1 o eq_refl)).
Defined.

(** ** Model validation *)

(** X26. [Order.clean] changes nothing. It accepts an instance exactly
    when its worker, if any, exists and has the worker role and, for an
    instance with a primary key, the status of the stored row and the
    status of the instance are joined by an edge of the transition
    table. As the table has no edge from a status to itself, a stored
    order whose status was not changed never passes [clean]. *)
Theorem X26_clean_requires_a_transition (c : Ctx Order.t) :
  let out := OrderClean.clean c in
  out.1 = c
  /\ (out.2 = Return tt
      <-> (forall worker_id, Order.worker (inst c) = Some worker_id ->
             exists u, users (world c) !! worker_id = Some u
                       /\ User.role u = User.Role.WORKER)
          /\ (truthy_int (Order.pk (inst c)) = true ->
              exists row, (exists k, Order.pk (inst c) = Some k
                                     /\ orders (world c) !! k = Some row)
                          /\ Order._is_valid_status_transition
                               (Order.status row) (Order.status (inst c)) = true))
  /\ (persisted (world c) (inst c) -> exists e, out.2 = Raise e).
Proof.
  assert (Hrun : OrderClean.clean c
    = (c,
       match
         match Order.worker (inst c) with
         | Some worker_id =>
             match users (world c) !! worker_id with
             | Some u =>
                 if User.role u != User.Role.WORKER
                 then Some (ValidationError "Only workers can be assigned to orders.")
                 else None
             | None => Some DoesNotExist
             end
         | None => None
         end
       with
       | Some e => Raise e
       | None =>
           if truthy_int (Order.pk (inst c)) then
             match Order.pk (inst c) with
             | Some k =>
                 match orders (world c) !! k with
                 | Some row =>
                     if Order._is_valid_status_transition
                          (Order.status row) (Order.status (inst c))
                     then Return tt
                     else Raise (ValidationError "Invalid status transition.")
                 | None => Raise DoesNotExist
                 end
             | None => Raise DoesNotExist
             end
           else Return tt
       end)).
  { unfold OrderClean.clean, OrderClean.get_related_worker, OrderOps.objects_get.
    unfold_monad. simpl.
    destruct (Order.worker (inst c)) as [worker_id |]; simpl.
    - destruct (users (world c) !! worker_id) as [u |]; simpl; [| reflexivity].
      case_bool_decide; simpl; [| reflexivity].
      destruct (truthy_int (Order.pk (inst c))); simpl; [| destruct c; reflexivity].
      destruct (Order.pk (inst c)) as [k |]; simpl; [| reflexivity].
      destruct (orders (world c) !! k); simpl; [| reflexivity].
      destruct (Order._is_valid_status_transition _ _); destruct c; reflexivity.
    - destruct (truthy_int (Order.pk (inst c))); simpl; [| destruct c; reflexivity].
      destruct (Order.pk (inst c)) as [k |]; simpl; [| reflexivity].
      destruct (orders (world c) !! k); simpl; [| reflexivity].
      destruct (Order._is_valid_status_transition _ _); destruct c; reflexivity. }
  cbv zeta. rewrite Hrun. clear Hrun. cbn [fst snd]. split; [reflexivity |]. split.
  - split.
    + intros Hok. split.
      * intros worker_id Hw. rewrite Hw in Hok. simpl in Hok.
        destruct (users (world c) !! worker_id) as [u |]; [| discriminate Hok].
        exists u. split; [reflexivity |].
        case_bool_decide; simpl in Hok; [assumption | discriminate Hok].
      * intros Hpk. rewrite Hpk in Hok.
        assert (Hrest :
          match Order.pk (inst c) with
          | Some k =>
              match orders (world c) !! k with
              | Some row =>
                  if Order._is_valid_status_transition
                       (Order.status row) (Order.status (inst c))
                  then Return tt
                  else Raise (ValidationError "Invalid status transition.")
              | None => Raise DoesNotExist
              end
          | None => Raise DoesNotExist
          end = Return tt).
        { destruct (Order.worker (inst c)) as [worker_id |]; simpl in Hok; [| exact Hok].
          destruct (users (world c) !! worker_id) as [u |]; [| discriminate Hok].
          case_bool_decide; simpl in Hok; [exact Hok | discriminate Hok]. }
        clear Hok.
        destruct (Order.pk (inst c)) as [k |]; [| discriminate Hrest].
        destruct (orders (world c) !! k) as [row |] eqn:Hrow; [| discriminate Hrest].
        exists row. split; [eauto |].
        destruct (Order._is_valid_status_transition _ _); [reflexivity | discriminate Hrest].
    + intros [Hworker Hpk].
      assert (Hfirst :
        match Order.worker (inst c) with
        | Some worker_id =>
            match users (world c) !! worker_id with
            | Some u =>
                if User.role u != User.Role.WORKER
                then Some (ValidationError "Only workers can be assigned to orders.")
                else None
            | None => Some DoesNotExist
            end
        | None => None
        end = None).
      { destruct (Order.worker (inst c)) as [worker_id |]; [| reflexivity].
        destruct (Hworker worker_id eq_refl) as (u & -> & Hrole).
        rewrite bool_decide_eq_true_2 by exact Hrole. reflexivity. }
      rewrite Hfirst. simpl.
      destruct (truthy_int (Order.pk (inst c))); [| reflexivity].
      destruct (Hpk eq_refl) as (row & (k & -> & ->) & ->). reflexivity.
  - intros (k & Hpk & Hk & Hrow).
    destruct (Order.worker (inst c)) as [worker_id |]; simpl.
    + destruct (users (world c) !! worker_id) as [u |]; simpl; [| eauto].
      case_bool_decide; simpl; [| eauto].
      rewrite Hpk. simpl. rewrite bool_decide_eq_false_2 by lia. simpl.
      rewrite Hrow. rewrite no_self_transition. eauto.
    + rewrite Hpk. simpl. rewrite bool_decide_eq_false_2 by lia. simpl.
      rewrite Hrow. rewrite no_self_transition. eauto.
Qed.

(** ** Creating an order *)


(** ** The payment endpoint *)

Lemma saved_paid (w : World) (o : Order.t) :
  saved w o (Order.set_paid_at (Some (clock w)) (Order.set_status Order.Status.PAID o))
  = paid w o.
Proof.
  unfold saved, paid, touched, stamp. simpl.
  destruct (negb _); reflexivity.
Qed.

Lemma process_payment_success_run (w : World) (o : Order.t) (k : Z) :
  Order.pk o = Some k -> 0 < k -> orders w !! k = Some o ->
  Order.can_be_paid o = true ->
  PaymentService.process_payment true (mkCtx w o)
  = (announced (payment_frames true (paid w o) w) (stored w k (paid w o)),
     Return (paid w o)).
Proof.
  intros Hpk Hk Hrow Hcan.
  unfold PaymentService.process_payment.
  unfold bind at 1. unfold self at 1. simpl.
  unfold bind at 1. rewrite Hcan. simpl.
  unfold try_except, atomic.
  assert (Hprep : (assign (Order.set_status Order.Status.PAID) ;;
                   now <- timezone_now ;;
                   assign (Order.set_paid_at (Some now))) (mkCtx w o)
                  = (mkCtx w (Order.set_paid_at (Some (clock w))
                                (Order.set_status Order.Status.PAID o)),
                     Return tt)) by reflexivity.
  rewrite (bind_return _ _ _ _ _ Hprep).
  rewrite (save_then_notify w o k
             (Order.set_paid_at (Some (clock w)) (Order.set_status Order.Status.PAID o))
             (fun order => WebSocketNotifier.notify_payment_processed order true)
             self (fun order => order)
             (payment_frames true (paid w o) w)
             Hpk Hk Hrow Hpk).
  - rewrite saved_paid. reflexivity.
  - cbv zeta. rewrite saved_paid. rewrite notify_payment_processed_run. reflexivity.
  - intros c. reflexivity.
Qed.

(** X20. The payment endpoint pays a stored order exactly when the
    user may view it, the amount equals the order's price and the
    order is Pending: the row then becomes Paid with [paid_at] and
    [updated_at] set to the current instant, the answer is 200 with the
    paid order, and the client and the workers of the client's gender
    are sent [payment_success]. Otherwise nothing changes: the answer
    is 403 when the user may not view the order, and a validation error
    is raised for a wrong amount or an order that is not Pending. The
    endpoint never records a failed payment and never answers through
    its [PaymentProcessingError] clause. *)
Theorem X20_payment_endpoint (w : World) (o : Order.t) (pk : Z) (user : User.t)
    (request_data : PaymentAttrs) :
  Order.pk o = Some pk -> 0 < pk -> orders w !! pk = Some o ->
  OrderPaymentView.create user pk request_data w
  = if negb (OrderService._can_user_view_order user o) then
      (w, Return (mkPaymentResponse HTTP_403_FORBIDDEN
                    (PaymentDetail "Cannot view this order.")))
    else if amount request_data != Order.price o then
      (w, Raise (ValidationError ("Payment amount must match order price ("
                                  +:+ pretty (Order.price o) +:+ ").")))
    else if negb (Order.is_pending o) then
      (w, Raise (ValidationError "Order cannot be paid at this time."))
    else
      (world (announced (payment_frames true (paid w o) w) (stored w pk (paid w o))),
       Return (mkPaymentResponse HTTP_200_OK
                 (PaymentOrder "Payment processed successfully." (paid w o)))).
Proof.
  intros Hpk Hk Hrow.
  unfold OrderPaymentView.create, try_except.
  rewrite (bind_eq_get_order _ _ _ _ Hrow).
  destruct (OrderService._can_user_view_order user o); simpl; [| reflexivity].
  unfold OrderPaymentSerializer.validate.
  unfold bind at 1. unfold bind at 1.
  destruct (amount request_data != Order.price o); simpl; [reflexivity |].
  unfold bind at 1. unfold Order.is_pending.
  destruct (Order.can_be_paid o) eqn:Hcan; simpl.
  - unfold Order.can_be_paid in Hcan. rewrite Hcan. simpl.
    unfold bind at 1, with_instance.
    rewrite (process_payment_success_run w o pk Hpk Hk Hrow Hcan). reflexivity.
  - unfold Order.can_be_paid in Hcan. rewrite Hcan. reflexivity.
Qed.

Lemma X20_payment_endpoint_witness :
  let o := order_of Order.Status.PENDING None None in
  let w := live_world o in
  OrderPaymentView.create alice 1 (mkPaymentAttrs "card" 1000 None) w
  = (world (announced (payment_frames true (paid w o) w) (stored w 1 (paid w o))),
     Return (mkPaymentResponse HTTP_200_OK
               (PaymentOrder "Payment processed successfully." (paid w o)))).
Proof.
  intros o w.
  exact (X20_payment_endpoint w o 1 alice (mkPaymentAttrs "card" 1000 None)
           eq_refl eq_refl eq_refl).
Defined.

(** ** The action endpoint *)

Lemma with_instance_refused {A : Type} (w : World) (o : Order.t) (m : M (Ctx Order.t) A)
    (e : Exception) :
  m (mkCtx w o) = (mkCtx w o, Raise e) -> with_instance o m w = (w, Raise e).
Proof. intros H. unfold with_instance. rewrite H. reflexivity. Qed.

Lemma with_instance_guarded (w : World) (o : Order.t) (k : Z) (new_status : string)
    (m : M (Ctx Order.t) bool) (guard : bool) :
  (guard = true ->
   Order._is_valid_status_transition (Order.status o) new_status = true) ->
  m (mkCtx w o)
  = (if negb guard then (mkCtx w o, Return false)
     else (after w o k (Order.set_status new_status o) [], Return true)) ->
  moves_or_refuses w o k new_status (with_instance o m w).
Proof.
  intros Hedge Hrun. unfold with_instance. rewrite Hrun.
  destruct guard; cbn [negb].
  - left. split; [auto |]. rewrite after_stored. reflexivity.
  - right. split; [reflexivity |]. intros r Hr. simpl in Hr. simplify_eq. reflexivity.
Qed.

Lemma refuses_raise (w : World) (o : Order.t) (k : Z) (new_status : string)
    (e : Exception) :
  moves_or_refuses w o k new_status (w, Raise e).
Proof. right. split; [reflexivity | discriminate]. Qed.

Lemma start_moves_or_refuses (w : World) (o : Order.t) (k : Z) (user : User.t) :
  Order.pk o = Some k -> 0 < k -> orders w !! k = Some o ->
  moves_or_refuses w o k Order.Status.IN_PROGRESS
    (with_instance o (OrderService.start_order_work user) w).
Proof.
  intros Hpk Hk Hrow.
  pose proof (start_order_work_run user (mkCtx w o)) as Hrun. cbn [inst] in Hrun.
  destruct (negb (OrderService._can_user_manage_order user o));
    [rewrite (with_instance_refused _ _ _ _ Hrun); apply refuses_raise |].
  destruct (negb (OrderService.worker_is user o));
    [rewrite (with_instance_refused _ _ _ _ Hrun); apply refuses_raise |].
  rewrite (start_work_run w o k Hpk Hk Hrow) in Hrun.
  apply (with_instance_guarded w o k _ _ (Order.can_be_started o)); [| exact Hrun].
  unfold Order.can_be_started. intros Hg. apply andb_true_iff in Hg as [Hs _].
  apply bool_decide_eq_true in Hs. rewrite Hs. reflexivity.
Qed.

Lemma complete_moves_or_refuses (w : World) (o : Order.t) (k : Z) (user : User.t) :
  Order.pk o = Some k -> 0 < k -> orders w !! k = Some o ->
  moves_or_refuses w o k Order.Status.COMPLETED
    (with_instance o (OrderService.complete_order user) w).
Proof.
  intros Hpk Hk Hrow.
  pose proof (service_complete_order_run user (mkCtx w o)) as Hrun. cbn [inst] in Hrun.
  destruct (negb (OrderService._can_user_manage_order user o));
    [rewrite (with_instance_refused _ _ _ _ Hrun); apply refuses_raise |].
  destruct (negb (OrderService.worker_is user o));
    [rewrite (with_instance_refused _ _ _ _ Hrun); apply refuses_raise |].
  rewrite (complete_run w o k Hpk Hk Hrow) in Hrun.
  apply (with_instance_guarded w o k _ _ (Order.can_be_completed o)); [| exact Hrun].
  unfold Order.can_be_completed. intros Hg. apply andb_true_iff in Hg as [Hs _].
  apply bool_decide_eq_true in Hs. rewrite Hs. reflexivity.
Qed.

Lemma cancel_moves_or_refuses (w : World) (o : Order.t) (k : Z) (user : User.t)
    (reason : string) :
  Order.pk o = Some k -> 0 < k -> orders w !! k = Some o ->
  moves_or_refuses w o k Order.Status.CANCELED
    (with_instance o (OrderService.cancel_order user reason) w).
Proof.
  intros Hpk Hk Hrow.
  pose proof (service_cancel_order_run user reason (mkCtx w o)) as Hrun.
  cbn [inst] in Hrun.
  destruct (negb (OrderService._can_user_cancel_order user o));
    [rewrite (with_instance_refused _ _ _ _ Hrun); apply refuses_raise |].
  rewrite (cancel_run w o k Hpk Hk Hrow) in Hrun.
  apply (with_instance_guarded w o k _ _ (Order.can_be_canceled o)); [| exact Hrun].
  unfold Order.can_be_canceled, Order.contains. simpl. intros Hg.
  repeat case_bool_decide; try discriminate Hg;
    match goal with H : Order.status o = _ |- _ => rewrite H end; reflexivity.
Qed.

Lemma answer_to (w : World) (o : Order.t) (k : Z) (new_status : string)
    (m : M World (bool * Order.t)) (done failed : string) :
  moves_or_refuses w o k new_status (m w) ->
  let out := try_except (r <- m ;; OrderActionView.answer (fst r) done failed)
                        OrderDetailView.handler w in
  (Order._is_valid_status_transition (Order.status o) new_status = true
   /\ out = (world (stored w k (saved w o (Order.set_status new_status o))),
             Return (mkResponse HTTP_200_OK (Detail done))))
  \/ (out.1 = w /\ forall response, out.2 = Return response -> client_error response).
Proof.
  intros [[Hedge Hrun] | [Hsame Hfalse]] out; unfold out, try_except, bind.
  - left. split; [exact Hedge |]. rewrite Hrun. reflexivity.
  - right. destruct (m w) as [w' [[success o'] | e]]; simpl in *; subst w'.
    + pose proof (Hfalse (success, o') eq_refl) as Hs. simpl in Hs. subst success.
      simpl. split; [reflexivity |].
      intros response Hr. simplify_eq. unfold client_error. simpl.
      unfold HTTP_400_BAD_REQUEST. lia.
    + destruct e; simpl; split; try reflexivity; intros response Hr; simplify_eq;
        unfold client_error; simpl; unfold HTTP_404_NOT_FOUND, HTTP_403_FORBIDDEN; lia.
Qed.

Lemma post_run (blank : string -> bool) (w : World) (o : Order.t) (pk : Z)
    (user : User.t) (request_data : ActionAttrs) :
  orders w !! pk = Some o ->
  OrderActionView.post blank user pk request_data w
  = if negb (OrderService._can_user_view_order user o) then
      (w, Return (mkResponse HTTP_403_FORBIDDEN (Detail "Cannot view this order.")))
    else if (act_action request_data == "cancel") && blank (get_reason request_data) then
      (w, Raise (ValidationError "Reason is required for cancellation."))
    else if act_action request_data == "start_work" then
      try_except
        (r <- with_instance o (OrderService.start_order_work user) ;;
         OrderActionView.answer (fst r) "Work started successfully."
           "Cannot start work on this order.")
        OrderDetailView.handler w
    else if act_action request_data == "complete" then
      try_except
        (r <- with_instance o (OrderService.complete_order user) ;;
         OrderActionView.answer (fst r) "Order completed successfully."
           "Cannot complete this order.")
        OrderDetailView.handler w
    else if act_action request_data == "cancel" then
      try_except
        (r <- with_instance o
                (OrderService.cancel_order user (get_reason request_data)) ;;
         OrderActionView.answer (fst r) "Order canceled successfully."
           "Cannot cancel this order.")
        OrderDetailView.handler w
    else
      (w, Return (mkResponse HTTP_400_BAD_REQUEST
                    (Detail ("Unknown action: " +:+ act_action request_data)))).
Proof.
  intros Hrow. unfold OrderActionView.post. unfold try_except at 1.
  rewrite (bind_eq_get_order _ _ _ _ Hrow).
  destruct (OrderService._can_user_view_order user o); [| reflexivity].
  unfold OrderActionSerializer.validate. cbv zeta.
  unfold bind at 1. unfold bind at 1.
  destruct ((act_action request_data == "cancel") && blank (get_reason request_data));
    simpl; [reflexivity |].
  repeat case_bool_decide; reflexivity.
Qed.

(** X21. The action endpoint answers 200 only when it has moved the
    stored order along the edge of the transition table that belongs to
    the action (start_work to InProgress, complete to Completed, cancel
    to Canceled) and saved it. In every other case nothing has changed
    and the answer, if there is one, is a 4xx. Whatever happens, the
    endpoint sends nothing to any socket: a status change made through
    it is not announced. *)
Theorem X21_action_endpoint (blank : string -> bool) (w : World) (o : Order.t) (pk : Z)
    (user : User.t) (request_data : ActionAttrs) :
  Order.pk o = Some pk -> 0 < pk -> orders w !! pk = Some o ->
  let out := OrderActionView.post blank user pk request_data w in
  outbox out.1 = outbox w
  /\ ((exists new_status detail,
          (act_action request_data, new_status) ∈ action_target
          /\ Order._is_valid_status_transition (Order.status o) new_status = true
          /\ out = (world (stored w pk (saved w o (Order.set_status new_status o))),
                    Return (mkResponse HTTP_200_OK (Detail detail))))
      \/ (out.1 = w
          /\ forall response, out.2 = Return response -> client_error response)).
Proof.
  intros Hpk Hk Hrow out.
  assert (Hcases :
    (exists new_status detail,
        (act_action request_data, new_status) ∈ action_target
        /\ Order._is_valid_status_transition (Order.status o) new_status = true
        /\ out = (world (stored w pk (saved w o (Order.set_status new_status o))),
                  Return (mkResponse HTTP_200_OK (Detail detail))))
    \/ (out.1 = w
        /\ forall response, out.2 = Return response -> client_error response)).
  { unfold out. rewrite (post_run blank w o pk user request_data Hrow).
    destruct (OrderService._can_user_view_order user o); cbn [negb].
    2:{ right. split; [reflexivity |]. intros response Hr. simpl in Hr. simplify_eq.
        unfold client_error. simpl. unfold HTTP_403_FORBIDDEN. lia. }
    destruct ((act_action request_data == "cancel") && blank (get_reason request_data)).
    { right. split; [reflexivity | discriminate]. }
    case_bool_decide as Hstart.
    { destruct (answer_to w o pk Order.Status.IN_PROGRESS
                  (with_instance o (OrderService.start_order_work user))
                  "Work started successfully." "Cannot start work on this order."
                  (start_moves_or_refuses w o pk user Hpk Hk Hrow))
        as [[Hedge Hrun] | Hno]; [left | right; exact Hno].
      exists Order.Status.IN_PROGRESS, "Work started successfully.".
      rewrite Hstart. split; [unfold action_target; set_solver |]. split; assumption. }
    case_bool_decide as Hcomplete.
    { destruct (answer_to w o pk Order.Status.COMPLETED
                  (with_instance o (OrderService.complete_order user))
                  "Order completed successfully." "Cannot complete this order."
                  (complete_moves_or_refuses w o pk user Hpk Hk Hrow))
        as [[Hedge Hrun] | Hno]; [left | right; exact Hno].
      exists Order.Status.COMPLETED, "Order completed successfully.".
      rewrite Hcomplete. split; [unfold action_target; set_solver |]. split; assumption. }
    case_bool_decide as Hcancel.
    { destruct (answer_to w o pk Order.Status.CANCELED
                  (with_instance o
                     (OrderService.cancel_order user (get_reason request_data)))
                  "Order canceled successfully." "Cannot cancel this order."
                  (cancel_moves_or_refuses w o pk user (get_reason request_data)
                     Hpk Hk Hrow))
        as [[Hedge Hrun] | Hno]; [left | right; exact Hno].
      exists Order.Status.CANCELED, "Order canceled successfully.".
      rewrite Hcancel. split; [unfold action_target; set_solver |]. split; assumption. }
    right. split; [reflexivity |]. intros response Hr. simpl in Hr. simplify_eq.
    unfold client_error. simpl. unfold HTTP_400_BAD_REQUEST. lia. }
  split; [| exact Hcases].
  destruct Hcases as [(new_status & detail & _ & _ & ->) | [-> _]]; reflexivity.
Qed.

Lemma X21_action_endpoint_witness :
  let o := order_of Order.Status.PAID (Some 2) (Some 5) in
  let w := live_world o in
  outbox (OrderActionView.post (fun reason => reason == "") wanda 1
            (mkActionAttrs "start_work" None) w).1
  = outbox w.
Proof.
  intros o w.
  exact (proj1 (X21_action_endpoint (fun reason => reason == "") w o 1 wanda
                  (mkActionAttrs "start_work" None) eq_refl eq_refl eq_refl)).
Defined.

(** ** The status request of the order consumer *)



(** ** The worker field of a status update *)

Lemma saved_worker (w : World) (o o1 : Order.t) :
  Order.worker (saved w o o1) = Order.worker o1.
Proof.
  unfold saved, stamp.
  repeat match goal with |- context [if ?b then _ else _] => destruct b end; reflexivity.
Qed.

Lemma transition_target_nonempty (old : string) :
  Order._is_valid_status_transition old "" = false.
Proof.
  unfold Order._is_valid_status_transition, Order.valid_transitions. simpl.
  repeat case_bool_decide; reflexivity.
Qed.

(** X27. The status endpoint checks a [worker_id] only when the request
    asks for Paid (or for no change of status). On every other legal
    transition, requested by a user who may view and update the order,
    the [worker_id] of the request is written to the order as it is:
    the answer is 200 and the stored order has the requested status and
    the requested worker, whoever that user is (it need not have the
    worker role or the client's gender, and a worker already assigned
    is replaced). *)
Theorem X27_status_update_stores_worker_unchecked (w : World) (o : Order.t) (pk : Z)
    (user : User.t) (attrs : Attrs) (new_status : string) (worker_id : Z) (u : User.t) :
  Order.pk o = Some pk -> 0 < pk -> orders w !! pk = Some o ->
  OrderService._can_user_view_order user o = true ->
  OrderService._can_user_update_order user o = true ->
  attr_status attrs = Some new_status ->
  Order._is_valid_status_transition (Order.status o) new_status = true ->
  new_status <> Order.Status.PAID ->
  attr_worker_id attrs = Some (Some worker_id) ->
  users w !! worker_id = Some u ->
  let o' := saved w o (updated_to new_status attrs o) in
  exists frames,
    OrderStatusUpdateView.update user pk attrs w
    = (world (announced frames (stored w pk o')),
       Return (mkResponse HTTP_200_OK (OrderDetail o')))
    /\ Order.status o' = new_status
    /\ Order.worker o' = Some worker_id.
Proof.
  intros Hpk Hk Hrow Hview Hupdate Hstatus Hvalid Hpaid Hworker _ o'.
  assert (Hne : new_status <> "").
  { intros ->. rewrite transition_target_nonempty in Hvalid. discriminate Hvalid. }
  assert (Hdiff : new_status <> Order.status o).
  { intros ->. rewrite no_self_transition in Hvalid. discriminate Hvalid. }
  destruct (update_order_status_run w o pk Hpk Hk Hrow new_status user
              (validated_kwargs attrs) Hupdate Hvalid) as [frames Hrun].
  cbv zeta in Hrun. fold (updated_to new_status attrs o) in Hrun. fold o' in Hrun.
  exists frames. split; [| split].
  - unfold OrderStatusUpdateView.update, try_except.
    rewrite (bind_eq_get_order _ _ _ _ Hrow), Hview.
    unfold OrderStatusUpdateSerializer.validate.
    rewrite Hstatus. simpl.
    rewrite (bool_decide_eq_false_2 (new_status = "")) by exact Hne. simpl.
    rewrite (bool_decide_eq_false_2 (Some new_status = Some (Order.status o)))
      by congruence.
    rewrite Hvalid. simpl.
    rewrite (bool_decide_eq_false_2 (Some new_status = Some Order.Status.PAID))
      by congruence.
    rewrite andb_false_r.
    unfold bind at 1. unfold bind at 1. simpl.
    rewrite Hstatus.
    rewrite (bool_decide_eq_false_2 (Some new_status = Some (Order.status o)))
      by congruence.
    unfold bind at 1, with_instance. rewrite Hrun. cbn [snd fst].
    change (inst (after w o pk (updated_to new_status attrs o) frames)) with o'.
    assert (Hs : Order.status o' = new_status)
      by (unfold o'; rewrite saved_status; reflexivity).
    rewrite Hs. rewrite (bool_decide_eq_false_2 (new_status = Order.Status.PAID))
      by exact Hpaid.
    rewrite andb_false_r. reflexivity.
  - unfold o'. rewrite saved_status. reflexivity.
  - unfold o', updated_to. rewrite saved_worker. simpl.
    unfold validated_kwargs. rewrite Hstatus, Hworker.
    destruct (attr_reason attrs); reflexivity.
Qed.

Lemma X27_status_update_stores_worker_unchecked_witness :
  let o := order_of Order.Status.IN_PROGRESS (Some 2) (Some 5) in
  let attrs := mkAttrs (Some Order.Status.COMPLETED) (Some (Some 11)) None in
  exists frames,
    OrderStatusUpdateView.update wanda 1 attrs (world_of o)
    = (world (announced frames
                (stored (world_of o) 1
                   (saved (world_of o) o (updated_to Order.Status.COMPLETED attrs o)))),
       Return (mkResponse HTTP_200_OK
                 (OrderDetail
                    (saved (world_of o) o (updated_to Order.Status.COMPLETED attrs o)))))
    /\ Order.status (saved (world_of o) o (updated_to Order.Status.COMPLETED attrs o))
       = Order.Status.COMPLETED
    /\ Order.worker (saved (world_of o) o (updated_to Order.Status.COMPLETED attrs o))
       = Some 11.
Proof.
  intros o attrs.
  refine (X27_status_update_stores_worker_unchecked (world_of o) o 1 wanda attrs
            Order.Status.COMPLETED 11 carol
            eq_refl eq_refl eq_refl eq_refl eq_refl eq_refl eq_refl _ eq_refl eq_refl).
  discriminate.
Defined.
